(** * Chem2TextQA: acquisition and normalisation pipeline

    A shallow embedding of the Python sources of [chem2textqa]
    (scrapers, storage, rate limiter, orchestrator) together with the
    properties stated for them.

    Conventions of the embedding.
    - A Python [str] is a Rocq [string] (a sequence of bytes; the
      characters outside ASCII are the bytes of their UTF-8 encoding and
      are never white space nor digits).  So the string operations are
      those of Python on ASCII text, and the equations that give the
      result of the date parser for an arbitrary date string are stated
      of ASCII strings ([is_ascii]).
    - A Python [dict] with string keys is a [gmap string _].
    - [Optional[T]] is [option T]; Python truthiness is written out
      ([truthy_str], [truthy_opt], [negb (is_nil _)]).
    - An operation that can raise returns a [result]; a function that
      talks to an upstream service threads the log of the exchanges made
      so far (oldest first) and reads the upstream's answer to its next
      request from an oracle indexed by the length of that log.
    - A loop the source does not bound takes fuel and returns an
      [option]: [None] stands for a loop that is still running. *)

From Stdlib Require Import ZArith Lia Bool Ascii QArith Lqa.
From Stdlib Require String.
From stdpp Require Import base option list gmap strings.

Open Scope Z_scope.

(** ** Python strings *)

Module Py.

(** [str.isspace] on one character, restricted to ASCII:
    TAB, LF, VT, FF, CR, FS, GS, RS, US and SPACE. *)
Definition is_space (c : ascii) : bool :=
  let n := Ascii.nat_of_ascii c in
  ((9 <=? n)%nat && (n <=? 13)%nat) || ((28 <=? n)%nat && (n <=? 32)%nat).

Definition is_digit (c : ascii) : option Z :=
  let n := Ascii.nat_of_ascii c in
  if ((48 <=? n)%nat && (n <=? 57)%nat) then Some (Z.of_nat n - 48) else None.

Definition truthy_str (s : string) : bool :=
  match s with EmptyString => false | _ => true end.

Definition truthy_opt (o : option string) : bool :=
  match o with Some s => truthy_str s | None => false end.

(** [s.lstrip(chars)] / [s.rstrip(chars)] / [s.strip(chars)] with the set
    of characters given as a predicate. *)
Fixpoint lstrip_by (p : ascii -> bool) (s : string) : string :=
  match s with
  | EmptyString => EmptyString
  | String c s' => if p c then lstrip_by p s' else s
  end.

Fixpoint rstrip_by (p : ascii -> bool) (s : string) : string :=
  match s with
  | EmptyString => EmptyString
  | String c s' =>
      match rstrip_by p s' with
      | EmptyString => if p c then EmptyString else String c EmptyString
      | r => String c r
      end
  end.

Definition strip_by (p : ascii -> bool) (s : string) : string :=
  rstrip_by p (lstrip_by p s).

(** [s.strip()] *)
Definition strip (s : string) : string := strip_by is_space s.

(** [s.split()]: the maximal runs of characters that are not white
    space.  [cur] is the run being read, reversed. *)
Fixpoint split_ws_go (cur : list ascii) (s : string) : list string :=
  let flush := match cur with
               | [] => []
               | _ => [String.string_of_list_ascii (rev cur)]
               end in
  match s with
  | EmptyString => flush
  | String c s' =>
      if is_space c then flush ++ split_ws_go [] s'
      else split_ws_go (c :: cur) s'
  end.

Definition split_ws (s : string) : list string := split_ws_go [] s.

(** [s.split(sep)] for a separator of one character: always at least
    one piece, empty pieces kept. *)
Fixpoint split_char (sep : ascii) (s : string) : list string :=
  match s with
  | EmptyString => [EmptyString]
  | String c s' =>
      if Ascii.eqb c sep then EmptyString :: split_char sep s'
      else match split_char sep s' with
           | [] => [String c EmptyString]
           | p :: ps => String c p :: ps
           end
  end.

(** [s.startswith(p)] *)
Fixpoint startswith (p s : string) : bool :=
  match p, s with
  | EmptyString, _ => true
  | String a p', String b s' => Ascii.eqb a b && startswith p' s'
  | String _ _, EmptyString => false
  end.

Fixpoint drop (n : nat) (s : string) : string :=
  match n, s with
  | O, _ => s
  | S n', String _ s' => drop n' s'
  | S _, EmptyString => EmptyString
  end.

(** [s[:n]] for [n >= 0] *)
Fixpoint take (n : nat) (s : string) : string :=
  match n, s with
  | S n', String c s' => String c (take n' s')
  | _, _ => EmptyString
  end.

(** [s[a:b]] for [0 <= a <= b] *)
Definition slice (a b : nat) (s : string) : string := take (b - a) (drop a s).

(** [p in s] *)
Fixpoint contains (p s : string) : bool :=
  startswith p s ||
  match s with
  | EmptyString => false
  | String _ s' => contains p s'
  end.

(** [s.endswith(p)] *)
Definition endswith (p s : string) : bool :=
  let n := String.length s in
  let k := String.length p in
  (k <=? n)%nat && String.eqb (drop (n - k) s) p.

(** [s.replace(old, new)] for a non-empty [old]: leftmost,
    non-overlapping occurrences.  [skip] counts the characters of an
    occurrence still to be dropped. *)
Fixpoint replace_go (old new : string) (skip : nat) (s : string) : string :=
  match s with
  | EmptyString => EmptyString
  | String c s' =>
      match skip with
      | S k => replace_go old new k s'
      | O =>
          if startswith old s
          then new +:+ replace_go old new (String.length old - 1) s'
          else String c (replace_go old new O s')
      end
  end.

Definition replace (old new s : string) : string := replace_go old new O s.

(** [s.split(sep)] for a non-empty [sep] *)
Fixpoint split_str_go (sep : string) (skip : nat) (s : string) : list string :=
  match s with
  | EmptyString => [EmptyString]
  | String c s' =>
      match skip with
      | S k => split_str_go sep k s'
      | O =>
          if startswith sep s
          then EmptyString :: split_str_go sep (String.length sep - 1) s'
          else match split_str_go sep O s' with
               | [] => [String c EmptyString]
               | p :: ps => String c p :: ps
               end
      end
  end.

Definition split_str (sep s : string) : list string := split_str_go sep O s.

(** [a or b] on values that are [None] or a string *)
Definition or_else (a b : option string) : option string :=
  if truthy_opt a then a else b.

Definition lower_char (c : ascii) : ascii :=
  let n := Ascii.nat_of_ascii c in
  if ((65 <=? n)%nat && (n <=? 90)%nat) then Ascii.ascii_of_nat (n + 32) else c.

(** [s.lower()] on ASCII letters *)
Fixpoint lower (s : string) : string :=
  match s with
  | EmptyString => EmptyString
  | String c s' => String (lower_char c) (lower s')
  end.

(** The digits of a Python integer literal as [int] reads them: a digit,
    then digits, each optionally preceded by one underscore. *)
Fixpoint int_digits (acc : Z) (after_digit : bool) (s : string) : option Z :=
  match s with
  | EmptyString => if after_digit then Some acc else None
  | String c s' =>
      match is_digit c with
      | Some d => int_digits (acc * 10 + d) true s'
      | None =>
          if Ascii.eqb c "_"%char && after_digit then
            match s' with
            | String c' _ =>
                match is_digit c' with
                | Some _ => int_digits acc false s'
                | None => None
                end
            | EmptyString => None
            end
          else None
      end
  end.

(** [isspace] of C, the white space [int] skips around an ASCII
    literal: TAB, LF, VT, FF, CR and SPACE. *)
Definition is_c_space (c : ascii) : bool :=
  let n := Ascii.nat_of_ascii c in
  ((9 <=? n)%nat && (n <=? 13)%nat) || (n =? 32)%nat.

(** The default of [sys.get_int_max_str_digits()] *)
Definition MAX_STR_DIGITS : nat := 4300.

(** The number of digits of a literal *)
Fixpoint digit_count (s : string) : nat :=
  match s with
  | EmptyString => O
  | String c s' =>
      match is_digit c with
      | Some _ => S (digit_count s')
      | None => digit_count s'
      end
  end.

(** [int(s)] on a string of ASCII characters: [None] stands for
    [ValueError], raised for a text that is not an integer literal and
    for a literal of more than [MAX_STR_DIGITS] digits. *)
Definition int (s : string) : option Z :=
  let literal := strip_by is_c_space s in
  if (MAX_STR_DIGITS <? digit_count literal)%nat then None
  else
    match literal with
    | String "+"%char r => int_digits 0 false r
    | String "-"%char r => Z.opp <$> int_digits 0 false r
    | r => int_digits 0 false r
    end.

(** [s.isascii()] *)
Definition is_ascii (s : string) : bool :=
  forallb (fun c => (Ascii.nat_of_ascii c <? 128)%nat)
          (String.list_ascii_of_string s).

End Py.

(** ** Calendar dates ([datetime.date]) *)

Record date := Date { year : Z; month : Z; day : Z }.

Global Instance date_eq_dec : EqDecision date.
Proof. solve_decision. Defined.

Definition is_leap (y : Z) : bool :=
  (y mod 4 =? 0) && (negb (y mod 100 =? 0) || (y mod 400 =? 0)).

Definition days_in_month (y m : Z) : Z :=
  if m =? 2 then (if is_leap y then 29 else 28)
  else if (m =? 4) || (m =? 6) || (m =? 9) || (m =? 11) then 30
  else 31.

(** [date(y, m, d)]: [None] stands for the [ValueError] raised outside
    [MINYEAR..MAXYEAR], [1..12] and the days of the month. *)
Definition mk_date (y m d : Z) : option date :=
  if (1 <=? y) && (y <=? 9999) && (1 <=? m) && (m <=? 12)
     && (1 <=? d) && (d <=? days_in_month y m)
  then Some (Date y m d) else None.

(** [datetime.datetime] in UTC *)
Record datetime := DateTime {
  dt_date : date; hour : Z; minute : Z; second : Z; microsecond : Z }.

Global Instance datetime_eq_dec : EqDecision datetime.
Proof. solve_decision. Defined.

(** ** Exceptions and results *)

Inductive exn :=
  | ConnectionError      (* requests.ConnectionError *)
  | Timeout              (* requests.Timeout *)
  | HTTPError            (* requests.HTTPError, urllib.error.HTTPError *)
  | ValidationError      (* pydantic.ValidationError *)
  | FileNotFoundError
  | OverflowError
  | BadParameter (hint : string)   (* click.BadParameter *)
  | OtherError (what : string).    (* any other exception *)

Global Instance exn_eq_dec : EqDecision exn.
Proof. solve_decision. Defined.

Inductive result (A : Type) :=
  | Ok (a : A)
  | Raise (e : exn).
Global Arguments Ok {A} a.
Global Arguments Raise {A} e.

(** The range of a C [int] *)
Definition INT_MIN : Z := -2147483648.
Definition INT_MAX : Z := 2147483647.

Definition fits_c_int (z : Z) : bool := (INT_MIN <=? z) && (z <=? INT_MAX).

(** [date(y, m, d)] with its two exceptions told apart.  The arguments
    are converted to C [int]s first: one that does not fit raises
    [OverflowError].  Then the ranges are checked: [Ok None] stands for
    the [ValueError] of [mk_date]. *)
Definition date_of (y m d : Z) : result (option date) :=
  if fits_c_int y && fits_c_int m && fits_c_int d then Ok (mk_date y m d)
  else Raise OverflowError.

(** ** The document model ([models/document.py]) *)

Inductive SourceType := PUBMED | GOOGLE_PATENTS | USPTO | EPO.

Global Instance SourceType_eq_dec : EqDecision SourceType.
Proof. solve_decision. Defined.

(** The value of the enum member, [SourceType(str, Enum)] *)
Definition SourceType_value (s : SourceType) : string :=
  match s with
  | PUBMED => "pubmed"
  | GOOGLE_PATENTS => "google_patents"
  | USPTO => "uspto"
  | EPO => "epo"
  end.

Record Identifier := { id_type : string; id_value : string }.

Record Author := { name : string; affiliation : option string }.

(** The values a [metadata] dict holds: what JSON can carry. *)
#[warnings="-register-all"]
Inductive json :=
  | JNull
  | JBool (b : bool)
  | JNum (n : Z)
  | JStr (s : string)
  | JArr (l : list json)
  | JObj (l : list (string * json)).

Definition json_of_strings (l : list string) : json := JArr (JStr <$> l).

Definition json_of_opt (o : option string) : json :=
  match o with Some s => JStr s | None => JNull end.

Record ScientificDocument := {
  source : SourceType;
  title : string;
  abstract : option string;
  authors : list Author;
  publication_date : option date;
  identifiers : list Identifier;
  chemical_entities : list string;
  full_text_url : option string;
  keywords : list string;
  journal_or_office : option string;
  metadata : gmap string json;
  scraped_at : datetime }.

(** A field of a JSON object as Python sees it after [json()]: the key can
    be missing, hold [null], or hold a string. *)
Inductive jfield := Absent | Null | Str (s : string).

(** [d.get(key)] *)
Definition jget (f : jfield) : option string :=
  match f with Str s => Some s | _ => None end.

(** [d.get(key, default)] *)
Definition jget_default (f : jfield) (default : option string) : option string :=
  match f with Absent => default | Null => None | Str s => Some s end.

(** [f"{x}"] of a value that is [None] or a string *)
Definition fmt (o : option string) : string :=
  match o with Some s => s | None => "None" end.

(** ** The literature-index adapter ([scrapers/pubmed.py]) *)

Module PubMed.

Definition BATCH_SIZE : Z := 500.

(** A record as [Bio.Medline.parse] yields it: a dict whose text keys
    (TI, PMID, AB, DP, JT, ...) hold one string and whose other keys
    (AU, AID, MH, OT, PT, LA, ...) hold a list of strings. *)
Record record := {
  text : gmap string string;
  lines : gmap string (list string) }.

Definition month_map : gmap string Z :=
  list_to_map
    [("Jan", 1); ("Feb", 2); ("Mar", 3); ("Apr", 4); ("May", 5); ("Jun", 6);
     ("Jul", 7); ("Aug", 8); ("Sep", 9); ("Oct", 10); ("Nov", 11); ("Dec", 12)].

(** [PubMedScraper._parse_date].  The [try] block turns the [IndexError]
    of [parts[0]] and the [ValueError] of [int] and [date] into [None]
    ([Ok None]); it does not catch the [OverflowError] of [date]. *)
Definition _parse_date (date_str : string) : result (option date) :=
  if negb (Py.truthy_str date_str) then Ok None
  else
    let parts := Py.split_ws date_str in
    match parts !! 0%nat ≫= Py.int with
    | None => Ok None
    | Some year =>
        let month := match parts !! 1%nat with
                     | Some p1 => default 1 (month_map !! p1)
                     | None => 1
                     end in
        match (match parts !! 2%nat with
               | Some p2 => Py.int p2
               | None => Some 1
               end) with
        | None => Ok None
        | Some day => date_of year month day
        end
    end.

Definition chemical_indicators : list string :=
  ["/pharmacology"; "/chemistry"; "/metabolism"; "/chemical synthesis";
   "/therapeutic use"; "/toxicity"].

(** [PubMedScraper._is_chemical_mesh] *)
Definition _is_chemical_mesh (heading : string) : bool :=
  let heading_lower := Py.lower (Py.replace "*" "" heading) in
  existsb (fun ind => Py.contains ind heading_lower) chemical_indicators.

Definition is_star (c : ascii) : bool := Ascii.eqb c "*"%char.

Section adapter.
(** The reading of [datetime.now(timezone.utc)] that the model's default
    factory takes when the document is constructed. *)
Variable utcnow : datetime.

(** [PubMedScraper._record_to_document]; an exception of [_parse_date]
    leaves the function. *)
Definition _record_to_document (r : record)
  : result (option ScientificDocument) :=
  let title := default "" (text r !! "TI") in
  if negb (Py.truthy_str title) then Ok None
  else
    let pmid := text r !! "PMID" in
    let identifiers :=
      (if Py.truthy_opt pmid
       then [{| id_type := "pmid"; id_value := default "" pmid |}] else [])
      ++ ((fun aid => {| id_type := "doi";
                         id_value := Py.replace " [doi]" "" aid |})
          <$> filter (fun aid => Is_true (Py.endswith "[doi]" aid))
                     (default [] (lines r !! "AID"))) in
    let authors :=
      (fun n => {| name := n; affiliation := None |})
      <$> default [] (lines r !! "AU") in
    match _parse_date (default "" (text r !! "DP")) with
    | Raise e => Raise e
    | Ok pub_date =>
    let mesh_headings := default [] (lines r !! "MH") in
    let chemical_entities :=
      (fun mh => default "" (head (Py.split_char "/" (Py.strip_by is_star mh))))
      <$> filter (fun mh => Is_true (_is_chemical_mesh mh)) mesh_headings in
    Ok (Some {|
      source := PUBMED;
      title := title;
      abstract := text r !! "AB";
      authors := authors;
      publication_date := pub_date;
      identifiers := identifiers;
      chemical_entities := chemical_entities;
      keywords := default [] (lines r !! "OT");
      journal_or_office := text r !! "JT";
      full_text_url :=
        if Py.truthy_opt pmid
        then Some ("https://pubmed.ncbi.nlm.nih.gov/" +:+ default "" pmid +:+ "/")
        else None;
      metadata :=
        list_to_map
          [("mesh_headings", json_of_strings mesh_headings);
           ("publication_type", json_of_strings (default [] (lines r !! "PT")));
           ("language", json_of_strings (default [] (lines r !! "LA")))];
      scraped_at := utcnow |})
    end.

(** The keyword arguments of [Entrez.esearch] *)
Definition search_kwargs (query : string) (date_from date_to : option string)
  : gmap string string :=
  let kw : gmap string string :=
    list_to_map [("db", "pubmed"); ("term", query); ("retmax", "0");
                 ("usehistory", "y")] in
  let kw :=
    if Py.truthy_opt date_from
    then <["datetype" := "pdat"]> (<["mindate" := default "" date_from]> kw)
    else kw in
  if Py.truthy_opt date_to
  then <["datetype" := "pdat"]> (<["maxdate" := default "" date_to]> kw)
  else kw.

(** What [Entrez.read] returns for the search call *)
Record search_results := {
  Count : string;
  WebEnv : string;
  QueryKey : string }.

(** The arguments of one [Entrez.efetch] call *)
Record fetch_args := {
  retstart : Z;
  retmax : Z;
  webenv : string;
  query_key : string }.

(** One exchange with NCBI: the arguments of the call and its outcome *)
Inductive exchange :=
  | Esearch (kwargs : gmap string string) (outcome : result search_results)
  | Efetch (args : fetch_args) (outcome : result (list record)).

(** [esearch n kw]: the outcome of [Entrez.esearch] and [Entrez.read]
    when it is the [n]-th call made to NCBI. *)
Variable esearch : nat -> gmap string string -> result search_results.
(** [efetch n args]: the outcome of [Entrez.efetch] and of reading the
    records of the batch with [Medline.parse]. *)
Variable efetch : nat -> fetch_args -> result (list record).

(** [range(0, stop, step)] for a positive [step] *)
Definition range_step (stop step : Z) : list Z :=
  (fun i => i * step) <$> seqZ 0 ((stop + step - 1) `div` step).

(** The loop [for record in records], appending to [documents]; an
    exception of the mapping leaves the loop. *)
Fixpoint extend_with (documents : list ScientificDocument)
    (records : list record) : result (list ScientificDocument) :=
  match records with
  | [] => Ok documents
  | record :: rest =>
      match _record_to_document record with
      | Raise e => Raise e
      | Ok (Some doc) => extend_with (documents ++ [doc]) rest
      | Ok None => extend_with documents rest
      end
  end.

(** The loop [for start in range(0, fetch_count, BATCH_SIZE)]; [log] holds
    the exchanges made so far, oldest first. *)
Fixpoint fetch_batches (web_env query_key : string) (fetch_count : Z)
    (starts : list Z) (documents : list ScientificDocument) (log : list exchange)
  : result (list ScientificDocument) * list exchange :=
  match starts with
  | [] => (Ok documents, log)
  | start :: starts' =>
      let batch_size := Z.min BATCH_SIZE (fetch_count - start) in
      let args := {| retstart := start; retmax := batch_size;
                     webenv := web_env; query_key := query_key |} in
      let fetched := efetch (length log) args in
      let log' := log ++ [Efetch args fetched] in
      match fetched with
      | Raise e => (Raise e, log')
      | Ok records =>
          match extend_with documents records with
          | Raise e => (Raise e, log')
          | Ok documents' =>
              fetch_batches web_env query_key fetch_count starts'
                documents' log'
          end
      end
  end.

(** [PubMedScraper.search] *)
Definition search (query : string) (max_results : Z)
    (date_from date_to : option string)
  : result (list ScientificDocument) * list exchange :=
  let kwargs := search_kwargs query date_from date_to in
  let found := esearch 0%nat kwargs in
  let log := [Esearch kwargs found] in
  match found with
  | Raise e => (Raise e, log)
  | Ok search_results =>
      match Py.int (Count search_results) with
      | None => (Raise (OtherError "ValueError"), log)
      | Some total_count =>
          let fetch_count := Z.min total_count max_results in
          fetch_batches (WebEnv search_results) (QueryKey search_results)
            fetch_count (range_step fetch_count BATCH_SIZE) [] log
      end
  end.
End adapter.

End PubMed.

(** ** Settings ([config/settings.py]) *)

Record Settings := {
  ncbi_api_key : option string;
  ncbi_email : string;
  uspto_api_key : option string;
  epo_key : option string;
  epo_secret : option string;
  serpapi_key : option string;
  output_dir : string;
  log_level : string }.

(** [Settings.ncbi_rate_limit] *)
Definition ncbi_rate_limit (settings : Settings) : Z :=
  if Py.truthy_opt (ncbi_api_key settings) then 10 else 3.

(** ** Retry policy ([utils/retry.py]) *)

(** [retry_if_exception_type((ConnectionError, Timeout, HTTPError))] *)
Definition is_retryable (e : exn) : bool :=
  match e with
  | ConnectionError | Timeout | HTTPError => true
  | _ => false
  end.

(** The loop of [tenacity.retry(stop=stop_after_attempt(max_attempts),
    reraise=True)] around one attempt.  An attempt reads the log of the
    exchanges made with the upstream so far and extends it.  The first
    attempt is always made; [retries_left] counts the attempts that may
    follow it. *)
Fixpoint retry_go {E A} (retries_left : nat)
    (attempt : list E -> result A * list E) (log : list E)
  : result A * list E :=
  match attempt log with
  | (Ok a, log') => (Ok a, log')
  | (Raise e, log') =>
      match retries_left with
      | S k => if is_retryable e then retry_go k attempt log' else (Raise e, log')
      | O => (Raise e, log')
      end
  end.

(** One attempt that sends [req] and does nothing else: the outcome is
    what the upstream gives to its [n]-th request, [n] the number of
    exchanges made so far. *)
Definition attempt_once {Req A} (call : nat -> Req -> result A) (req : Req)
    (log : list (Req * result A)) : result A * list (Req * result A) :=
  let outcome := call (length log) req in
  (outcome, log ++ [(req, outcome)]).

(** [with_retry(max_attempts=5, min_wait=1, max_wait=60)]; the waits
    between attempts take time only. *)
Definition with_retry {E A} (max_attempts : nat)
    (attempt : list E -> result A * list E) (log : list E)
  : result A * list E :=
  retry_go (max_attempts - 1) attempt log.

(** [len(l)] *)
Definition len {A} (l : list A) : Z := Z.of_nat (length l).

(** [for x in items: doc = f(x); if doc: documents.append(doc); ...;
    if len(documents) >= max_results: break], the inner loop shared by the
    cursor-paginated and the page-indexed adapters. *)
Fixpoint collect {A} (f : A -> option ScientificDocument) (max_results : Z)
    (documents : list ScientificDocument) (items : list A)
  : list ScientificDocument :=
  match items with
  | [] => documents
  | x :: rest =>
      match f x with
      | Some doc =>
          let documents' := documents ++ [doc] in
          if len documents' >=? max_results then documents'
          else collect f max_results documents' rest
      | None => collect f max_results documents rest
      end
  end.

(** [documents[:max_results]], for a list and any integer bound *)
Definition slice_to {A} (max_results : Z) (l : list A) : list A :=
  if 0 <=? max_results then take (Z.to_nat max_results) l
  else take (Z.to_nat (len l + max_results)) l.

(** ** The national-patent-registry adapter ([scrapers/uspto.py]) *)

Module USPTOScraper.

Definition PAGE_SIZE : Z := 100.

Record inventor := {
  inventor_name_first : jfield;
  inventor_name_last : jfield }.

(** One element of [data["patents"]]; a missing list key is the empty
    list ([patent.get("inventors", [])]). *)
Record patent := {
  patent_id : jfield;
  patent_title : jfield;
  patent_abstract : jfield;
  patent_date : jfield;
  inventors : list inventor;
  assignees : list jfield;      (* the assignee_organization of each *)
  cpc_current : list jfield }.  (* the cpc_group_id of each *)

(** The decoded body of a response: [data_patents] is [None] when the
    key "patents" is missing, [data_cursor] is [data.get("cursor")]. *)
Record data := {
  data_patents : option (list patent);
  data_cursor : jfield }.

(** The [q] filter of the request body *)
Inductive q_filter :=
  | text_phrase_or (abstract_q title_q : string)
  | and_date (f : q_filter) (gte lte : option string).

Record body := {
  q : q_filter;
  f : list string;
  o_size : Z;
  o_after : option string }.

(** [USPTOScraper._build_query] *)
Definition _build_query (query : string) (size : Z)
    (date_from date_to cursor : option string) : body :=
  let q_filter := text_phrase_or query query in
  let q_filter :=
    if Py.truthy_opt date_from || Py.truthy_opt date_to
    then and_date q_filter
           (if Py.truthy_opt date_from then date_from else None)
           (if Py.truthy_opt date_to then date_to else None)
    else q_filter in
  {| q := q_filter;
     f := ["patent_id"; "patent_title"; "patent_abstract"; "patent_date";
           "inventors.inventor_name_last"; "inventors.inventor_name_first";
           "assignees.assignee_organization"; "cpc_current.cpc_group_id"];
     o_size := size;
     o_after := if Py.truthy_opt cursor then cursor else None |}.

Section adapter.
Variable utcnow : datetime.
(** [date.fromisoformat]; [None] stands for its [ValueError]. *)
Variable fromisoformat : string -> option date.
(** [post n body]: what the [n]-th request to PatentsView gives once
    [raise_for_status()] and [json()] have run on the response; the
    decoded body is [None] when it is [null] or an empty object. *)
Variable post : nat -> body -> result (option data).

(** One exchange with PatentsView: the request body and the outcome *)
Definition exchange : Type := body * result (option data).

(** [USPTOScraper._patent_to_document] *)
Definition _patent_to_document (p : patent) : option ScientificDocument :=
  let title := jget_default (patent_title p) (Some "") in
  if negb (Py.truthy_opt title) then None
  else
    let patent_id := jget_default (patent_id p) (Some "") in
    let identifiers :=
      if Py.truthy_opt patent_id
      then [{| id_type := "patent_number"; id_value := default "" patent_id |}]
      else [] in
    let authors :=
      omap (fun inv =>
              let first := jget_default (inventor_name_first inv) (Some "") in
              let last := jget_default (inventor_name_last inv) (Some "") in
              if Py.truthy_opt first || Py.truthy_opt last
              then Some {| name := Py.strip (fmt first +:+ " " +:+ fmt last);
                           affiliation := None |}
              else None)
           (inventors p) in
    let date_str := jget (patent_date p) in
    let pub_date :=
      if Py.truthy_opt date_str then fromisoformat (default "" date_str)
      else None in
    let cpc_codes :=
      omap (fun c => if Py.truthy_opt (jget c)
                     then jget_default c (Some "") else None)
           (cpc_current p) in
    let assignees :=
      omap (fun a => if Py.truthy_opt (jget a)
                     then jget_default a (Some "") else None)
           (assignees p) in
    Some {|
      source := USPTO;
      title := default "" title;
      abstract := jget (patent_abstract p);
      authors := authors;
      publication_date := pub_date;
      identifiers := identifiers;
      chemical_entities := [];
      full_text_url :=
        if Py.truthy_opt patent_id
        then Some ("https://patents.google.com/patent/US" +:+ default "" patent_id)
        else None;
      keywords := [];
      journal_or_office := Some "USPTO";
      metadata :=
        list_to_map [("cpc_codes", json_of_strings cpc_codes);
                     ("assignees", json_of_strings assignees)];
      scraped_at := utcnow |}.

(** [USPTOScraper._fetch_page], decorated with [with_retry()];
    [self._rate_limiter.wait()] takes time only. *)
Definition _fetch_page (query_body : body) (log : list exchange)
  : result (option data) * list exchange :=
  with_retry 5 (attempt_once post query_body) log.

(** The [while fetched < max_results] loop of [USPTOScraper.search];
    [fetched] is [len documents] throughout.  [None]: the loop is
    still running when [fuel] iterations have been made. *)
Fixpoint search_loop (fuel : nat) (query : string) (max_results : Z)
    (date_from date_to : option string)
    (documents : list ScientificDocument) (cursor : option string)
    (log : list exchange)
  : option (result (list ScientificDocument) * list exchange) :=
  if negb (len documents <? max_results) then Some (Ok documents, log)
  else
    match fuel with
    | O => None
    | S fuel' =>
        let batch_size := Z.min PAGE_SIZE (max_results - len documents) in
        let query_body := _build_query query batch_size date_from date_to cursor in
        match _fetch_page query_body log with
        | (Raise e, log') => Some (Raise e, log')
        | (Ok None, log') => Some (Ok documents, log')
        | (Ok (Some d), log') =>
            match data_patents d with
            | None | Some [] => Some (Ok documents, log')
            | Some ps =>
                let documents' :=
                  collect _patent_to_document max_results documents ps in
                let cursor' := jget (data_cursor d) in
                if negb (Py.truthy_opt cursor') then Some (Ok documents', log')
                else search_loop fuel' query max_results date_from date_to
                       documents' cursor' log'
            end
        end
    end.

(** [USPTOScraper.search] *)
Definition search (fuel : nat) (query : string) (max_results : Z)
    (date_from date_to : option string)
  : option (result (list ScientificDocument) * list exchange) :=
  search_loop fuel query max_results date_from date_to [] None [].
End adapter.

End USPTOScraper.

(** ** The web-patent-aggregator adapter ([scrapers/google_patents.py]) *)

Module GooglePatentsScraper.

Definition SERPAPI_ENGINE : string := "google_patents".

(** A value of a request parameter *)
Inductive pval := PStr (s : string) | PInt (z : Z).

(** One element of [results["organic_results"]] *)
Record serp_result := {
  r_title : jfield;
  r_patent_id : jfield;
  r_snippet : jfield;
  r_inventor : jfield;
  r_assignee : jfield;
  r_priority_date : jfield;
  r_filing_date : jfield;
  r_link : jfield;
  r_pdf : jfield;
  r_grant_date : jfield;
  r_thumbnail : jfield }.

(** The tree BeautifulSoup builds from a page *)
#[warnings="-register-all"]
Inductive node :=
  | TextNode (s : string)
  | Tag (tag : string) (attrs : list (string * string)) (children : list node).

(** [elem.get(key)] *)
Fixpoint attr (key : string) (attrs : list (string * string)) : option string :=
  match attrs with
  | [] => None
  | (k, v) :: rest => if String.eqb k key then Some v else attr key rest
  end.

(** The elements below a node, in document order *)
Fixpoint descendants (e : node) : list node :=
  match e with
  | TextNode _ => []
  | Tag _ _ cs =>
      (fix go (l : list node) : list node :=
         match l with
         | [] => []
         | c :: l' => c :: descendants c ++ go l'
         end) cs
  end.

(** The simple CSS selectors the scraper uses *)
Inductive simple_selector :=
  | by_tag (t : string)                         (* [h3] *)
  | by_class (c : string)                       (* [.result-title] *)
  | has_attr (a : string)                       (* [[data-title]] *)
  | tag_class (t c : string)                    (* [article.result] *)
  | tag_attr_contains (t a sub : string).       (* [a[href*='/patent/']] *)

Definition has_class (c : string) (attrs : list (string * string)) : bool :=
  match attr "class" attrs with
  | Some v => existsb (String.eqb c) (Py.split_ws v)
  | None => false
  end.

Definition matches1 (sel : simple_selector) (e : node) : bool :=
  match e with
  | TextNode _ => false
  | Tag t attrs _ =>
      match sel with
      | by_tag t' => String.eqb t t'
      | by_class c => has_class c attrs
      | has_attr a => bool_decide (is_Some (attr a attrs))
      | tag_class t' c => String.eqb t t' && has_class c attrs
      | tag_attr_contains t' a sub =>
          String.eqb t t' &&
          match attr a attrs with
          | Some v => Py.contains sub v
          | None => false
          end
      end
  end.

(** [elem.select(group)] for a comma-separated group of selectors *)
Definition select (group : list simple_selector) (e : node) : list node :=
  filter (fun d => Is_true (existsb (fun sel => matches1 sel d) group))
         (descendants e).

(** [elem.select_one(group)] *)
Definition select_one (group : list simple_selector) (e : node) : option node :=
  head (select group e).

(** The strings below a node (or the node itself when it is a string),
    in document order *)
Fixpoint strings (e : node) : list string :=
  match e with
  | TextNode s => [s]
  | Tag _ _ cs =>
      (fix go (l : list node) : list string :=
         match l with
         | [] => []
         | c :: l' => strings c ++ go l'
         end) cs
  end.

(** [elem.get_text(strip=True)] *)
Definition get_text_strip (e : node) : string :=
  foldr String.append ""
    (filter (fun s => Is_true (Py.truthy_str s)) (Py.strip <$> strings e)).

(** The request parameters of the structured-API strategy, the dict
    [params] of [_search_serpapi] *)
Definition serpapi_params (api_key query : string) (page : Z)
    (date_from date_to : option string) : gmap string pval :=
  let params : gmap string pval :=
    list_to_map [("engine", PStr SERPAPI_ENGINE); ("q", PStr query);
                 ("api_key", PStr api_key); ("page", PInt page)] in
  if Py.truthy_opt date_from
  then <["after" := PStr (default "" date_from)]>
         (<["before" := PStr (default "" (Py.or_else date_to (Some "")))]> params)
  else params.

(** The request parameters of [_fetch_search_page] *)
Definition http_params (query : string) (page : Z)
    (date_from date_to : option string) : gmap string pval :=
  let params : gmap string pval :=
    list_to_map [("q", PStr query); ("page", PInt page)] in
  let params :=
    if Py.truthy_opt date_from
    then <["after" := PStr ("priority:" +:+ default "" date_from)]> params
    else params in
  if Py.truthy_opt date_to
  then <["before" := PStr ("priority:" +:+ default "" date_to)]> params
  else params.

Section adapter.
Variable utcnow : datetime.
Variable fromisoformat : string -> option date.
(** Whether [from serpapi import GoogleSearch] succeeds *)
Variable serpapi_installed : bool.
(** [get_dict n params]: [results.get("organic_results", [])] of the
    dict the [n]-th search gives, or what [get_dict()] raises. *)
Variable get_dict : nat -> gmap string pval -> result (list serp_result).
(** [http_get n params]: status code and text of the [n]-th response of
    [session.get], or the transport error it raises. *)
Variable http_get : nat -> gmap string pval -> result (Z * string).
(** [BeautifulSoup(html, "lxml")] *)
Variable parse_html : string -> node.

(** One exchange with an upstream: the parameters sent and the outcome *)
Inductive exchange :=
  | Serp (params : gmap string pval) (outcome : result (list serp_result))
  | Http (params : gmap string pval) (outcome : result (Z * string)).

(** [GooglePatentsScraper._serpapi_result_to_document] *)
Definition _serpapi_result_to_document (r : serp_result)
  : option ScientificDocument :=
  let title := jget_default (r_title r) (Some "") in
  if negb (Py.truthy_opt title) then None
  else
    let patent_id := jget_default (r_patent_id r) (Some "") in
    let identifiers :=
      if Py.truthy_opt patent_id
      then [{| id_type := "patent_number"; id_value := default "" patent_id |}]
      else [] in
    let inventor := jget_default (r_inventor r) (Some "") in
    let authors :=
      if Py.truthy_opt inventor
      then [{| name := default "" inventor; affiliation := None |}] else [] in
    let date_str := Py.or_else (jget (r_priority_date r)) (jget (r_filing_date r)) in
    let pub_date :=
      if Py.truthy_opt date_str then fromisoformat (default "" date_str)
      else None in
    Some {|
      source := GOOGLE_PATENTS;
      title := default "" title;
      abstract := jget (r_snippet r);
      authors := authors;
      publication_date := pub_date;
      identifiers := identifiers;
      chemical_entities := [];
      full_text_url := jget_default (r_pdf r) (jget (r_link r));
      keywords := [];
      journal_or_office := jget_default (r_assignee r) (Some "");
      metadata :=
        list_to_map [("grant_date", json_of_opt (jget (r_grant_date r)));
                     ("thumbnail", json_of_opt (jget (r_thumbnail r)))];
      scraped_at := utcnow |}.

(** [GooglePatentsScraper._html_result_to_document] *)
Definition _html_result_to_document (element : node)
  : option ScientificDocument :=
  let title_elem :=
    select_one [by_tag "h3"; by_class "result-title"; has_attr "data-title"]
               element in
  let title := match title_elem with
               | Some e => get_text_strip e
               | None => ""
               end in
  let title := if negb (Py.truthy_str title)
               then Py.take 200 (get_text_strip element) else title in
  if negb (Py.truthy_str title) then None
  else
    let link_elem :=
      select_one [tag_attr_contains "a" "href" "/patent/"] element in
    let '(patent_id, full_text_url) :=
      match link_elem with
      | Some (Tag _ attrs _) =>
          let href := default "" (attr "href" attrs) in
          let parts := Py.split_str "/patent/" href in
          (match parts with
           | _ :: p1 :: _ => default "" (head (Py.split_char "/" p1))
           | _ => ""
           end,
           Some (if Py.startswith "/" href
                 then "https://patents.google.com" +:+ href else href))
      | _ => ("", None)
      end in
    let identifiers :=
      if Py.truthy_str patent_id
      then [{| id_type := "patent_number"; id_value := patent_id |}] else [] in
    let snippet_elem :=
      select_one [by_class "result-snippet"; by_class "abstract"; by_tag "p"]
                 element in
    Some {|
      source := GOOGLE_PATENTS;
      title := title;
      abstract := get_text_strip <$> snippet_elem;
      authors := [];
      publication_date := None;
      identifiers := identifiers;
      chemical_entities := [];
      full_text_url := full_text_url;
      keywords := [];
      journal_or_office := Some "Google Patents";
      metadata := ∅;
      scraped_at := utcnow |}.

(** The [while len(documents) < max_results] loop of [_search_serpapi];
    [self._rate_limiter.wait()] takes time only. *)
Fixpoint serpapi_loop (fuel : nat) (api_key query : string) (max_results : Z)
    (date_from date_to : option string)
    (documents : list ScientificDocument) (page : Z) (log : list exchange)
  : option (result (list ScientificDocument) * list exchange) :=
  if negb (len documents <? max_results) then Some (Ok documents, log)
  else
    match fuel with
    | O => None
    | S fuel' =>
        let params := serpapi_params api_key query page date_from date_to in
        let results := get_dict (length log) params in
        let log' := log ++ [Serp params results] in
        match results with
        | Raise e => Some (Raise e, log')
        | Ok [] => Some (Ok documents, log')
        | Ok organic =>
            serpapi_loop fuel' api_key query max_results date_from date_to
              (collect _serpapi_result_to_document max_results documents organic)
              (page + 1) log'
        end
    end.

(** [GooglePatentsScraper._search_serpapi] *)
Definition _search_serpapi (fuel : nat) (api_key query : string)
    (max_results : Z) (date_from date_to : option string)
  : option (result (list ScientificDocument) * list exchange) :=
  if negb serpapi_installed then Some (Ok [], [])
  else
    match serpapi_loop fuel api_key query max_results date_from date_to
            [] 0 [] with
    | Some (Ok documents, log) => Some (Ok (slice_to max_results documents), log)
    | other => other
    end.

(** [GooglePatentsScraper._fetch_search_page], decorated with
    [with_retry(max_attempts=3)] *)
Definition _fetch_search_page (query : string) (page : Z)
    (date_from date_to : option string) (log : list exchange)
  : result (option string) * list exchange :=
  with_retry 3
    (fun log =>
       let params := http_params query page date_from date_to in
       let resp := http_get (length log) params in
       (match resp with
        | Raise e => Raise e
        | Ok (status_code, text) =>
            if negb (status_code =? 200) then Ok None else Ok (Some text)
        end,
        log ++ [Http params resp]))
    log.

(** The result blocks of a page: the primary selectors, else the
    alternate one *)
Definition result_blocks (soup : node) : list node :=
  match select [by_tag "search-result-item"; tag_class "article" "result"] soup with
  | [] => select [has_attr "data-result"] soup
  | results => results
  end.

(** The [while len(documents) < max_results] loop of [_search_http]. *)
Fixpoint http_loop (fuel : nat) (query : string) (max_results : Z)
    (date_from date_to : option string)
    (documents : list ScientificDocument) (page : Z) (log : list exchange)
  : option (result (list ScientificDocument) * list exchange) :=
  if negb (len documents <? max_results) then Some (Ok documents, log)
  else
    match fuel with
    | O => None
    | S fuel' =>
        match _fetch_search_page query page date_from date_to log with
        | (Raise e, log') => Some (Raise e, log')
        | (Ok html, log') =>
            if negb (Py.truthy_opt html) then Some (Ok documents, log')
            else
              match result_blocks (parse_html (default "" html)) with
              | [] => Some (Ok documents, log')
              | results =>
                  http_loop fuel' query max_results date_from date_to
                    (collect _html_result_to_document max_results documents results)
                    (page + 1) log'
              end
        end
    end.

(** [GooglePatentsScraper._search_http] *)
Definition _search_http (fuel : nat) (query : string) (max_results : Z)
    (date_from date_to : option string)
  : option (result (list ScientificDocument) * list exchange) :=
  match http_loop fuel query max_results date_from date_to [] 0 [] with
  | Some (Ok documents, log) => Some (Ok (slice_to max_results documents), log)
  | other => other
  end.

(** [GooglePatentsScraper.search] *)
Definition search (settings : Settings) (fuel : nat) (query : string)
    (max_results : Z) (date_from date_to : option string)
  : option (result (list ScientificDocument) * list exchange) :=
  if Py.truthy_opt (serpapi_key settings)
  then _search_serpapi fuel (default "" (serpapi_key settings)) query
         max_results date_from date_to
  else _search_http fuel query max_results date_from date_to.
End adapter.

End GooglePatentsScraper.

(** ** The international-patent-registry adapter ([scrapers/epo.py]) *)

Module EPOScraper.

Definition PAGE_SIZE : Z := 100.

(** [DEFAULT_CQL_TEMPLATE.format(query=query)] *)
Definition DEFAULT_CQL (query : string) : string :=
  "ta = " +:+ String (Ascii.ascii_of_nat 34) query
  +:+ String (Ascii.ascii_of_nat 34) " AND cl = "
  +:+ String (Ascii.ascii_of_nat 34) "A61K"
  +:+ String (Ascii.ascii_of_nat 34) "".

Definition quoted (s : string) : string :=
  String (Ascii.ascii_of_nat 34) s +:+ String (Ascii.ascii_of_nat 34) "".

(** An [lxml] element: qualified tag, attributes, text, children *)
#[warnings="-register-all"]
Inductive xml :=
  | Element (tag : string) (attrib : list (string * string))
            (text : option string) (children : list xml).

Definition tag_of (e : xml) : string := let 'Element t _ _ _ := e in t.
Definition attrib_of (e : xml) : list (string * string) :=
  let 'Element _ a _ _ := e in a.
Definition text_of (e : xml) : option string := let 'Element _ _ t _ := e in t.
Definition children_of (e : xml) : list xml := let 'Element _ _ _ c := e in c.

Fixpoint lookup_attr (key : string) (attrs : list (string * string))
  : option string :=
  match attrs with
  | [] => None
  | (k, v) :: rest => if String.eqb k key then Some v else lookup_attr key rest
  end.

(** The elements strictly below [e], in document order *)
Fixpoint descendants (e : xml) : list xml :=
  match e with
  | Element _ _ _ cs =>
      (fix go (l : list xml) : list xml :=
         match l with
         | [] => []
         | c :: l' => c :: descendants c ++ go l'
         end) cs
  end.

(** One step of a path: a tag, and optionally [[@key='value']] *)
Record step := { s_tag : string; s_pred : option (string * string) }.

Definition step_matches (s : step) (e : xml) : bool :=
  String.eqb (tag_of e) (s_tag s) &&
  match s_pred s with
  | None => true
  | Some (k, v) =>
      match lookup_attr k (attrib_of e) with
      | Some v' => String.eqb v' v
      | None => false
      end
  end.

Definition keep (s : step) (l : list xml) : list xml :=
  filter (fun e => Is_true (step_matches s e)) l.

(** [elem.findall(".//s0/s1/.../sk", ns)] *)
Definition findall_desc (s0 : step) (rest : list step) (e : xml) : list xml :=
  foldl (fun found s => found ≫= (fun x => keep s (children_of x)))
        (keep s0 (descendants e)) rest.

(** [elem.find(".//s0/s1/.../sk", ns)] *)
Definition find_desc (s0 : step) (rest : list step) (e : xml) : option xml :=
  head (findall_desc s0 rest e).

(** [elem.findtext(tag, default="", namespaces=ns)] on a child tag *)
Definition findtext (t : string) (e : xml) : string :=
  match head (keep {| s_tag := t; s_pred := None |} (children_of e)) with
  | Some c => default "" (text_of c)
  | None => ""
  end.

Definition t (name : string) : step := {| s_tag := name; s_pred := None |}.
Definition t_en (name : string) : step :=
  {| s_tag := name; s_pred := Some ("lang", "en") |}.

(** What [client.published_data_search] does on its [n]-th use: the
    status code and content of the response, or an exception. *)
Record Client := {
  published_data_search : nat -> string -> Z -> Z -> result (Z * string) }.

Record scraper := { _client : option Client }.

(** One exchange with OPS: the query, the range asked for, the outcome *)
Record exchange := {
  x_cql : string;
  x_range_begin : Z;
  x_range_end : Z;
  x_outcome : result (Z * string) }.

Section adapter.
Variable utcnow : datetime.
(** [epo_ops.Client(key=..., secret=..., middlewares=[Throttler()])] *)
Variable epo_ops_Client : string -> string -> Client.
(** [etree.fromstring]; [None] stands for [XMLSyntaxError]. *)
Variable fromstring : string -> option xml.

(** [EPOScraper.__init__] *)
Definition __init__ (settings : Settings) : scraper :=
  {| _client :=
       if Py.truthy_opt (epo_key settings) && Py.truthy_opt (epo_secret settings)
       then Some (epo_ops_Client (default "" (epo_key settings))
                                 (default "" (epo_secret settings)))
       else None |}.

(** [EPOScraper._element_to_document] *)
Definition _element_to_document (elem : xml) : option ScientificDocument :=
  let title_elem :=
    match find_desc (t "ex:bibliographic-data") [t_en "ex:invention-title"] elem with
    | Some e => Some e
    | None => find_desc (t "ex:bibliographic-data") [t "ex:invention-title"] elem
    end in
  let title :=
    match title_elem with
    | Some e => if Py.truthy_opt (text_of e) then default "" (text_of e) else ""
    | None => ""
    end in
  if negb (Py.truthy_str title) then None
  else
    let abstract_elem :=
      match find_desc (t_en "ex:abstract") [t "ex:p"] elem with
      | Some e => Some e
      | None => find_desc (t "ex:abstract") [t "ex:p"] elem
      end in
    let abstract := abstract_elem ≫= text_of in
    let doc_id_elem :=
      find_desc (t "ex:bibliographic-data")
                [t "ex:publication-reference"; t "ex:document-id"] elem in
    let identifiers :=
      match doc_id_elem with
      | Some d =>
          let country := findtext "ex:country" d in
          let doc_number := findtext "ex:doc-number" d in
          let kind := findtext "ex:kind" d in
          if Py.truthy_str doc_number
          then [{| id_type := "patent_number";
                   id_value := country +:+ doc_number +:+ kind |}]
          else []
      | None => []
      end in
    let authors :=
      omap (fun applicant =>
              if Py.truthy_opt (text_of applicant)
              then Some {| name := default "" (text_of applicant);
                           affiliation := None |}
              else None)
           (findall_desc (t "ex:bibliographic-data")
              [t "ex:parties"; t "ex:applicants"; t "ex:applicant";
               t "ex:applicant-name"; t "ex:name"] elem) in
    let date_elem :=
      match doc_id_elem with
      | Some d => findtext "ex:date" d
      | None => ""
      end in
    let pub_date :=
      if Py.truthy_str date_elem && (String.length date_elem =? 8)%nat
      then
        y ← Py.int (Py.slice 0 4 date_elem);
        m ← Py.int (Py.slice 4 6 date_elem);
        d ← Py.int (Py.slice 6 8 date_elem);
        mk_date y m d
      else None in
    let ipc_codes :=
      omap (fun ipc => if Py.truthy_opt (text_of ipc)
                       then Some (Py.strip (default "" (text_of ipc)))
                       else None)
           (findall_desc (t "ex:bibliographic-data")
              [t "ex:classifications-ipcr"; t "ex:classification-ipcr";
               t "ex:text"] elem) in
    Some {|
      source := EPO;
      title := title;
      abstract := abstract;
      authors := authors;
      publication_date := pub_date;
      identifiers := identifiers;
      chemical_entities := [];
      full_text_url := None;
      keywords := [];
      journal_or_office := Some "EPO";
      metadata := list_to_map [("ipc_codes", json_of_strings ipc_codes)];
      scraped_at := utcnow |}.

(** [EPOScraper._parse_search_response] *)
Definition _parse_search_response (xml_content : string)
  : list ScientificDocument :=
  match fromstring xml_content with
  | None => []
  | Some root =>
      omap _element_to_document
        (findall_desc (t "ops:search-result")
           [t "ex:exchange-documents"; t "ex:exchange-document"] root)
  end.

(** The query sent upstream *)
Definition build_cql (query : string) (date_from date_to : option string)
  : string :=
  let cql := DEFAULT_CQL query in
  let cql := if Py.truthy_opt date_from
             then cql +:+ " AND pd >= " +:+ quoted (default "" date_from)
             else cql in
  if Py.truthy_opt date_to
  then cql +:+ " AND pd <= " +:+ quoted (default "" date_to)
  else cql.

(** The [while len(documents) < max_results] loop of [EPOScraper.search];
    the [try ... except Exception: break] is the [Raise] case. *)
Fixpoint search_loop (fuel : nat) (client : Client) (cql : string)
    (max_results : Z) (documents : list ScientificDocument)
    (range_begin : Z) (log : list exchange)
  : option (list ScientificDocument * list exchange) :=
  if negb (len documents <? max_results) then Some (documents, log)
  else
    match fuel with
    | O => None
    | S fuel' =>
        let range_end := Z.min (range_begin + PAGE_SIZE - 1) max_results in
        let response :=
          published_data_search client (length log) cql range_begin range_end in
        let log' := log ++ [{| x_cql := cql; x_range_begin := range_begin;
                               x_range_end := range_end; x_outcome := response |}] in
        match response with
        | Raise e => Some (documents, log')
        | Ok (status_code, content) =>
            if negb (status_code =? 200) then Some (documents, log')
            else
              match _parse_search_response content with
              | [] => Some (documents, log')
              | batch_docs =>
                  let documents' := documents ++ batch_docs in
                  if len batch_docs <? PAGE_SIZE then Some (documents', log')
                  else search_loop fuel' client cql max_results documents'
                         (range_end + 1) log'
              end
        end
    end.

(** [EPOScraper.search] *)
Definition search (self : scraper) (fuel : nat) (query : string)
    (max_results : Z) (date_from date_to : option string)
  : option (result (list ScientificDocument) * list exchange) :=
  match _client self with
  | None => Some (Ok [], [])
  | Some client =>
      let cql := build_cql query date_from date_to in
      match search_loop fuel client cql max_results [] 1 [] with
      | Some (documents, log) => Some (Ok (slice_to max_results documents), log)
      | None => None
      end
  end.
End adapter.

End EPOScraper.

(** ** Line-delimited storage ([storage/jsonl.py]) *)

Module Jsonl.

Definition LF : ascii := Ascii.ascii_of_nat 10.
Definition CR : ascii := Ascii.ascii_of_nat 13.

(** The lines a text file opened with [open(path, "r")] iterates over
    (universal newlines: LF, CR LF and CR all end a line, and the line
    is handed out ending in LF; a last line without a newline is
    handed out as it is).  [cur] is the line being read, reversed. *)
Fixpoint file_lines_go (cur : list ascii) (s : string) : list string :=
  match s with
  | EmptyString =>
      match cur with
      | [] => []
      | _ => [String.string_of_list_ascii (rev cur)]
      end
  | String c s' =>
      if Ascii.eqb c LF
      then String.string_of_list_ascii (rev (LF :: cur)) :: file_lines_go [] s'
      else if Ascii.eqb c CR
      then String.string_of_list_ascii (rev (LF :: cur)) ::
           match s' with
           | String c' s'' =>
               if Ascii.eqb c' LF then file_lines_go [] s''
               else file_lines_go [] s'
           | EmptyString => []
           end
      else file_lines_go (c :: cur) s'
  end.

Definition file_lines (content : string) : list string :=
  file_lines_go [] content.

(** What iterating a generator gives: the items yielded, and the
    exception that ended the iteration, if one did. *)
Record stream (A : Type) := { yielded : list A; raised : option exn }.
Global Arguments yielded {A} _.
Global Arguments raised {A} _.

Section jsonl.
(** [ScientificDocument.model_dump_json] *)
Variable model_dump_json : ScientificDocument -> string.
(** [ScientificDocument.model_validate_json]; [None] stands for
    [pydantic.ValidationError]. *)
Variable model_validate_json : string -> option ScientificDocument.

(** [append_documents]: the files are a map from path to content;
    opening in mode ["a"] creates a missing file. *)
Definition append_documents (fs : gmap string string) (path : string)
    (documents : list ScientificDocument) : Z * gmap string string :=
  let written :=
    foldl (fun content doc => content +:+ model_dump_json doc +:+ String LF "")
          (default "" (fs !! path)) documents in
  (len documents, <[path := written]> fs).

(** The body of [read_documents] over the lines of the file *)
Fixpoint read_lines (ls : list string) : stream ScientificDocument :=
  match ls with
  | [] => {| yielded := []; raised := None |}
  | line :: rest =>
      let line := Py.strip line in
      if Py.truthy_str line then
        match model_validate_json line with
        | Some doc =>
            let r := read_lines rest in
            {| yielded := doc :: yielded r; raised := raised r |}
        | None => {| yielded := []; raised := Some ValidationError |}
        end
      else read_lines rest
  end.

(** [read_documents], iterated to its end *)
Definition read_documents (fs : gmap string string) (path : string)
  : stream ScientificDocument :=
  match fs !! path with
  | None => {| yielded := []; raised := Some FileNotFoundError |}
  | Some content => read_lines (file_lines content)
  end.

(** [count_documents] *)
Definition count_documents (fs : gmap string string) (path : string) : Z :=
  match fs !! path with
  | None => 0
  | Some content =>
      len (filter (fun line => Is_true (Py.truthy_str (Py.strip line)))
                  (file_lines content))
  end.
End jsonl.

End Jsonl.

(** ** Rate limiter ([utils/rate_limiter.py]) *)

Module RateLimiter.

(** Time is the reading of [time.monotonic()], a rational number of
    seconds; the arithmetic on it is exact. *)
Record t := {
  _rate : Q;
  _min_interval : Q;
  _last_request_time : Q }.

(** [RateLimiter.__init__] *)
Definition __init__ (requests_per_second : Q) : t :=
  {| _rate := requests_per_second;
     _min_interval := 1 / requests_per_second;
     _last_request_time := 0 |}.

(** The limiter together with the monotonic clock *)
Record state := { self : t; clock : Q }.

(** What the environment adds to the clock during one [wait()]: the time
    that passes before the lock is held and [now] is read, the time
    [time.sleep] sleeps beyond what it was asked, and the time that
    passes before the second reading. *)
Record delays := { before_now : Q; oversleep : Q; before_stamp : Q }.

Definition delays_ok (d : delays) : Prop :=
  (0 <= before_now d /\ 0 <= oversleep d /\ 0 <= before_stamp d)%Q.

(** [RateLimiter.wait], executed under [self._lock] *)
Definition wait (d : delays) (s : state) : state :=
  let now := (clock s + before_now d)%Q in
  let elapsed := (now - _last_request_time (self s))%Q in
  let after_sleep :=
    if negb (Qle_bool (_min_interval (self s)) elapsed)
    then (now + ((_min_interval (self s) - elapsed) + oversleep d))%Q
    else now in
  let stamp := (after_sleep + before_stamp d)%Q in
  {| self := {| _rate := _rate (self s);
                _min_interval := _min_interval (self s);
                _last_request_time := stamp |};
     clock := stamp |}.

End RateLimiter.

(** ** Orchestrator ([cli.py]) *)

Module Cli.

(** The keys of [SCRAPER_REGISTRY], in the order of the dict *)
Definition SCRAPER_REGISTRY : list string :=
  ["pubmed"; "google_patents"; "uspto"; "epo"].

(** The resolution of [--source] *)
Definition resolve (source : string) : list string :=
  if String.eqb source "all" then SCRAPER_REGISTRY
  else Py.strip <$> Py.split_char ","%char source.

(** The validation loop: the first name that is not registered *)
Definition first_unknown (source_names : list string) : option string :=
  head (filter (fun name => name ∉ SCRAPER_REGISTRY) source_names).

(** [BaseScraper.default_output_path] *)
Definition default_output_path (settings : Settings) (name : string) : string :=
  output_dir settings +:+ "/" +:+ name +:+ ".jsonl".

(** What a run leaves behind: the files, the names whose [search] was
    called (in call order), and the total or the exception. *)
Record run := {
  outcome : result Z;
  files : gmap string string;
  searched : list string }.

Section scrape.
Variable settings : Settings.
Variable model_dump_json : ScientificDocument -> string.
(** [search_of i name]: the outcome of constructing the scraper
    registered under [name] and calling its [search] with the query,
    limit and bounds of the run, as the [i]-th scraper of the run. *)
Variable search_of : nat -> string -> result (list ScientificDocument).

(** The loop [for name in source_names] of [scrape] *)
Fixpoint scrape_loop (output : option string) (source_names : list string)
    (total_docs : Z) (fs : gmap string string) (called : list string)
  : run :=
  match source_names with
  | [] => {| outcome := Ok total_docs; files := fs; searched := called |}
  | name :: rest =>
      match search_of (length called) name with
      | Raise e =>
          {| outcome := Raise e; files := fs; searched := called ++ [name] |}
      | Ok [] => scrape_loop output rest total_docs fs (called ++ [name])
      | Ok documents =>
          let out_path :=
            if Py.truthy_opt output then default "" output
            else default_output_path settings name in
          let '(written, fs') :=
            Jsonl.append_documents model_dump_json fs out_path documents in
          scrape_loop output rest (total_docs + written) fs' (called ++ [name])
      end
  end.

(** [scrape] *)
Definition scrape (source : string) (output : option string)
    (fs : gmap string string) : run :=
  let source_names := resolve source in
  match first_unknown source_names with
  | Some name =>
      {| outcome := Raise (BadParameter "--source"); files := fs; searched := [] |}
  | None => scrape_loop output source_names 0 fs []
  end.
End scrape.

End Cli.

(** ** A JSON codec for documents

    [model_dump_json] and [model_validate_json] belong to pydantic, and
    the storage layer is stated over any pair of such functions.  This
    module gives one executable pair of them: the compact JSON text of a
    document, and a reader of JSON text that fills the optional fields
    that are missing with the defaults of the model. *)

Module Json.

Definition DQ : ascii := Ascii.ascii_of_nat 34.
Definition BS : ascii := Ascii.ascii_of_nat 92.

Definition digit_char (d : Z) : ascii := Ascii.ascii_of_nat (48 + Z.to_nat d).

(** [w] decimal digits of [z], most significant first *)
Fixpoint fixed (w : nat) (z : Z) : string :=
  match w with
  | O => ""
  | S w' => fixed w' (z / 10) +:+ String (digit_char (z mod 10)) ""
  end.

Fixpoint count_digits (fuel : nat) (z : Z) : nat :=
  match fuel with
  | O => 1%nat
  | S f => if z <? 10 then 1%nat else S (count_digits f (z / 10))
  end.

Definition print_Z (z : Z) : string :=
  let a := Z.abs z in
  (if z <? 0 then "-" else "") +:+ fixed (count_digits (Z.to_nat a) a) a.

Definition hex_char (d : Z) : ascii :=
  if d <? 10 then digit_char d else Ascii.ascii_of_nat (Z.to_nat (87 + d)).

Definition escape_char (c : ascii) : string :=
  let n := Z.of_nat (Ascii.nat_of_ascii c) in
  if Ascii.eqb c DQ then String BS (String DQ "")
  else if Ascii.eqb c BS then String BS (String BS "")
  else if n <? 32
  then String BS ("u00" +:+ String (hex_char (n / 16)) (String (hex_char (n mod 16)) ""))
  else String c "".

Fixpoint escape (s : string) : string :=
  match s with
  | EmptyString => ""
  | String c s' => escape_char c +:+ escape s'
  end.

Definition print_string (s : string) : string :=
  String DQ (escape s) +:+ String DQ "".

Definition sep_by (sep : string) (l : list string) : string :=
  match l with
  | [] => ""
  | x :: xs => foldl (fun acc y => acc +:+ sep +:+ y) x xs
  end.

Fixpoint print (v : json) : string :=
  match v with
  | JNull => "null"
  | JBool true => "true"
  | JBool false => "false"
  | JNum n => print_Z n
  | JStr s => print_string s
  | JArr l => "[" +:+ sep_by "," (map print l) +:+ "]"
  | JObj l =>
      "{" +:+ sep_by "," (map (fun kv => print_string (fst kv) +:+ ":" +:+ print (snd kv)) l)
      +:+ "}"
  end.

Definition isoformat (d : date) : string :=
  fixed 4 (year d) +:+ "-" +:+ fixed 2 (month d) +:+ "-" +:+ fixed 2 (day d).

Definition isoformat_dt (t : datetime) : string :=
  isoformat (dt_date t) +:+ "T" +:+ fixed 2 (hour t) +:+ ":" +:+ fixed 2 (minute t)
  +:+ ":" +:+ fixed 2 (second t) +:+ "." +:+ fixed 6 (microsecond t) +:+ "Z".

Definition opt_json {A} (f : A -> json) (o : option A) : json :=
  match o with Some a => f a | None => JNull end.

(** [model_dump(mode="json")] *)
Definition to_json (d : ScientificDocument) : json :=
  JObj [("source", JStr (SourceType_value (source d)));
        ("title", JStr (title d));
        ("abstract", opt_json JStr (abstract d));
        ("authors",
          JArr ((fun a => JObj [("name", JStr (name a));
                                ("affiliation", opt_json JStr (affiliation a))])
                <$> authors d));
        ("publication_date", opt_json (fun x => JStr (isoformat x)) (publication_date d));
        ("identifiers",
          JArr ((fun i => JObj [("type", JStr (id_type i)); ("value", JStr (id_value i))])
                <$> identifiers d));
        ("chemical_entities", json_of_strings (chemical_entities d));
        ("full_text_url", opt_json JStr (full_text_url d));
        ("keywords", json_of_strings (keywords d));
        ("journal_or_office", opt_json JStr (journal_or_office d));
        ("metadata", JObj (map_to_list (metadata d)));
        ("scraped_at", JStr (isoformat_dt (scraped_at d)))].

Definition model_dump_json (d : ScientificDocument) : string := print (to_json d).

(** *** Reading *)

Definition is_json_ws (c : ascii) : bool :=
  let n := Ascii.nat_of_ascii c in
  (n =? 32)%nat || (n =? 9)%nat || (n =? 10)%nat || (n =? 13)%nat.

Definition skip_ws (s : string) : string := Py.lstrip_by is_json_ws s.

Definition hex_val (c : ascii) : option Z :=
  let n := Z.of_nat (Ascii.nat_of_ascii c) in
  if (48 <=? n) && (n <=? 57) then Some (n - 48)
  else if (97 <=? n) && (n <=? 102) then Some (n - 87)
  else if (65 <=? n) && (n <=? 70) then Some (n - 55)
  else None.

(** The characters of a string literal after its opening quote, and
    what follows the closing quote *)
Fixpoint parse_chars (s : string) : option (string * string) :=
  match s with
  | EmptyString => None
  | String c r =>
      if Ascii.eqb c DQ then Some ("", r)
      else if Ascii.eqb c BS then
        match r with
        | String e r' =>
            if Ascii.eqb e "u"%char then
              match r' with
              | String h1 (String h2 (String h3 (String h4 r''))) =>
                  a ← hex_val h1; b ← hex_val h2; c3 ← hex_val h3; d ← hex_val h4;
                  (if (a =? 0) && (b =? 0) then
                     '(str, rest) ← parse_chars r'';
                     Some (String (Ascii.ascii_of_nat (Z.to_nat (c3 * 16 + d))) str, rest)
                   else None)
              | _ => None
              end
            else
              ch ← (if Ascii.eqb e DQ then Some DQ
                    else if Ascii.eqb e BS then Some BS
                    else if Ascii.eqb e "/"%char then Some "/"%char
                    else if Ascii.eqb e "b"%char then Some (Ascii.ascii_of_nat 8)
                    else if Ascii.eqb e "f"%char then Some (Ascii.ascii_of_nat 12)
                    else if Ascii.eqb e "n"%char then Some (Ascii.ascii_of_nat 10)
                    else if Ascii.eqb e "r"%char then Some (Ascii.ascii_of_nat 13)
                    else if Ascii.eqb e "t"%char then Some (Ascii.ascii_of_nat 9)
                    else None);
              '(str, rest) ← parse_chars r';
              Some (String ch str, rest)
        | EmptyString => None
        end
      else if (Ascii.nat_of_ascii c <? 32)%nat then None
      else '(str, rest) ← parse_chars r; Some (String c str, rest)
  end.

(** The digits at the head of a string, and the rest *)
Fixpoint span_digits (s : string) : string * string :=
  match s with
  | String c r =>
      match Py.is_digit c with
      | Some _ => let '(ds, rest) := span_digits r in (String c ds, rest)
      | None => ("", s)
      end
  | EmptyString => ("", "")
  end.

Definition parse_number (s : string) : option (json * string) :=
  match s with
  | String "-"%char r =>
      let '(ds, rest) := span_digits r in
      n ← Py.int_digits 0 false ds; Some (JNum (- n), rest)
  | _ =>
      let '(ds, rest) := span_digits s in
      n ← Py.int_digits 0 false ds; Some (JNum n, rest)
  end.

Fixpoint parse_value (fuel : nat) (s : string) : option (json * string) :=
  match fuel with
  | O => None
  | S f =>
      match skip_ws s with
      | EmptyString => None
      | String c r =>
          if Ascii.eqb c "n"%char then
            if Py.startswith "ull" r then Some (JNull, Py.drop 3 r) else None
          else if Ascii.eqb c "t"%char then
            if Py.startswith "rue" r then Some (JBool true, Py.drop 3 r) else None
          else if Ascii.eqb c "f"%char then
            if Py.startswith "alse" r then Some (JBool false, Py.drop 4 r) else None
          else if Ascii.eqb c DQ then
            '(str, rest) ← parse_chars r; Some (JStr str, rest)
          else if Ascii.eqb c "["%char then
            match skip_ws r with
            | String "]"%char rest => Some (JArr [], rest)
            | r' => '(vs, rest) ← parse_elements f r'; Some (JArr vs, rest)
            end
          else if Ascii.eqb c "{"%char then
            match skip_ws r with
            | String "}"%char rest => Some (JObj [], rest)
            | r' => '(ms, rest) ← parse_members f r'; Some (JObj ms, rest)
            end
          else parse_number (String c r)
      end
  end
with parse_elements (fuel : nat) (s : string) : option (list json * string) :=
  match fuel with
  | O => None
  | S f =>
      '(v, r) ← parse_value f s;
      match skip_ws r with
      | String ","%char r' => '(vs, rest) ← parse_elements f r'; Some (v :: vs, rest)
      | String "]"%char rest => Some ([v], rest)
      | _ => None
      end
  end
with parse_members (fuel : nat) (s : string)
  : option (list (string * json) * string) :=
  match fuel with
  | O => None
  | S f =>
      match skip_ws s with
      | String c r =>
          if Ascii.eqb c DQ then
            '(k, r1) ← parse_chars r;
            match skip_ws r1 with
            | String ":"%char r2 =>
                '(v, r3) ← parse_value f r2;
                match skip_ws r3 with
                | String ","%char r4 =>
                    '(ms, rest) ← parse_members f r4; Some ((k, v) :: ms, rest)
                | String "}"%char rest => Some ([(k, v)], rest)
                | _ => None
                end
            | _ => None
            end
          else None
      | EmptyString => None
      end
  end.

(** [json.loads]: one value and nothing but white space after it *)
Definition loads (s : string) : option json :=
  '(v, rest) ← parse_value (2 * String.length s + 2) s;
  match skip_ws rest with
  | EmptyString => Some v
  | _ => None
  end.

(** The last value stored under a key, as a dict built from the text has it *)
Fixpoint member (k : string) (ms : list (string * json)) : option json :=
  match ms with
  | [] => None
  | (k', v) :: rest =>
      match member k rest with
      | Some v' => Some v'
      | None => if String.eqb k' k then Some v else None
      end
  end.

Definition as_str (v : json) : option string :=
  match v with JStr s => Some s | _ => None end.

Definition as_opt_str (v : option json) : option (option string) :=
  match v with
  | None | Some JNull => Some None
  | Some (JStr s) => Some (Some s)
  | _ => None
  end.

Definition as_str_list (v : option json) : option (list string) :=
  match v with
  | None => Some []
  | Some (JArr l) => mapM as_str l
  | _ => None
  end.

Definition num (a b : nat) (s : string) : option Z :=
  let d := Py.slice a b s in
  if forallb (fun c => bool_decide (is_Some (Py.is_digit c)))
             (String.list_ascii_of_string d)
     && (String.length d =? b - a)%nat
  then Py.int_digits 0 false d else None.

Definition sep_at (i : nat) (c : string) (s : string) : bool :=
  String.eqb (Py.slice i (S i) s) c.

(** A date written [YYYY-MM-DD] *)
Definition parse_iso_date (s : string) : option date :=
  if (String.length s =? 10)%nat && sep_at 4 "-" s && sep_at 7 "-" s then
    y ← num 0 4 s; m ← num 5 7 s; d ← num 8 10 s; mk_date y m d
  else None.

(** A UTC time written [YYYY-MM-DDTHH:MM:SS.ffffffZ] *)
Definition parse_iso_datetime (s : string) : option datetime :=
  if (String.length s =? 27)%nat && sep_at 10 "T" s && sep_at 13 ":" s
     && sep_at 16 ":" s && sep_at 19 "." s && sep_at 26 "Z" s then
    d ← parse_iso_date (Py.take 10 s);
    h ← num 11 13 s; mi ← num 14 16 s; se ← num 17 19 s; us ← num 20 26 s;
    if (h <? 24) && (mi <? 60) && (se <? 60) then Some (DateTime d h mi se us)
    else None
  else None.

Definition source_of (s : string) : option SourceType :=
  if String.eqb s "pubmed" then Some PUBMED
  else if String.eqb s "google_patents" then Some GOOGLE_PATENTS
  else if String.eqb s "uspto" then Some USPTO
  else if String.eqb s "epo" then Some EPO
  else None.

Definition author_of (v : json) : option Author :=
  match v with
  | JObj ms =>
      n ← member "name" ms ≫= as_str;
      a ← as_opt_str (member "affiliation" ms);
      Some {| name := n; affiliation := a |}
  | _ => None
  end.

Definition identifier_of (v : json) : option Identifier :=
  match v with
  | JObj ms =>
      ty ← member "type" ms ≫= as_str;
      va ← member "value" ms ≫= as_str;
      Some {| id_type := ty; id_value := va |}
  | _ => None
  end.

Definition as_list {A} (f : json -> option A) (v : option json) : option (list A) :=
  match v with
  | None => Some []
  | Some (JArr l) => mapM f l
  | _ => None
  end.

Definition as_opt_date (v : option json) : option (option date) :=
  match v with
  | None | Some JNull => Some None
  | Some (JStr s) => Some <$> parse_iso_date s
  | _ => None
  end.

(** A dict read from the text keeps the last value of a repeated key. *)
Definition as_dict (v : option json) : option (gmap string json) :=
  match v with
  | None => Some ∅
  | Some (JObj kvs) => Some (list_to_map (reverse kvs))
  | _ => None
  end.

Definition as_datetime (utcnow : datetime) (v : option json) : option datetime :=
  match v with
  | None => Some utcnow
  | Some (JStr s) => parse_iso_datetime s
  | _ => None
  end.

(** [model_validate]: [source] and [title] are required, the other
    fields take the defaults of the model when they are missing. *)
Definition of_json (utcnow : datetime) (v : json) : option ScientificDocument :=
  match v with
  | JObj ms =>
      src ← (member "source" ms ≫= as_str) ≫= source_of;
      ti ← member "title" ms ≫= as_str;
      ab ← as_opt_str (member "abstract" ms);
      au ← as_list author_of (member "authors" ms);
      pd ← as_opt_date (member "publication_date" ms);
      ids ← as_list identifier_of (member "identifiers" ms);
      ce ← as_str_list (member "chemical_entities" ms);
      url ← as_opt_str (member "full_text_url" ms);
      kw ← as_str_list (member "keywords" ms);
      jo ← as_opt_str (member "journal_or_office" ms);
      md ← as_dict (member "metadata" ms);
      at_ ← as_datetime utcnow (member "scraped_at" ms);
      Some {| source := src; title := ti; abstract := ab; authors := au;
              publication_date := pd; identifiers := ids;
              chemical_entities := ce; full_text_url := url; keywords := kw;
              journal_or_office := jo; metadata := md; scraped_at := at_ |}
  | _ => None
  end.

Definition model_validate_json (utcnow : datetime) (line : string)
  : option ScientificDocument :=
  loads line ≫= of_json utcnow.

End Json.

Definition sample_now : datetime := DateTime (Date 2024 6 1) 12 0 0 0.

Definition sample_doc : ScientificDocument :=
  {| source := USPTO; title := "Novel Drug Compound";
     abstract := Some "A new compound for treating...";
     authors := [{| name := "Jane Doe"; affiliation := Some "MIT" |}];
     publication_date := Some (Date 2024 6 15);
     identifiers := [{| id_type := "patent_number"; id_value := "US12345678" |}];
     chemical_entities := ["aspirin"; "ibuprofen"];
     full_text_url := Some "https://example.com/patent/123";
     keywords := ["drug"; "compound"];
     journal_or_office := Some "USPTO";
     metadata := {[ "cpc_codes" := JArr [JStr "A61K"] ]};
     scraped_at := sample_now |}.

(** ** Sample data *)

Definition sample_settings : Settings :=
  {| ncbi_api_key := None; ncbi_email := "test@test.com"; uspto_api_key := None;
     epo_key := None; epo_secret := None; serpapi_key := None;
     output_dir := "./data"; log_level := "INFO" |}.

(** A client whose every call fails *)
Definition sample_client (key secret : string) : EPOScraper.Client :=
  {| EPOScraper.published_data_search := fun _ _ _ _ => Raise ConnectionError |}.

Definition sample_medline : PubMed.record :=
  {| PubMed.text := list_to_map
       [("PMID", "12345678");
        ("TI", "Mechanism of action of aspirin on platelet aggregation");
        ("AB", "Aspirin inhibits cyclooxygenase-1 (COX-1) enzyme irreversibly...");
        ("DP", "2024 Mar 15"); ("JT", "Journal of Pharmacology")];
     PubMed.lines := list_to_map
       [("AU", ["Smith J"; "Doe A"]);
        ("MH", ["Aspirin/*pharmacology"; "Platelet Aggregation/drug effects"]);
        ("OT", ["aspirin"; "COX-1"]);
        ("AID", ["10.1234/test.2024.001 [doi]"]);
        ("PT", ["Journal Article"]); ("LA", ["eng"])] |}.

(** A search call that reports [count] results *)
Definition sample_esearch (count : string) (n : nat) (kwargs : gmap string string)
  : result PubMed.search_results :=
  Ok {| PubMed.Count := count; PubMed.WebEnv := "fake_webenv";
        PubMed.QueryKey := "1" |}.

(** A fetch call that answers every batch with the same records *)
Definition sample_efetch (records : list PubMed.record) (n : nat)
    (args : PubMed.fetch_args) : result (list PubMed.record) :=
  Ok records.

(** A fetch call that fails *)
Definition sample_efetch_fail (n : nat) (args : PubMed.fetch_args)
  : result (list PubMed.record) :=
  Raise HTTPError.

Definition sample_patent : USPTOScraper.patent :=
  {| USPTOScraper.patent_id := Str "11234567";
     USPTOScraper.patent_title := Str "Novel compound for treating hypertension";
     USPTOScraper.patent_abstract := Str "A pharmaceutical composition comprising...";
     USPTOScraper.patent_date := Str "2024-01-15";
     USPTOScraper.inventors :=
       [{| USPTOScraper.inventor_name_first := Str "Jane";
           USPTOScraper.inventor_name_last := Str "Doe" |};
        {| USPTOScraper.inventor_name_first := Str "John";
           USPTOScraper.inventor_name_last := Str "Smith" |}];
     USPTOScraper.assignees := [Str "Pharma Corp"];
     USPTOScraper.cpc_current := [Str "A61K31/00"; Str "A61P9/12"] |}.

Definition sample_page (cursor : jfield) : USPTOScraper.data :=
  {| USPTOScraper.data_patents := Some [sample_patent];
     USPTOScraper.data_cursor := cursor |}.

(** An upstream that serves one page with a cursor and then answers
    every request with HTTP 500 *)
Definition sample_post_then_fail (n : nat) (b : USPTOScraper.body)
  : result (option USPTOScraper.data) :=
  match n with
  | O => Ok (Some (sample_page (Str "c1")))
  | S _ => Raise HTTPError
  end.

(** An upstream that serves one page without a cursor *)
Definition sample_post_last (n : nat) (b : USPTOScraper.body)
  : result (option USPTOScraper.data) :=
  Ok (Some (sample_page Null)).

(** A web page that cannot be reached *)
Definition sample_http_down (n : nat) (params : gmap string GooglePatentsScraper.pval)
  : result (Z * string) :=
  Raise ConnectionError.

Definition sample_parse_html (html : string) : GooglePatentsScraper.node :=
  GooglePatentsScraper.Tag "html" [] [GooglePatentsScraper.TextNode html].

(** What a search that ends leaves as its outcome *)
Definition outcome_of {A L} (r : option (result A * L)) : result A :=
  match r with
  | Some (o, _) => o
  | None => Raise (OtherError "still running")
  end.

(** A run in which the national registry fails on its second page,
    the international registry has no credentials, and the literature
    index holds one record *)
Definition sample_search_of (i : nat) (name : string)
  : result (list ScientificDocument) :=
  if String.eqb name "uspto" then
    outcome_of (USPTOScraper.search sample_now Json.parse_iso_date
                  sample_post_then_fail 10 "aspirin" 100 None None)
  else if String.eqb name "epo" then
    outcome_of (EPOScraper.search sample_now (fun _ => None)
                  (EPOScraper.__init__ sample_client sample_settings)
                  10 "aspirin" 100 None None)
  else if String.eqb name "pubmed" then
    (PubMed.search sample_now (sample_esearch "1") (sample_efetch [sample_medline])
       "aspirin" 100 None None).1
  else Ok [].

(** ** Vocabulary of the properties

    What an exchange with an upstream contributes to the result of a
    search (the documents of the records it carries, in their order), and
    when an exchange tells the adapter that there is nothing more. *)

Section vocabulary.
Variable utcnow : datetime.
Variable fromisoformat : string -> option date.

Definition uspto_page_docs (x : USPTOScraper.exchange) : list ScientificDocument :=
  match x.2 with
  | Ok (Some d) =>
      omap (USPTOScraper._patent_to_document utcnow fromisoformat)
           (default [] (USPTOScraper.data_patents d))
  | _ => []
  end.

(** An empty body, a missing or empty page, or no cursor to go on with *)
Definition uspto_exhausted (x : USPTOScraper.exchange) : bool :=
  match x.2 with
  | Ok None => true
  | Ok (Some d) =>
      match USPTOScraper.data_patents d with
      | None | Some [] => true
      | Some _ => negb (Py.truthy_opt (jget (USPTOScraper.data_cursor d)))
      end
  | Raise _ => false
  end.

Variable parse_html : string -> GooglePatentsScraper.node.

Definition google_page_docs (x : GooglePatentsScraper.exchange)
  : list ScientificDocument :=
  match x with
  | GooglePatentsScraper.Serp _ (Ok organic) =>
      omap (GooglePatentsScraper._serpapi_result_to_document utcnow fromisoformat)
           organic
  | GooglePatentsScraper.Http _ (Ok (status_code, text)) =>
      if (status_code =? 200) && Py.truthy_str text
      then omap (GooglePatentsScraper._html_result_to_document utcnow)
                (GooglePatentsScraper.result_blocks (parse_html text))
      else []
  | _ => []
  end.

(** No organic results; a status other than 200, an empty page, or a
    page without result blocks *)
Definition google_exhausted (x : GooglePatentsScraper.exchange) : bool :=
  match x with
  | GooglePatentsScraper.Serp _ (Ok []) => true
  | GooglePatentsScraper.Http _ (Ok (status_code, text)) =>
      negb (status_code =? 200) || negb (Py.truthy_str text)
      || bool_decide (GooglePatentsScraper.result_blocks (parse_html text) = [])
  | _ => false
  end.

(** What [_fetch_search_page] makes of a response *)
Definition page_of (resp : result (Z * string)) : result (option string) :=
  match resp with
  | Raise e => Raise e
  | Ok (status_code, text) =>
      if negb (status_code =? 200) then Ok None else Ok (Some text)
  end.

Variable fromstring : string -> option EPOScraper.xml.

Definition epo_page_docs (x : EPOScraper.exchange) : list ScientificDocument :=
  match EPOScraper.x_outcome x with
  | Ok (status_code, content) =>
      if status_code =? 200
      then EPOScraper._parse_search_response utcnow fromstring content
      else []
  | Raise _ => []
  end.

(** A failed call, a status other than 200, or a page of fewer than
    [PAGE_SIZE] documents (none included) *)
Definition epo_exhausted (x : EPOScraper.exchange) : bool :=
  match EPOScraper.x_outcome x with
  | Ok (status_code, content) =>
      negb (status_code =? 200)
      || (len (EPOScraper._parse_search_response utcnow fromstring content)
          <? EPOScraper.PAGE_SIZE)
  | Raise _ => true
  end.

(** The document a record of the literature index gives, if it gives
    one *)
Definition pubmed_record_doc (r : PubMed.record) : option ScientificDocument :=
  match PubMed._record_to_document utcnow r with
  | Ok doc => doc
  | Raise _ => None
  end.

Definition pubmed_batch_docs (x : PubMed.exchange) : list ScientificDocument :=
  match x with
  | PubMed.Efetch _ (Ok records) => omap pubmed_record_doc records
  | _ => []
  end.

(** The result [r] of a paginated search against the log of its
    exchanges: the documents of the pages in the order received, cut at
    [max_results]; and the search went on until the limit was reached or
    the last exchange told that there is nothing more. *)
Definition paged {X} (page_docs : X -> list ScientificDocument)
    (exhausted : X -> bool) (max_results : Z)
    (r : list ScientificDocument) (log : list X) : Prop :=
  r = take (Z.to_nat max_results) (log ≫= page_docs) ∧
  (max_results <= len (log ≫= page_docs) ∨
   ∃ x, last log = Some x ∧ exhausted x = true).

(** The number of records the batches starting at [starts] ask for *)
Definition batch_budget (fetch_count : Z) (starts : list Z) : Z :=
  foldr (fun start acc =>
           Z.max 0 (Z.min PubMed.BATCH_SIZE (fetch_count - start)) + acc)
        0 starts.

(** The upstream hands out no more records than a batch asks for. *)
Definition honours_retmax
    (efetch : nat -> PubMed.fetch_args -> result (list PubMed.record)) : Prop :=
  ∀ n args records,
    efetch n args = Ok records → len records <= PubMed.retmax args.
End vocabulary.

(** The documents counted by a run over [names], the first of which is
    the [i]-th scraper of the run: the lengths of the lists returned *)
Fixpoint written_total (search_of : nat -> string -> result (list ScientificDocument))
    (i : nat) (names : list string) : Z :=
  match names with
  | [] => 0
  | name :: rest =>
      match search_of i name with
      | Ok documents => len documents
      | Raise _ => 0
      end + written_total search_of (S i) rest
  end.

(** A text without a line break *)
Definition no_newline (s : string) : bool :=
  forallb (fun c => negb (Ascii.eqb c Jsonl.LF) && negb (Ascii.eqb c Jsonl.CR))
          (String.list_ascii_of_string s).

Definition starts_nonspace (s : string) : bool :=
  match s with
  | String c _ => negb (Py.is_space c)
  | EmptyString => false
  end.

Fixpoint ends_nonspace (s : string) : bool :=
  match s with
  | EmptyString => false
  | String c EmptyString => negb (Py.is_space c)
  | String _ s' => ends_nonspace s'
  end.

(** What the storage layer needs of the codec on a document: the text of
    the document is read back as the document, it holds no line break,
    and it neither starts nor ends with white space (the text of a JSON
    object, written compactly, starts with an opening and ends with a
    closing brace). *)
Definition well_dumped (model_dump_json : ScientificDocument -> string)
    (model_validate_json : string -> option ScientificDocument)
    (d : ScientificDocument) : Prop :=
  model_validate_json (model_dump_json d) = Some d ∧
  no_newline (model_dump_json d) = true ∧
  starts_nonspace (model_dump_json d) = true ∧
  ends_nonspace (model_dump_json d) = true.

(** A line that is not blank *)
Definition nonblank (line : string) : bool := Py.truthy_str (Py.strip line).

(** The text [append_documents] writes for a list of documents *)
Definition dumped_lines (model_dump_json : ScientificDocument -> string)
    (documents : list ScientificDocument) : string :=
  foldr (fun doc rest => model_dump_json doc +:+ String Jsonl.LF rest) "" documents.

(** ** Vocabulary of the further properties *)

(** An outcome after which the retry wrapper tries again *)
Definition retryable_failure {A} (o : result A) : bool :=
  match o with
  | Raise e => is_retryable e
  | Ok _ => false
  end.

(** The exchanges of [k] attempts at [req], made after [n] earlier
    exchanges *)
Definition attempts {Req A} (call : nat -> Req -> result A) (req : Req)
    (n k : nat) : list (Req * result A) :=
  (fun i => (req, call (n + i)%nat req)) <$> seq 0 k.

(** A request body of the national-registry adapter for [query] and the
    date bounds, asking for at least one and at most [PAGE_SIZE] patents
    and for no more than [max_results]: what [_build_query] builds for
    some size and some cursor. *)
Definition uspto_request_ok (query : string) (max_results : Z)
    (date_from date_to : option string) (b : USPTOScraper.body) : Prop :=
  1 <= USPTOScraper.o_size b <= Z.min USPTOScraper.PAGE_SIZE max_results ∧
  b = USPTOScraper._build_query query (USPTOScraper.o_size b) date_from date_to
        (USPTOScraper.o_after b).

(** The arguments of the fetch calls among the exchanges of a search of
    the literature index, in call order *)
Definition fetch_requests (log : list PubMed.exchange) : list PubMed.fetch_args :=
  omap (fun x => match x with
                 | PubMed.Efetch args _ => Some args
                 | PubMed.Esearch _ _ => None
                 end) log.

(** The fetch calls that cover the records [0, fetch_count) in batches of
    [BATCH_SIZE] *)
Definition batches_of (web_env query_key : string) (fetch_count : Z)
  : list PubMed.fetch_args :=
  (fun start => {| PubMed.retstart := start;
                   PubMed.retmax := Z.min PubMed.BATCH_SIZE (fetch_count - start);
                   PubMed.webenv := web_env;
                   PubMed.query_key := query_key |})
  <$> PubMed.range_step fetch_count PubMed.BATCH_SIZE.

(** The sum of a list of integers *)
Definition sum_Z (l : list Z) : Z := foldr Z.add 0 l.

(** The [i]-th request of a search of the international registry: the
    query of the search and the [i]-th range of [PAGE_SIZE] results, cut
    at [max_results] *)
Definition epo_request_ok (cql : string) (max_results : Z) (i : nat)
    (x : EPOScraper.exchange) : Prop :=
  EPOScraper.x_cql x = cql ∧
  EPOScraper.x_range_begin x = 1 + EPOScraper.PAGE_SIZE * Z.of_nat i ∧
  EPOScraper.x_range_end x
  = Z.min (EPOScraper.PAGE_SIZE * (Z.of_nat i + 1)) max_results ∧
  EPOScraper.x_range_begin x <= EPOScraper.x_range_end x.

(** An exchange of the structured-API strategy (or else of the HTML
    strategy) *)
Definition is_serp (x : GooglePatentsScraper.exchange) : bool :=
  match x with
  | GooglePatentsScraper.Serp _ _ => true
  | GooglePatentsScraper.Http _ _ => false
  end.

(** A text that ends with a line feed *)
Fixpoint ends_lf (s : string) : bool :=
  match s with
  | EmptyString => false
  | String c EmptyString => Ascii.eqb c Jsonl.LF
  | String _ s' => ends_lf s'
  end.

(** A file to which whole lines can be added: it is missing or empty, or
    its last line is ended. *)
Definition appendable (fs : gmap string string) (path : string) : Prop :=
  default "" (fs !! path) = "" ∨ ends_lf (default "" (fs !! path)) = true.

(** The text of a document is one line that is not blank and has no
    white space around it. *)
Definition one_line (model_dump_json : ScientificDocument -> string)
    (d : ScientificDocument) : Prop :=
  no_newline (model_dump_json d) = true ∧
  starts_nonspace (model_dump_json d) = true ∧
  ends_nonspace (model_dump_json d) = true.

(** Consecutive calls of [wait()], one for each behaviour of the
    environment in [ds] *)
Definition waits (ds : list RateLimiter.delays) (s : RateLimiter.state)
  : RateLimiter.state :=
  foldl (fun s d => RateLimiter.wait d s) s ds.

(** The documents found by a run over [names], the first of which is the
    [i]-th scraper of the run, in the order the searches returned them *)
Fixpoint found_documents
    (search_of : nat -> string -> result (list ScientificDocument))
    (i : nat) (names : list string) : list ScientificDocument :=
  match names with
  | [] => []
  | name :: rest =>
      match search_of i name with
      | Ok documents => documents
      | Raise _ => []
      end ++ found_documents search_of (S i) rest
  end.

(** The document of the sample record of the literature index *)
Definition sample_article : ScientificDocument :=
  match PubMed._record_to_document sample_now sample_medline with
  | Ok (Some doc) => doc
  | _ => sample_doc
  end.

(** A document of the adapter [from], with a title *)
Definition tagged (from : SourceType) (d : ScientificDocument) : Prop :=
  source d = from ∧ title d ≠ "".

(** The exchanges of [k] requests for one page of the HTML strategy,
    made after [n] earlier exchanges *)
Definition page_requests
    (http_get : nat -> gmap string GooglePatentsScraper.pval -> result (Z * string))
    (params : gmap string GooglePatentsScraper.pval) (n k : nat)
  : list GooglePatentsScraper.exchange :=
  (fun i => GooglePatentsScraper.Http params (http_get (n + i)%nat params))
  <$> seq 0 k.

(** * Properties *)

(** ** Date parsing of the literature-index adapter *)

Lemma split_ws_nonempty_truthy (s : string) :
  Py.split_ws s ≠ [] → Py.truthy_str s = true.
Proof. destruct s; [intros H; by destruct H | done]. Qed.

Lemma parse_date_year_only (s p0 : string) (y : Z) :
  Py.split_ws s = [p0] → Py.int p0 = Some y →
  PubMed._parse_date s = date_of y 1 1.
Proof.
  intros Hs Hy. unfold PubMed._parse_date.
  rewrite split_ws_nonempty_truthy by (rewrite Hs; discriminate).
  rewrite Hs. simpl. rewrite Hy. reflexivity.
Qed.

Lemma parse_date_year_month (s p0 p1 : string) (y : Z) :
  Py.split_ws s = [p0; p1] → Py.int p0 = Some y →
  PubMed._parse_date s = date_of y (default 1 (PubMed.month_map !! p1)) 1.
Proof.
  intros Hs Hy. unfold PubMed._parse_date.
  rewrite split_ws_nonempty_truthy by (rewrite Hs; discriminate).
  rewrite Hs. simpl. rewrite Hy. reflexivity.
Qed.

Lemma parse_date_bad_year (s : string) :
  head (Py.split_ws s) ≫= Py.int = None → PubMed._parse_date s = Ok None.
Proof.
  intros H. unfold PubMed._parse_date.
  destruct (negb (Py.truthy_str s)); [done|].
  rewrite <- head_lookup. by rewrite H.
Qed.

(** A year of the calendar with month 1 and day 1 is a date. *)
Lemma date_of_first_day (y : Z) :
  1 ≤ y ≤ 9999 → date_of y 1 1 = Ok (Some (Date y 1 1)).
Proof.
  intros Hy. unfold date_of, fits_c_int, INT_MIN, INT_MAX, mk_date.
  replace (-2147483648 <=? y) with true by lia.
  replace (y <=? 2147483647) with true by lia.
  replace (1 <=? y) with true by lia.
  replace (y <=? 9999) with true by lia.
  reflexivity.
Qed.

(** C6.  [_parse_date] maps "2024 Mar 15" to 2024-03-15, "2024 Jan" and
    "2024" to 2024-01-01, and the empty string and "invalid" to no date.
    For every date string of ASCII characters: when its first white-space
    separated segment is not an integer literal (or it has no segment),
    it gives no date; a string of one segment is read with month 1 and
    day 1, a string of two segments with day 1 (and with month 1 when the
    second segment is not one of the twelve abbreviations).  The result
    is then what [date] makes of the year, the month and the day: the
    date itself for a year from 1 to 9999; no date for another year that
    fits a C [int]; [OverflowError], which the parser does not catch, for
    a year that does not. *)
Theorem C6_parse_date :
  PubMed._parse_date "2024 Mar 15" = Ok (Some (Date 2024 3 15)) ∧
  PubMed._parse_date "2024 Jan" = Ok (Some (Date 2024 1 1)) ∧
  PubMed._parse_date "2024" = Ok (Some (Date 2024 1 1)) ∧
  PubMed._parse_date "" = Ok None ∧
  PubMed._parse_date "invalid" = Ok None ∧
  (∀ s, Py.is_ascii s = true →
     head (Py.split_ws s) ≫= Py.int = None → PubMed._parse_date s = Ok None) ∧
  (∀ s p0 y, Py.is_ascii s = true →
     Py.split_ws s = [p0] → Py.int p0 = Some y →
     PubMed._parse_date s = date_of y 1 1 ∧
     (1 ≤ y ≤ 9999 → PubMed._parse_date s = Ok (Some (Date y 1 1)))) ∧
  (∀ s p0 p1 y, Py.is_ascii s = true →
     Py.split_ws s = [p0; p1] → Py.int p0 = Some y →
     PubMed._parse_date s = date_of y (default 1 (PubMed.month_map !! p1)) 1 ∧
     (PubMed.month_map !! p1 = None → 1 ≤ y ≤ 9999 →
      PubMed._parse_date s = Ok (Some (Date y 1 1)))).
Proof.
  do 5 (split; [vm_compute; reflexivity|]).
  split; [intros s _; apply parse_date_bad_year|].
  split.
  - intros s p0 y _ Hs Hy. rewrite (parse_date_year_only s p0 y Hs Hy).
    split; [done|]. apply date_of_first_day.
  - intros s p0 p1 y _ Hs Hy. rewrite (parse_date_year_month s p0 p1 y Hs Hy).
    split; [done|]. intros ->. apply date_of_first_day.
Qed.

Lemma C6_parse_date_witness :
  PubMed._parse_date "20x4 Mar 15" = Ok None ∧
  PubMed._parse_date "1999" = Ok (Some (Date 1999 1 1)) ∧
  PubMed._parse_date "1999 Dec" = Ok (Some (Date 1999 12 1)) ∧
  PubMed._parse_date "1999 Winter" = Ok (Some (Date 1999 1 1)) ∧
  PubMed._parse_date "12345" = Ok None ∧
  PubMed._parse_date "2147483648" = Raise OverflowError.
Proof.
  destruct C6_parse_date as (_ & _ & _ & _ & _ & Hbad & Hy & Hym).
  split; [apply Hbad; vm_compute; reflexivity|].
  split; [apply (Hy "1999" "1999" 1999); [reflexivity|reflexivity|reflexivity|lia]|].
  split.
  { destruct (Hym "1999 Dec" "1999" "Dec" 1999) as [H _];
      [reflexivity|reflexivity|reflexivity|]. rewrite H. reflexivity. }
  split.
  { apply (Hym "1999 Winter" "1999" "Winter" 1999);
      [reflexivity|reflexivity|reflexivity|reflexivity|lia]. }
  split.
  { destruct (Hy "12345" "12345" 12345) as [H _];
      [reflexivity|reflexivity|reflexivity|]. rewrite H. reflexivity. }
  destruct (Hy "2147483648" "2147483648" 2147483648) as [H _];
    [reflexivity|reflexivity|reflexivity|]. rewrite H. reflexivity.
Defined.

(** ** The international registry without credentials *)

(** C7. When the scraper is constructed from settings in which the key or
    the secret is missing (absent or empty), [search] returns the empty
    list for every query, limit and bounds, whatever the fuel, and no call
    to the upstream has been made. *)
Theorem C7_epo_without_credentials
    (utcnow : datetime) (epo_ops_Client : string → string → EPOScraper.Client)
    (fromstring : string → option EPOScraper.xml) (settings : Settings)
    (fuel : nat) (query : string) (max_results : Z)
    (date_from date_to : option string) :
  Py.truthy_opt (epo_key settings) && Py.truthy_opt (epo_secret settings) = false →
  EPOScraper.search utcnow fromstring
    (EPOScraper.__init__ epo_ops_Client settings)
    fuel query max_results date_from date_to
  = Some (Ok [], []).
Proof.
  intros H. unfold EPOScraper.search, EPOScraper.__init__. simpl.
  rewrite H. reflexivity.
Qed.

(** ** Date bounds of the structured-API strategy *)

(** The parameters of a structured-API request hold "after" and
    "before" exactly when [date_from] is truthy (supplied and not empty):
    then "after" is [date_from] and "before" is [date_to], or the empty
    string when [date_to] is absent; otherwise neither key is present and
    the parameters do not depend on [date_to]. *)
Lemma serpapi_params_dates
    (api_key query : string) (page : Z) (date_from date_to : option string) :
  let params :=
    GooglePatentsScraper.serpapi_params api_key query page date_from date_to in
  (Py.truthy_opt date_from = true →
     params !! "after" = Some (GooglePatentsScraper.PStr (default "" date_from)) ∧
     params !! "before"
       = Some (GooglePatentsScraper.PStr
                 (match date_to with Some t => t | None => "" end))) ∧
  (Py.truthy_opt date_from = false →
     params !! "after" = None ∧ params !! "before" = None ∧
     params = GooglePatentsScraper.serpapi_params api_key query page date_from None).
Proof.
  unfold GooglePatentsScraper.serpapi_params. split; intros H; rewrite H.
  - split.
    + by rewrite lookup_insert_eq.
    + rewrite lookup_insert_ne by done. rewrite lookup_insert_eq.
      by destruct date_to as [[|]|].
  - repeat split; by simplify_map_eq.
Qed.

(** ** Titles of the mapped documents *)

Lemma truthy_str_false (s : string) : Py.truthy_str s = false ↔ s = "".
Proof. destruct s; naive_solver. Qed.

Lemma truthy_str_true (s : string) : Py.truthy_str s = true ↔ s ≠ "".
Proof. destruct s; naive_solver. Qed.



Section titles.
Variable utcnow : datetime.
Variable fromisoformat : string → option date.

Lemma pubmed_title (r : PubMed.record) :
  match PubMed._record_to_document utcnow r with
  | Ok (Some d) => title d ≠ "" ∧ PubMed.text r !! "TI" = Some (title d)
  | Ok None => PubMed.text r !! "TI" = None ∨ PubMed.text r !! "TI" = Some ""
  | Raise e =>
      (∃ t, PubMed.text r !! "TI" = Some t ∧ t ≠ "") ∧
      PubMed._parse_date (default "" (PubMed.text r !! "DP")) = Raise e
  end.
Proof.
  unfold PubMed._record_to_document.
  destruct (PubMed.text r !! "TI") as [[|c s]|]; simpl; auto.
  destruct (PubMed._parse_date _); simpl; eauto.
Qed.

Lemma uspto_title (p : USPTOScraper.patent) :
  match USPTOScraper._patent_to_document utcnow fromisoformat p with
  | Some d => title d ≠ "" ∧ USPTOScraper.patent_title p = Str (title d)
  | None => Py.truthy_opt (jget (USPTOScraper.patent_title p)) = false
  end.
Proof.
  unfold USPTOScraper._patent_to_document.
  destruct (USPTOScraper.patent_title p) as [| |[|c s]]; simpl; auto.
Qed.

Lemma serpapi_title (r : GooglePatentsScraper.serp_result) :
  match GooglePatentsScraper._serpapi_result_to_document utcnow fromisoformat r with
  | Some d => title d ≠ "" ∧ GooglePatentsScraper.r_title r = Str (title d)
  | None => Py.truthy_opt (jget (GooglePatentsScraper.r_title r)) = false
  end.
Proof.
  unfold GooglePatentsScraper._serpapi_result_to_document.
  destruct (GooglePatentsScraper.r_title r) as [| |[|c s]]; simpl; auto.
Qed.
End titles.

(** *** Markup helpers *)











Section titles_markup.
Variable utcnow : datetime.

Lemma html_title (element : GooglePatentsScraper.node) :
  match GooglePatentsScraper._html_result_to_document utcnow element with
  | Some d => title d ≠ ""
  | None => True
  end.
Proof.
  unfold GooglePatentsScraper._html_result_to_document.
  match goal with |- context [if negb (Py.truthy_str ?x) then None else _] =>
    destruct x eqn:E end; simpl; [done|].
  destruct (GooglePatentsScraper.select_one
              [GooglePatentsScraper.tag_attr_contains "a" "href" "/patent/"] element)
    as [[|? ? ?]|]; simpl; done.
Qed.


Lemma epo_title (elem : EPOScraper.xml) :
  match EPOScraper._element_to_document utcnow elem with
  | Some d => title d ≠ ""
  | None => True
  end.
Proof.
  unfold EPOScraper._element_to_document.
  match goal with |- context [if negb (Py.truthy_str ?x) then None else _] =>
    destruct x eqn:E end; simpl; done.
Qed.

End titles_markup.


(** ** Pagination *)

Lemma len_app {A} (l k : list A) : len (l ++ k) = len l + len k.
Proof. unfold len. rewrite length_app. lia. Qed.

Lemma collect_spec {A} (f : A → option ScientificDocument) (max_results : Z)
    (documents : list ScientificDocument) (items : list A) :
  collect f max_results documents items
  = documents ++ take (Nat.max 1 (Z.to_nat (max_results - len documents)))
                      (omap f items).
Proof.
  revert documents. induction items as [|x items IH]; intros documents; simpl.
  - by rewrite take_nil, app_nil_r.
  - destruct (f x) as [doc|]; [|apply IH].
    rewrite len_app. change (len [doc]) with 1.
    destruct (Z.geb_spec (len documents + 1) max_results) as [Hge|Hlt].
    + replace (Nat.max 1 (Z.to_nat (max_results - len documents))) with 1%nat by lia.
      simpl. by rewrite take_0.
    + rewrite IH, len_app. change (len [doc]) with 1.
      replace (Nat.max 1 (Z.to_nat (max_results - len documents)))
        with (S (Nat.max 1 (Z.to_nat (max_results - (len documents + 1))))) by lia.
      simpl. by rewrite <- app_assoc.
Qed.

(** While fewer than [max_results] documents are held, the inner loop adds
    the documents of a page up to the limit. *)
Lemma collect_take {A} (f : A → option ScientificDocument) (max_results : Z)
    (documents : list ScientificDocument) (items : list A) :
  len documents < max_results →
  collect f max_results documents items
  = take (Z.to_nat max_results) (documents ++ omap f items).
Proof.
  intros Hlt. rewrite collect_spec.
  replace (Nat.max 1 (Z.to_nat (max_results - len documents)))
    with (Z.to_nat max_results - length documents)%nat by (unfold len in *; lia).
  rewrite take_app. rewrite (take_ge documents) by (unfold len in *; lia). reflexivity.
Qed.

Lemma take_short {A} (n : nat) (l r : list A) :
  l = take n r → (length l < n)%nat → l = r.
Proof.
  intros -> H. rewrite length_take in H. rewrite take_ge; [done | lia].
Qed.

Lemma take_take_app {A} (n : nat) (l r x : list A) :
  l = take n r → take n (l ++ x) = take n (r ++ x).
Proof.
  intros ->. destruct (decide (length r ≤ n)%nat) as [Hle|Hgt].
  - by rewrite (take_ge r) by done.
  - rewrite !take_app. rewrite take_take, Nat.min_id.
    rewrite length_take. replace (n - n `min` length r)%nat with 0%nat by lia.
    replace (n - length r)%nat with 0%nat by lia. by rewrite !take_0.
Qed.

Lemma slice_to_take {A} (max_results : Z) (l : list A) :
  l = take (Z.to_nat max_results) l → slice_to max_results l = l.
Proof.
  intros H. unfold slice_to. destruct (Z.leb_spec 0 max_results); [by symmetry|].
  replace (Z.to_nat max_results) with 0%nat in H by lia.
  rewrite take_0 in H. rewrite H. apply take_nil.
Qed.

(** *** The retry wrapper over one request *)

Section retry_facts.
Context {Req A : Type}.
Variable call : nat → Req → result A.
Variable req : Req.

Lemma retry_go_unfold (retries : nat) (log : list (Req * result A)) :
  retry_go retries (attempt_once call req) log
  = match call (length log) req with
    | Ok a => (Ok a, log ++ [(req, Ok a)])
    | Raise e =>
        match retries with
        | S k =>
            if is_retryable e
            then retry_go k (attempt_once call req) (log ++ [(req, Raise e)])
            else (Raise e, log ++ [(req, Raise e)])
        | O => (Raise e, log ++ [(req, Raise e)])
        end
    end.
Proof.
  destruct retries; simpl; unfold attempt_once;
    destruct (call (length log) req); reflexivity.
Qed.

Lemma retry_go_spec (retries : nat) (log log' : list (Req * result A))
    (o : result A) :
  retry_go retries (attempt_once call req) log = (o, log') →
  ∃ failed, log' = log ++ failed ++ [(req, o)] ∧
            (length failed ≤ retries)%nat ∧
            Forall (λ x, ∃ e, x.2 = Raise e ∧ is_retryable e = true) failed.
Proof.
  revert log. induction retries as [|k IH]; intros log; rewrite retry_go_unfold;
    destruct (call (length log) req) as [a|e] eqn:Hc.
  - intros [= <- <-]. by exists [].
  - intros [= <- <-]. by exists [].
  - intros [= <- <-]. exists []. split; [done|]. split; [simpl; lia|done].
  - destruct (is_retryable e) eqn:He.
    + intros H. apply IH in H as (failed & -> & Hlen & Hall).
      exists ((req, Raise e) :: failed). rewrite <- app_assoc. simpl.
      split; [done|]. split; [lia|]. constructor; [|done]. eauto.
    + intros [= <- <-]. exists []. split; [done|]. split; [simpl; lia|done].
Qed.

Lemma retry_go_ok (retries : nat) (log : list (Req * result A)) (a : A) :
  call (length log) req = Ok a →
  retry_go retries (attempt_once call req) log = (Ok a, log ++ [(req, Ok a)]).
Proof. intros H. rewrite retry_go_unfold. by rewrite H. Qed.

(** When every attempt raises the same retryable exception, the wrapper
    makes all its attempts and re-raises it. *)
Lemma retry_go_exhaust (retries : nat) (log : list (Req * result A)) (e : exn) :
  is_retryable e = true →
  (∀ n, (length log ≤ n ≤ length log + retries)%nat → call n req = Raise e) →
  retry_go retries (attempt_once call req) log
  = (Raise e, log ++ replicate (S retries) (req, Raise e)).
Proof.
  intros He. revert log. induction retries as [|k IH]; intros log H;
    rewrite retry_go_unfold; rewrite (H (length log)) by lia.
  - done.
  - rewrite He. rewrite IH.
    + by rewrite <- app_assoc.
    + intros n Hn. apply H. rewrite length_app in Hn. simpl in Hn. lia.
Qed.
End retry_facts.

(** *** The cursor-paginated adapter *)

Section uspto_pagination.
Variable utcnow : datetime.
Variable fromisoformat : string → option date.
Variable post : nat → USPTOScraper.body → result (option USPTOScraper.data).
Variable query : string.
Variable max_results : Z.
Variables date_from date_to : option string.

Local Abbreviation received log := (log ≫= uspto_page_docs utcnow fromisoformat).
Local Abbreviation loop := (USPTOScraper.search_loop utcnow fromisoformat post).
Local Arguments USPTOScraper._fetch_page : simpl never.

Lemma uspto_received_fetch (log failed : list USPTOScraper.exchange)
    (x : USPTOScraper.exchange) :
  Forall (λ y, ∃ e, y.2 = Raise e ∧ is_retryable e = true) failed →
  received (log ++ failed ++ [x])
  = received log ++ uspto_page_docs utcnow fromisoformat x.
Proof.
  intros Hf. rewrite !bind_app. f_equal.
  replace (received failed) with (@nil ScientificDocument).
  - simpl. by rewrite app_nil_r.
  - induction Hf as [|y l (e & Hy & _) _ IH]; [done|].
    simpl. unfold uspto_page_docs at 1. by rewrite Hy.
Qed.

Lemma uspto_loop_ok (fuel : nat) :
  ∀ documents cursor log r log',
    documents = take (Z.to_nat max_results) (received log) →
    loop fuel query max_results date_from date_to documents cursor log
      = Some (Ok r, log') →
    r = take (Z.to_nat max_results) (received log') ∧
    (max_results ≤ len (received log') ∨
     ∃ x, last log' = Some x ∧ uspto_exhausted x = true).
Proof.
  induction fuel as [|fuel IH]; intros documents cursor log r log' Hinv; simpl;
    destruct (Z.ltb_spec (len documents) max_results) as [Hlt|Hge]; simpl.
  - done.
  - intros [= <- <-]. split; [done|]. left.
    rewrite Hinv in Hge. unfold len in *. rewrite length_take in Hge. lia.
  - destruct (USPTOScraper._fetch_page post _ log) as [o log1] eqn:Hfetch.
    apply retry_go_spec in Hfetch as (failed & -> & _ & Hfailed).
    assert (Hdocs : documents = received log).
    { apply (take_short _ _ _ Hinv). unfold len in Hlt. lia. }
    destruct o as [[d|]|e]; [| |done].
    + destruct (USPTOScraper.data_patents d) as [[|p ps]|] eqn:Hps.
      * intros [= <- <-]. rewrite uspto_received_fetch by done.
        unfold uspto_page_docs, uspto_exhausted; simpl. rewrite Hps; simpl.
        rewrite app_nil_r. split; [done|]. right. eexists.
        rewrite app_assoc, last_snoc. split; [done|]. simpl. by rewrite Hps.
      * set (docs' := collect _ _ _ _).
        assert (Hinv' : docs' = take (Z.to_nat max_results)
                  (received (log ++ failed ++ [(USPTOScraper._build_query query
                     (Z.min USPTOScraper.PAGE_SIZE (max_results - len documents))
                     date_from date_to cursor, Ok (Some d))]))).
        { unfold docs'. rewrite collect_take by done.
          rewrite uspto_received_fetch by done.
          unfold uspto_page_docs; simpl. rewrite Hps; simpl.
          by rewrite Hdocs. }
        destruct (Py.truthy_opt (jget (USPTOScraper.data_cursor d))) eqn:Hcur; simpl.
        -- intros H. by apply IH in H.
        -- intros [= <- <-]. split; [done|]. right. eexists.
           rewrite app_assoc, last_snoc. split; [done|].
           unfold uspto_exhausted; simpl. by rewrite Hps, Hcur.
      * intros [= <- <-]. rewrite uspto_received_fetch by done.
        unfold uspto_page_docs, uspto_exhausted; simpl. rewrite Hps; simpl.
        rewrite app_nil_r. split; [done|]. right. eexists.
        rewrite app_assoc, last_snoc. split; [done|]. simpl. by rewrite Hps.
    + intros [= <- <-]. rewrite uspto_received_fetch by done.
      unfold uspto_page_docs; simpl. rewrite app_nil_r. split; [done|].
      right. eexists. rewrite app_assoc, last_snoc. by split.
  - intros [= <- <-]. split; [done|]. left.
    rewrite Hinv in Hge. unfold len in *. rewrite length_take in Hge. lia.
Qed.

(** An exception leaves the loop as it left the page fetch: the last
    exchange of the log raised it. *)
Lemma uspto_loop_raise (fuel : nat) :
  ∀ documents cursor log e log',
    loop fuel query max_results date_from date_to documents cursor log
      = Some (Raise e, log') →
    ∃ x, last log' = Some x ∧ x.2 = Raise e.
Proof.
  induction fuel as [|fuel IH]; intros documents cursor log e log'; simpl;
    destruct (len documents <? max_results); simpl; try done.
  destruct (USPTOScraper._fetch_page post _ log) as [o log1] eqn:Hfetch.
  apply retry_go_spec in Hfetch as (failed & -> & _ & _).
  destruct o as [[d|]|e']; [| done |].
  - destruct (USPTOScraper.data_patents d) as [[|p ps]|]; try done.
    destruct (Py.truthy_opt _); simpl; [apply IH | done].
  - intros [= <- <-]. eexists. rewrite app_assoc, last_snoc. by split.
Qed.

(** When the upstream answers every request from its [k]-th on with an
    exhausted page, [k + 1] iterations are enough. *)
Lemma uspto_loop_terminates (k : nat) :
  (∀ n b, (k ≤ n)%nat → uspto_exhausted (b, post n b) = true) →
  ∀ fuel documents cursor log,
    (k - length log < fuel)%nat →
    is_Some (loop fuel query max_results date_from date_to documents cursor log).
Proof.
  intros Hk. induction fuel as [|fuel IH]; intros documents cursor log Hfuel;
    [lia|]. simpl.
  destruct (len documents <? max_results); simpl; [|by eexists].
  destruct (decide (k ≤ length log)%nat) as [Hle|Hgt].
  - unfold USPTOScraper._fetch_page, with_retry.
    match goal with |- context [attempt_once post ?b] =>
      pose proof (Hk (length log) b Hle) as Hx end.
    unfold uspto_exhausted in Hx. simpl in Hx.
    destruct (post (length log) _) as [[d|]|e] eqn:Hp; [| |done].
    + rewrite (retry_go_ok _ _ _ _ _ Hp).
      destruct (USPTOScraper.data_patents d) as [[|p ps]|]; try by eexists.
      rewrite Hx. by eexists.
    + rewrite (retry_go_ok _ _ _ _ _ Hp). by eexists.
  - destruct (USPTOScraper._fetch_page post _ log) as [o log1] eqn:Hfetch.
    apply retry_go_spec in Hfetch as (failed & -> & _ & _).
    destruct o as [[d|]|e]; try by eexists.
    destruct (USPTOScraper.data_patents d) as [[|p ps]|]; try by eexists.
    destruct (Py.truthy_opt _); simpl; [|by eexists].
    apply IH. rewrite !length_app. simpl. unfold USPTOScraper.exchange in *. lia.
Qed.
End uspto_pagination.

(** *** The page-indexed adapter, structured-API strategy *)

Section serpapi_pagination.
Variable utcnow : datetime.
Variable fromisoformat : string → option date.
Variable parse_html : string → GooglePatentsScraper.node.
Variable get_dict :
  nat → gmap string GooglePatentsScraper.pval →
  result (list GooglePatentsScraper.serp_result).
Variables api_key query : string.
Variable max_results : Z.
Variables date_from date_to : option string.

Local Abbreviation received log :=
  (log ≫= google_page_docs utcnow fromisoformat parse_html).
Local Abbreviation loop :=
  (GooglePatentsScraper.serpapi_loop utcnow fromisoformat get_dict).

Lemma serpapi_loop_ok (fuel : nat) :
  ∀ documents page log r log',
    documents = take (Z.to_nat max_results) (received log) →
    loop fuel api_key query max_results date_from date_to documents page log
      = Some (Ok r, log') →
    r = take (Z.to_nat max_results) (received log') ∧
    (max_results ≤ len (received log') ∨
     ∃ x, last log' = Some x ∧ google_exhausted parse_html x = true).
Proof.
  induction fuel as [|fuel IH]; intros documents page log r log' Hinv; simpl;
    destruct (Z.ltb_spec (len documents) max_results) as [Hlt|Hge]; simpl.
  - done.
  - intros [= <- <-]. split; [done|]. left.
    rewrite Hinv in Hge. unfold len in *. rewrite length_take in Hge. lia.
  - assert (Hdocs : documents = received log).
    { apply (take_short _ _ _ Hinv). unfold len in Hlt. lia. }
    destruct (get_dict (length log) _) as [[|o organic]|e] eqn:Hget; [| |done].
    + intros [= <- <-]. rewrite bind_app. simpl. rewrite !app_nil_r.
      split; [done|]. right. eexists. rewrite last_snoc. by split.
    + intros H. apply IH in H; [done|].
      rewrite collect_take by done. rewrite bind_app. simpl.
      rewrite app_nil_r. by rewrite Hdocs.
  - intros [= <- <-]. split; [done|]. left.
    rewrite Hinv in Hge. unfold len in *. rewrite length_take in Hge. lia.
Qed.

Lemma serpapi_loop_raise (fuel : nat) :
  ∀ documents page log e log',
    loop fuel api_key query max_results date_from date_to documents page log
      = Some (Raise e, log') →
    ∃ params, last log' = Some (GooglePatentsScraper.Serp params (Raise e)).
Proof.
  induction fuel as [|fuel IH]; intros documents page log e log'; simpl;
    destruct (len documents <? max_results); simpl; try done.
  destruct (get_dict (length log) _) as [[|o organic]|e'] eqn:Hget; try done.
  - apply IH.
  - intros [= <- <-]. eexists. by rewrite last_snoc.
Qed.

Lemma serpapi_loop_terminates (k : nat) :
  (∀ n params, (k ≤ n)%nat → get_dict n params = Ok []) →
  ∀ fuel documents page log,
    (k - length log < fuel)%nat →
    is_Some (loop fuel api_key query max_results date_from date_to
               documents page log).
Proof.
  intros Hk. induction fuel as [|fuel IH]; intros documents page log Hfuel;
    [lia|]. simpl.
  destruct (len documents <? max_results); simpl; [|by eexists].
  destruct (decide (k ≤ length log)%nat) as [Hle|Hgt].
  - rewrite Hk by done. by eexists.
  - destruct (get_dict (length log) _) as [[|o organic]|e]; try by eexists.
    apply IH. rewrite length_app. simpl. lia.
Qed.
End serpapi_pagination.

(** *** The page-indexed adapter, HTML strategy *)

Section http_pagination.
Variable utcnow : datetime.
Variable fromisoformat : string → option date.
Variable parse_html : string → GooglePatentsScraper.node.
Variable http_get :
  nat → gmap string GooglePatentsScraper.pval → result (Z * string).
Variable query : string.
Variable max_results : Z.
Variables date_from date_to : option string.

Local Abbreviation received log :=
  (log ≫= google_page_docs utcnow fromisoformat parse_html).
Local Abbreviation loop :=
  (GooglePatentsScraper.http_loop utcnow http_get parse_html).
Local Abbreviation fetch :=
  (GooglePatentsScraper._fetch_search_page http_get).
Local Arguments GooglePatentsScraper._fetch_search_page : simpl never.
Local Arguments collect : simpl never.

Lemma http_retry_spec (retries : nat) (page : Z) :
  ∀ log o log',
    retry_go retries
      (λ log,
         let params := GooglePatentsScraper.http_params query page date_from date_to in
         let resp := http_get (length log) params in
         (match resp with
          | Raise e => Raise e
          | Ok (status_code, text) =>
              if negb (status_code =? 200) then Ok None else Ok (Some text)
          end, log ++ [GooglePatentsScraper.Http params resp])) log = (o, log') →
    ∃ failed params resp,
      log' = log ++ failed ++ [GooglePatentsScraper.Http params resp] ∧
      o = page_of resp ∧ resp = http_get (length log + length failed) params ∧
      Forall (λ x, ∃ p e, x = GooglePatentsScraper.Http p (Raise e)) failed.
Proof.
  induction retries as [|k IH]; intros log o log'; simpl;
    destruct (http_get (length log) _) as [[st text]|e] eqn:Hg.
  - destruct (negb (st =? 200)) eqn:Hst; intros [= <- <-];
      exists [], (GooglePatentsScraper.http_params query page date_from date_to), (Ok (st, text)); simpl; rewrite Nat.add_0_r, Hg, ?Hst; done.
  - intros [= <- <-]. exists [], (GooglePatentsScraper.http_params query page date_from date_to), (Raise e). simpl.
    by rewrite Nat.add_0_r, Hg.
  - destruct (negb (st =? 200)) eqn:Hst; intros [= <- <-];
      exists [], (GooglePatentsScraper.http_params query page date_from date_to), (Ok (st, text)); simpl; rewrite Nat.add_0_r, Hg, ?Hst; done.
  - destruct (is_retryable e).
    + intros H. apply IH in H as (failed & params & resp & -> & -> & -> & Hall).
      exists (GooglePatentsScraper.Http
                (GooglePatentsScraper.http_params query page date_from date_to)
                (Raise e) :: failed), params,
             (http_get (length (log ++ [GooglePatentsScraper.Http
                (GooglePatentsScraper.http_params query page date_from date_to)
                (Raise e)]) + length failed) params).
      rewrite <- app_assoc. simpl. split; [done|]. split; [done|].
      split; [|constructor; eauto].
      rewrite length_app. simpl. f_equal. lia.
    + intros [= <- <-]. exists [], (GooglePatentsScraper.http_params query page date_from date_to), (Raise e). simpl.
      by rewrite Nat.add_0_r, Hg.
Qed.

Lemma http_fetch_spec (page : Z) (log log' : list GooglePatentsScraper.exchange)
    (o : result (option string)) :
  fetch query page date_from date_to log = (o, log') →
  ∃ failed params resp,
    log' = log ++ failed ++ [GooglePatentsScraper.Http params resp] ∧
    o = page_of resp ∧ resp = http_get (length log + length failed) params ∧
    received log' = received log
      ++ google_page_docs utcnow fromisoformat parse_html
           (GooglePatentsScraper.Http params resp).
Proof.
  intros H. apply http_retry_spec in H
    as (failed & params & resp & -> & -> & Hresp & Hall).
  exists failed, params, resp. repeat split; try done.
  rewrite !bind_app. f_equal.
  replace (received failed) with (@nil ScientificDocument);
    [simpl; by rewrite app_nil_r|].
  clear Hresp. induction Hall as [|y l (p & e & ->) _ IH]; [done|].
  rewrite bind_cons. exact IH.
Qed.

Lemma http_loop_ok (fuel : nat) :
  ∀ documents page log r log',
    documents = take (Z.to_nat max_results) (received log) →
    loop fuel query max_results date_from date_to documents page log
      = Some (Ok r, log') →
    r = take (Z.to_nat max_results) (received log') ∧
    (max_results ≤ len (received log') ∨
     ∃ x, last log' = Some x ∧ google_exhausted parse_html x = true).
Proof.
  induction fuel as [|fuel IH]; intros documents page log r log' Hinv; simpl;
    destruct (Z.ltb_spec (len documents) max_results) as [Hlt|Hge]; simpl.
  - done.
  - intros [= <- <-]. split; [done|]. left.
    rewrite Hinv in Hge. unfold len in *. rewrite length_take in Hge. lia.
  - assert (Hdocs : documents = received log).
    { apply (take_short _ _ _ Hinv). unfold len in Hlt. lia. }
    destruct (fetch query page date_from date_to log) as [o log1] eqn:Hfetch.
    apply http_fetch_spec in Hfetch
      as (failed & params & resp & -> & -> & _ & Hrec).
    destruct resp as [[st text]|e]; simpl; [|done].
    destruct (Z.eqb_spec st 200) as [->|Hst]; simpl.
    + destruct text as [|c text]; simpl.
      * intros [= <- <-]. rewrite Hrec. simpl. rewrite app_nil_r.
        split; [done|]. right. eexists. rewrite app_assoc, last_snoc. by split.
      * destruct (GooglePatentsScraper.result_blocks _) as [|b bs] eqn:Hb.
        -- intros [= <- <-]. rewrite Hrec. simpl. rewrite Hb. simpl.
           rewrite app_nil_r. split; [done|]. right. eexists.
           rewrite app_assoc, last_snoc. split; [done|]. simpl.
           rewrite Hb. by rewrite bool_decide_eq_true_2.
        -- intros H. apply IH in H; [done|].
           rewrite collect_take by done. rewrite Hrec. simpl. rewrite Hb.
           by rewrite Hdocs.
    + intros [= <- <-]. rewrite Hrec. simpl.
      destruct (st =? 200) eqn:E; [apply Z.eqb_eq in E; done|]. simpl.
      rewrite app_nil_r. split; [done|]. right. eexists.
      rewrite app_assoc, last_snoc. split; [done|]. simpl. by rewrite E.
  - intros [= <- <-]. split; [done|]. left.
    rewrite Hinv in Hge. unfold len in *. rewrite length_take in Hge. lia.
Qed.

Lemma http_loop_raise (fuel : nat) :
  ∀ documents page log e log',
    loop fuel query max_results date_from date_to documents page log
      = Some (Raise e, log') →
    ∃ params, last log' = Some (GooglePatentsScraper.Http params (Raise e)).
Proof.
  induction fuel as [|fuel IH]; intros documents page log e log'; simpl;
    destruct (len documents <? max_results); simpl; try done.
  destruct (fetch query page date_from date_to log) as [o log1] eqn:Hfetch.
  apply http_fetch_spec in Hfetch as (failed & params & resp & -> & -> & _ & _).
  destruct resp as [[st text]|e']; simpl.
  - destruct (negb (st =? 200)); simpl; [done|].
    destruct text as [|c text]; simpl; [done|].
    destruct (GooglePatentsScraper.result_blocks _); [done|]. apply IH.
  - intros [= <- <-]. eexists. by rewrite app_assoc, last_snoc.
Qed.

Lemma http_loop_terminates (k : nat) :
  (∀ n params, (k ≤ n)%nat →
     google_exhausted parse_html
       (GooglePatentsScraper.Http params (http_get n params)) = true) →
  ∀ fuel documents page log,
    (k - length log < fuel)%nat →
    is_Some (loop fuel query max_results date_from date_to documents page log).
Proof.
  intros Hk. induction fuel as [|fuel IH]; intros documents page log Hfuel;
    [lia|]. simpl.
  destruct (len documents <? max_results); simpl; [|by eexists].
  destruct (fetch query page date_from date_to log) as [o log1] eqn:Hfetch.
  apply http_fetch_spec in Hfetch as (failed & params & resp & -> & -> & Hresp & _).
  destruct resp as [[st text]|e]; simpl; [|by eexists].
  destruct (negb (st =? 200)) eqn:Hst; simpl; [by eexists|].
  destruct text as [|c text]; simpl; [by eexists|].
  destruct (GooglePatentsScraper.result_blocks _) as [|b bs] eqn:Hb; [by eexists|].
  destruct (decide (k ≤ length log + length failed)%nat) as [Hle|Hgt].
  - specialize (Hk _ params Hle). rewrite <- Hresp in Hk. simpl in Hk.
    rewrite Hst, Hb in Hk. done.
  - apply IH. rewrite !length_app. simpl. lia.
Qed.
End http_pagination.

(** *** The range-paginated adapter *)

Section epo_pagination.
Variable utcnow : datetime.
Variable fromstring : string → option EPOScraper.xml.
Variable client : EPOScraper.Client.
Variable cql : string.
Variable max_results : Z.

Local Abbreviation received log := (log ≫= epo_page_docs utcnow fromstring).
Local Abbreviation loop := (EPOScraper.search_loop utcnow fromstring).

(** The loop never raises: it returns the documents of the pages
    received, and it stops at the limit or at an exhausted page. *)
Lemma epo_loop_ok (fuel : nat) :
  ∀ documents range_begin log r log',
    documents = received log →
    loop fuel client cql max_results documents range_begin log = Some (r, log') →
    r = received log' ∧
    (max_results ≤ len (received log') ∨
     ∃ x, last log' = Some x ∧ epo_exhausted utcnow fromstring x = true).
Proof.
  induction fuel as [|fuel IH]; intros documents range_begin log r log' Hinv; simpl;
    destruct (Z.ltb_spec (len documents) max_results) as [Hlt|Hge]; simpl.
  - done.
  - intros [= <- <-]. split; [done|]. left. by rewrite <- Hinv.
  - destruct (EPOScraper.published_data_search client _ _ _ _)
      as [[st content]|e] eqn:Hcall.
    + destruct (Z.eqb_spec st 200) as [->|Hst]; simpl.
      * destruct (EPOScraper._parse_search_response utcnow fromstring content)
          as [|b bs] eqn:Hparse.
        -- intros [= <- <-]. rewrite bind_app. simpl.
           unfold epo_page_docs at 2. simpl. rewrite Hparse, !app_nil_r.
           split; [done|]. right. eexists. rewrite last_snoc. split; [done|].
           unfold epo_exhausted. simpl. by rewrite Hparse.
        -- destruct (Z.ltb_spec (len (b :: bs)) EPOScraper.PAGE_SIZE) as [Hshort|Hfull].
           ++ intros [= <- <-]. rewrite bind_app. simpl.
              unfold epo_page_docs at 2. simpl. rewrite Hparse, app_nil_r.
              split; [by rewrite Hinv|]. right. eexists. rewrite last_snoc.
              split; [done|]. unfold epo_exhausted. simpl. rewrite Hparse.
              by apply Z.ltb_lt.
           ++ intros H. apply IH in H; [done|].
              rewrite bind_app. simpl. unfold epo_page_docs at 2. simpl.
              by rewrite Hparse, app_nil_r, Hinv.
      * intros [= <- <-]. rewrite bind_app. simpl.
        unfold epo_page_docs at 2. simpl.
        destruct (st =? 200) eqn:E; [apply Z.eqb_eq in E; done|].
        rewrite !app_nil_r. split; [done|]. right. eexists. rewrite last_snoc.
        split; [done|]. unfold epo_exhausted. simpl. by rewrite E.
    + intros [= <- <-]. rewrite bind_app. simpl.
      unfold epo_page_docs at 2. simpl. rewrite !app_nil_r.
      split; [done|]. right. eexists. rewrite last_snoc. by split.
  - intros [= <- <-]. split; [done|]. left. by rewrite <- Hinv.
Qed.

(** Every iteration that goes on has added a full page, so the loop ends
    within as many iterations as documents are still wanted. *)
Lemma epo_loop_terminates (fuel : nat) :
  ∀ documents range_begin log,
    (Z.to_nat (max_results - len documents) < fuel)%nat →
    is_Some (loop fuel client cql max_results documents range_begin log).
Proof.
  induction fuel as [|fuel IH]; intros documents range_begin log Hfuel; [lia|].
  simpl. destruct (Z.ltb_spec (len documents) max_results) as [Hlt|Hge]; simpl;
    [|by eexists].
  destruct (EPOScraper.published_data_search client _ _ _ _)
    as [[st content]|e]; [|by eexists].
  destruct (negb (st =? 200)); [by eexists|].
  destruct (EPOScraper._parse_search_response utcnow fromstring content)
    as [|b bs]; [by eexists|].
  destruct (len (b :: bs) <? EPOScraper.PAGE_SIZE); [by eexists|].
  apply IH. rewrite len_app. unfold len in *. simpl. lia.
Qed.

(** A failed call (an exception, or a status other than 200) ends the
    loop with the documents held so far. *)
Lemma epo_loop_failure (fuel : nat) (documents : list ScientificDocument)
    (range_begin : Z) (log : list EPOScraper.exchange) :
  len documents < max_results →
  (match EPOScraper.published_data_search client (length log) cql range_begin
           (Z.min (range_begin + EPOScraper.PAGE_SIZE - 1) max_results) with
   | Raise _ => True
   | Ok (status_code, _) => status_code ≠ 200
   end) →
  ∃ x, loop (S fuel) client cql max_results documents range_begin log
       = Some (documents, log ++ [x]).
Proof.
  intros Hlt Hfail. simpl.
  destruct (Z.ltb_spec (len documents) max_results); [|lia]. simpl.
  destruct (EPOScraper.published_data_search client _ _ _ _) as [[st content]|e].
  - destruct (Z.eqb_spec st 200); [done|]. simpl. by eexists.
  - by eexists.
Qed.
End epo_pagination.

(** *** The history-backed adapter *)

Lemma length_omap_le {A B} (f : A → option B) (l : list A) :
  (length (omap f l) ≤ length l)%nat.
Proof.
  induction l as [|x l IH]; [done|].
  change (omap f (x :: l))
    with (match f x with Some y => y :: omap f l | None => omap f l end).
  destruct (f x); simpl; lia.
Qed.

Lemma batch_budget_range (fetch_count : Z) (n : nat) :
  ∀ a, batch_budget fetch_count ((λ i, i * PubMed.BATCH_SIZE) <$> seqZ a (Z.of_nat n))
       ≤ Z.max 0 (fetch_count - a * PubMed.BATCH_SIZE).
Proof.
  unfold PubMed.BATCH_SIZE.
  induction n as [|n IH]; intros a.
  - rewrite seqZ_nil by lia. unfold batch_budget. simpl. lia.
  - rewrite seqZ_cons by lia.
    replace (Z.pred (Z.of_nat (S n))) with (Z.of_nat n) by lia.
    specialize (IH (Z.succ a)). rewrite fmap_cons.
    unfold batch_budget in *. simpl. unfold PubMed.BATCH_SIZE in *. lia.
Qed.

Section pubmed_batches.
Variable utcnow : datetime.
Variable esearch : nat → gmap string string → result PubMed.search_results.
Variable efetch : nat → PubMed.fetch_args → result (list PubMed.record).
Variables web_env query_key : string.
Variable fetch_count : Z.

Local Abbreviation received log := (log ≫= pubmed_batch_docs utcnow).
Local Abbreviation batches := (PubMed.fetch_batches utcnow efetch web_env query_key).

Lemma extend_with_ok (records : list PubMed.record) :
  ∀ documents r,
    PubMed.extend_with utcnow documents records = Ok r →
    r = documents ++ omap (pubmed_record_doc utcnow) records.
Proof.
  induction records as [|record records IH]; intros documents r; simpl.
  - intros [= <-]. by rewrite app_nil_r.
  - unfold pubmed_record_doc at 1.
    destruct (PubMed._record_to_document utcnow record) as [[doc|]|e];
      [| |done].
    + intros H. apply IH in H. by rewrite <- app_assoc in H.
    + apply IH.
Qed.

(** Every start of the range is fetched, whatever the batches hold, and
    every titled record of every batch is returned. *)
Lemma pubmed_batches_ok (starts : list Z) :
  ∀ documents log r log',
    batches fetch_count starts documents log = (Ok r, log') →
    ∃ new, log' = log ++ new ∧ length new = length starts ∧
           r = documents ++ received new.
Proof.
  induction starts as [|start starts IH]; intros documents log r log'; simpl.
  - intros [= <- <-]. exists []. by rewrite !app_nil_r.
  - destruct (efetch (length log) _) as [records|e] eqn:Hf; [|done].
    destruct (PubMed.extend_with utcnow documents records) as [documents'|e]
      eqn:Hx; [|done].
    apply extend_with_ok in Hx as ->.
    intros H. apply IH in H as (new & -> & Hlen & ->).
    eexists (_ :: new). rewrite <- app_assoc. simpl.
    split; [done|]. split; [by rewrite Hlen|].
    by rewrite <- app_assoc.
Qed.

Lemma pubmed_batches_bound (starts : list Z) :
  honours_retmax efetch →
  ∀ documents log r log',
    batches fetch_count starts documents log = (Ok r, log') →
    len r ≤ len documents + batch_budget fetch_count starts.
Proof.
  intros Hh. induction starts as [|start starts IH]; intros documents log r log';
    simpl.
  - intros [= <- <-]. lia.
  - destruct (efetch (length log) _) as [records|e] eqn:Hf; [|done].
    destruct (PubMed.extend_with utcnow documents records) as [documents'|e]
      eqn:Hx; [|done].
    apply extend_with_ok in Hx as ->.
    intros H. apply IH in H. apply Hh in Hf. simpl in Hf.
    rewrite len_app in H.
    pose proof (length_omap_le (pubmed_record_doc utcnow) records).
    unfold len in *. lia.
Qed.
End pubmed_batches.

(** *** The searches *)

Lemma paged_limit {X} (page_docs : X → list ScientificDocument)
    (exhausted : X → bool) (max_results : Z) (r : list ScientificDocument)
    (log : list X) :
  paged page_docs exhausted max_results r log → len r ≤ Z.max 0 max_results.
Proof. intros [-> _]. unfold len. rewrite length_take. lia. Qed.

Lemma slice_to_take_take {A} (max_results : Z) (l : list A) :
  slice_to max_results (take (Z.to_nat max_results) l)
  = take (Z.to_nat max_results) l.
Proof. apply slice_to_take. by rewrite take_take, Nat.min_id. Qed.

Lemma uspto_search_paged utcnow fromisoformat post fuel query max_results
    date_from date_to r log :
  USPTOScraper.search utcnow fromisoformat post fuel query max_results
    date_from date_to = Some (Ok r, log) →
  paged (uspto_page_docs utcnow fromisoformat) uspto_exhausted max_results r log.
Proof.
  unfold USPTOScraper.search. intros H.
  apply uspto_loop_ok in H; [done|]. simpl. by rewrite take_nil.
Qed.

Lemma serpapi_search_paged utcnow fromisoformat parse_html installed get_dict
    fuel api_key query max_results date_from date_to r log :
  GooglePatentsScraper._search_serpapi utcnow fromisoformat installed get_dict
    fuel api_key query max_results date_from date_to = Some (Ok r, log) →
  paged (google_page_docs utcnow fromisoformat parse_html)
        (google_exhausted parse_html) max_results r log
  ∨ (installed = false ∧ r = [] ∧ log = []).
Proof.
  unfold GooglePatentsScraper._search_serpapi. destruct installed; simpl.
  - destruct (GooglePatentsScraper.serpapi_loop _ _ _ _ _ _ _ _ _ _ _ _)
      as [[[docs|e] log0]|] eqn:Hloop; try done.
    intros [= <- <-]. left.
    apply (serpapi_loop_ok utcnow fromisoformat parse_html) in Hloop
      as [Hr Hstop]; [|simpl; by rewrite take_nil].
    split; [|done]. rewrite Hr. by rewrite slice_to_take_take.
  - intros [= <- <-]. by right.
Qed.

Lemma http_search_paged utcnow fromisoformat parse_html http_get
    fuel query max_results date_from date_to r log :
  GooglePatentsScraper._search_http utcnow http_get parse_html
    fuel query max_results date_from date_to = Some (Ok r, log) →
  paged (google_page_docs utcnow fromisoformat parse_html)
        (google_exhausted parse_html) max_results r log.
Proof.
  unfold GooglePatentsScraper._search_http.
  destruct (GooglePatentsScraper.http_loop _ _ _ _ _ _ _ _ _ _ _)
    as [[[docs|e] log0]|] eqn:Hloop; try done.
  intros [= <- <-].
  apply (http_loop_ok utcnow fromisoformat) in Hloop
    as [Hr Hstop]; [|simpl; by rewrite take_nil].
  split; [|done]. rewrite Hr. by rewrite slice_to_take_take.
Qed.

Lemma epo_search_paged utcnow fromstring client fuel query max_results
    date_from date_to r log :
  EPOScraper.search utcnow fromstring {| EPOScraper._client := Some client |}
    fuel query max_results date_from date_to = Some (r, log) →
  ∃ docs, r = Ok docs ∧
    paged (epo_page_docs utcnow fromstring) (epo_exhausted utcnow fromstring)
          max_results docs log.
Proof.
  unfold EPOScraper.search. simpl.
  destruct (EPOScraper.search_loop _ _ _ _ _ _ _ _ _) as [[docs log0]|] eqn:Hloop;
    [|done].
  intros [= <- <-]. eexists. split; [done|].
  pose proof Hloop as Hcopy.
  apply epo_loop_ok in Hloop as [-> Hstop]; [|done].
  split; [|done]. unfold slice_to.
  destruct (Z.leb_spec 0 max_results) as [Hpos|Hneg]; [done|].
  destruct fuel; simpl in Hcopy;
    (destruct (Z.ltb_spec (len (@nil ScientificDocument)) max_results) as [Hlt|_];
     [unfold len in Hlt; simpl in Hlt; lia|]);
    simpl in Hcopy; injection Hcopy as <- <-; simpl; by rewrite !take_nil.
Qed.

Lemma epo_search_returns utcnow fromstring self fuel query max_results
    date_from date_to :
  (Z.to_nat max_results < fuel)%nat →
  ∃ docs log,
    EPOScraper.search utcnow fromstring self fuel query max_results
      date_from date_to = Some (Ok docs, log).
Proof.
  intros Hfuel. unfold EPOScraper.search.
  destruct (EPOScraper._client self) as [client|]; [|by eexists _, _].
  destruct (epo_loop_terminates utcnow fromstring client
              (EPOScraper.build_cql query date_from date_to) max_results fuel
              [] 1 []) as [[docs log] Hloop].
  { unfold len. simpl. lia. }
  rewrite Hloop. by eexists _, _.
Qed.

Lemma pubmed_search_ok utcnow esearch efetch query max_results date_from date_to
    r log :
  PubMed.search utcnow esearch efetch query max_results date_from date_to
    = (Ok r, log) →
  r = log ≫= pubmed_batch_docs utcnow ∧
  (honours_retmax efetch → len r ≤ Z.max 0 max_results) ∧
  ∃ found total_count,
    esearch 0%nat (PubMed.search_kwargs query date_from date_to) = Ok found ∧
    Py.int (PubMed.Count found) = Some total_count ∧
    length log = S (length (PubMed.range_step (Z.min total_count max_results)
                                              PubMed.BATCH_SIZE)).
Proof.
  unfold PubMed.search.
  destruct (esearch 0%nat _) as [found|e] eqn:Hs; [|done].
  destruct (Py.int (PubMed.Count found)) as [total|] eqn:Hc; [|done].
  intros H. pose proof H as Hb.
  apply pubmed_batches_ok in H as (new & -> & Hlen & ->).
  split; [done|]. split.
  - intros Hh. apply (pubmed_batches_bound utcnow efetch _ _ _ _ Hh) in Hb.
    simpl in Hb |- *.
    unfold PubMed.range_step in Hb.
    set (cnt := (Z.min total max_results + PubMed.BATCH_SIZE - 1) `div` PubMed.BATCH_SIZE) in *.
    destruct (Z.le_gt_cases 0 cnt) as [Hcnt|Hcnt].
    + rewrite <- (Z2Nat.id cnt) in Hb by done.
      pose proof (batch_budget_range (Z.min total max_results) (Z.to_nat cnt) 0).
      change (len (@nil ScientificDocument)) with 0 in Hb. lia.
    + rewrite seqZ_nil in Hb by lia. unfold batch_budget in Hb. simpl in Hb.
      change (len (@nil ScientificDocument)) with 0 in Hb. lia.
  - exists found, total. repeat split; try done. simpl. by rewrite Hlen.
Qed.

(** C4 (the code at the failing input).  The literature index neither
    cuts its result at [max_results] nor stops at an empty batch, as the
    four other searches do.  Asked for one document, with an upstream
    that reports two results and answers the one batch with two records,
    it returns two documents.  Asked for 600 documents, with an upstream
    that reports 600 results and answers every batch with no record, it
    goes on to fetch the batch that starts at 500 after the batch that
    starts at 0 came back empty. *)
Theorem C4_pubmed_ignores_limit :
  (∃ r log,
     PubMed.search sample_now (sample_esearch "2")
       (sample_efetch [sample_medline; sample_medline]) "aspirin" 1 None None
     = (Ok r, log) ∧ len r = 2) ∧
  (∃ log,
     PubMed.search sample_now (sample_esearch "600") (sample_efetch [])
       "aspirin" 600 None None = (Ok [], log) ∧
     length log = 3%nat ∧
     log !! 1%nat
     = Some (PubMed.Efetch {| PubMed.retstart := 0; PubMed.retmax := 500;
                              PubMed.webenv := "fake_webenv";
                              PubMed.query_key := "1" |} (Ok [])) ∧
     log !! 2%nat
     = Some (PubMed.Efetch {| PubMed.retstart := 500; PubMed.retmax := 100;
                              PubMed.webenv := "fake_webenv";
                              PubMed.query_key := "1" |} (Ok []))).
Proof.
  split.
  - eexists _, _. split; [vm_compute; reflexivity|]. reflexivity.
  - eexists. split; [vm_compute; reflexivity|].
    split; [reflexivity|]. split; reflexivity.
Qed.

(** ** Failure of a page fetch *)

(** C1 (the code at the failing input).  When the fetch of a page fails
    after its retries, the searches of the national registry, of the
    literature index and of the HTML strategy do not return the documents
    held so far: the exception leaves [search].  The national registry has
    received one document from its first page when the five attempts at
    the second page fail. *)
Theorem C1_fetch_failure_leaves_search :
  (∃ log,
     USPTOScraper.search sample_now Json.parse_iso_date sample_post_then_fail
       10 "aspirin" 100 None None = Some (Raise HTTPError, log) ∧
     length log = 6%nat ∧
     len (log ≫= uspto_page_docs sample_now Json.parse_iso_date) = 1) ∧
  (∃ log,
     PubMed.search sample_now (sample_esearch "1") sample_efetch_fail
       "aspirin" 100 None None = (Raise HTTPError, log) ∧ length log = 2%nat) ∧
  (∃ log,
     GooglePatentsScraper._search_http sample_now sample_http_down
       sample_parse_html 10 "aspirin" 100 None None
     = Some (Raise ConnectionError, log) ∧ length log = 3%nat).
Proof.
  split; [|split].
  - eexists. split; [vm_compute; reflexivity|]. split; vm_compute; reflexivity.
  - eexists. split; [vm_compute; reflexivity|]. vm_compute. reflexivity.
  - eexists. split; [vm_compute; reflexivity|]. vm_compute. reflexivity.
Qed.

(** The international registry is the adapter that contains the failure:
    its search never raises, a failed call ends the loop, and the
    documents of the pages before it are returned. *)
Lemma epo_search_contains_failures utcnow fromstring self fuel query max_results
    date_from date_to r log :
  EPOScraper.search utcnow fromstring self fuel query max_results
    date_from date_to = Some (r, log) →
  ∃ docs, r = Ok docs.
Proof.
  unfold EPOScraper.search.
  destruct (EPOScraper._client self); [|intros [= <- <-]; by eexists].
  destruct (EPOScraper.search_loop _ _ _ _ _ _ _ _ _) as [[docs log0]|]; [|done].
  intros [= <- <-]. by eexists.
Qed.

Lemma C7_epo_without_credentials_witness :
  Py.truthy_opt (epo_key sample_settings)
    && Py.truthy_opt (epo_secret sample_settings) = false ∧
  EPOScraper.search sample_now (λ _, None)
    (EPOScraper.__init__ sample_client sample_settings)
    10 "drug delivery" 100 None None = Some (Ok [], []).
Proof.
  split; [reflexivity|].
  apply C7_epo_without_credentials. reflexivity.
Defined.


(** ** Rate limiter *)

Lemma wait_keeps_interval (d : RateLimiter.delays) (s : RateLimiter.state) :
  RateLimiter._min_interval (RateLimiter.self (RateLimiter.wait d s))
  = RateLimiter._min_interval (RateLimiter.self s).
Proof. reflexivity. Qed.

(** One call: the new stamp is at least one interval after the stamp the
    limiter held, and it is the time at which the call returns. *)
Lemma wait_spacing (d : RateLimiter.delays) (s : RateLimiter.state) :
  RateLimiter.delays_ok d →
  (RateLimiter._last_request_time (RateLimiter.self s)
     + RateLimiter._min_interval (RateLimiter.self s)
   <= RateLimiter._last_request_time (RateLimiter.self (RateLimiter.wait d s)))%Q
  ∧ (RateLimiter.clock (RateLimiter.wait d s)
     == RateLimiter._last_request_time (RateLimiter.self (RateLimiter.wait d s)))%Q
  ∧ (RateLimiter.clock s <= RateLimiter.clock (RateLimiter.wait d s))%Q.
Proof.
  intros (H1 & H2 & H3). unfold RateLimiter.wait. simpl.
  destruct (Qle_bool (RateLimiter._min_interval (RateLimiter.self s))
              (RateLimiter.clock s + RateLimiter.before_now d
               - RateLimiter._last_request_time (RateLimiter.self s))) eqn:E; simpl.
  - apply Qle_bool_iff in E. split; [lra|]. split; [reflexivity|lra].
  - assert (¬ (RateLimiter._min_interval (RateLimiter.self s)
               <= RateLimiter.clock s + RateLimiter.before_now d
                  - RateLimiter._last_request_time (RateLimiter.self s))%Q) as E'.
    { intros H. apply Qle_bool_iff in H. congruence. }
    split; [lra|]. split; [reflexivity|lra].
Qed.

(** C9. For a limiter configured with a positive rate, and two consecutive
    completed calls of [wait()] on it, whatever time passes before,
    between and during the calls: the second call is permitted, and
    returns, no earlier than [1 / requests_per_second] after the time at
    which the first call was permitted.  Time is the reading of the
    monotonic clock, taken as an exact number. *)
Theorem C9_minimum_interval (requests_per_second : Q) (s : RateLimiter.state)
    (d1 d2 : RateLimiter.delays) :
  (0 < requests_per_second)%Q →
  (RateLimiter._min_interval (RateLimiter.self s) == 1 / requests_per_second)%Q →
  RateLimiter.delays_ok d1 → RateLimiter.delays_ok d2 →
  let s1 := RateLimiter.wait d1 s in
  let s2 := RateLimiter.wait d2 s1 in
  (RateLimiter._last_request_time (RateLimiter.self s1) + 1 / requests_per_second
   <= RateLimiter._last_request_time (RateLimiter.self s2))%Q ∧
  (RateLimiter._last_request_time (RateLimiter.self s1) + 1 / requests_per_second
   <= RateLimiter.clock s2)%Q.
Proof.
  intros Hpos Hint Hd1 Hd2 s1 s2.
  destruct (wait_spacing d2 s1 Hd2) as (Hsp & Hclk & _).
  fold s2 in Hsp, Hclk.
  assert (RateLimiter._min_interval (RateLimiter.self s1) == 1 / requests_per_second)%Q
    as Hint1 by (unfold s1; rewrite wait_keeps_interval; exact Hint).
  rewrite Hint1 in Hsp. split; [exact Hsp|]. rewrite Hclk. exact Hsp.
Qed.

Lemma C9_minimum_interval_witness :
  let s := {| RateLimiter.self := RateLimiter.__init__ (3 # 4);
              RateLimiter.clock := 1000 # 1 |} in
  let d1 := {| RateLimiter.before_now := 0; RateLimiter.oversleep := 1 # 100;
               RateLimiter.before_stamp := 0 |} in
  let d2 := {| RateLimiter.before_now := 1 # 2; RateLimiter.oversleep := 0;
               RateLimiter.before_stamp := 1 # 1000 |} in
  (0 < 3 # 4)%Q ∧
  (RateLimiter._last_request_time (RateLimiter.self (RateLimiter.wait d1 s))
     + 1 / (3 # 4)
   <= RateLimiter.clock (RateLimiter.wait d2 (RateLimiter.wait d1 s)))%Q.
Proof.
  intros s d1 d2. split; [reflexivity|].
  apply (C9_minimum_interval (3 # 4) s d1 d2).
  - reflexivity.
  - reflexivity.
  - unfold RateLimiter.delays_ok. simpl. repeat split; discriminate.
  - unfold RateLimiter.delays_ok. simpl. repeat split; discriminate.
Defined.

(** ** Orchestrator *)

Section orchestrator.
Variable settings : Settings.
Variable model_dump_json : ScientificDocument → string.
Variable search_of : nat → string → result (list ScientificDocument).
Variable output : option string.

Local Abbreviation loop := (Cli.scrape_loop settings model_dump_json search_of output).

(** When every search returns, every source is searched, in order, and
    the total is the number of documents returned. *)
Lemma scrape_loop_all_return (names : list string) :
  ∀ total fs called,
    (∀ i name, names !! i = Some name →
       ∃ documents, search_of (length called + i) name = Ok documents) →
    Cli.outcome (loop names total fs called)
      = Ok (total + written_total search_of (length called) names) ∧
    Cli.searched (loop names total fs called) = called ++ names.
Proof.
  induction names as [|name names IH]; intros total fs called Hok; simpl.
  - split; [f_equal; lia | by rewrite app_nil_r].
  - destruct (Hok 0%nat name eq_refl) as [documents Hd].
    rewrite Nat.add_0_r in Hd. rewrite Hd.
    assert (Hrest : ∀ i n, names !! i = Some n →
              ∃ docs, search_of (length (called ++ [name]) + i) n = Ok docs).
    { intros i n Hi. rewrite length_app. simpl.
      replace (length called + 1 + i)%nat with (length called + S i)%nat by lia.
      by apply Hok. }
    destruct documents as [|doc documents].
    + destruct (IH total fs (called ++ [name]) Hrest) as [Ho Hs].
      rewrite Ho, Hs. rewrite length_app, <- app_assoc. simpl.
      replace (length called + 1)%nat with (S (length called)) by lia.
      split; [f_equal; unfold len; simpl; lia | done].
    + unfold Jsonl.append_documents.
      match goal with |- context [loop names ?t ?f ?c] =>
        destruct (IH t f c Hrest) as [Ho Hs] end.
      rewrite Ho, Hs. rewrite length_app, <- app_assoc. simpl.
      replace (length called + 1)%nat with (S (length called)) by lia.
      split; [f_equal; lia | done].
Qed.

(** When a search raises, the exception is the outcome of the run and the
    sources after it are not searched. *)
Lemma scrape_loop_raise (names : list string) :
  ∀ total fs called k name e,
    names !! k = Some name →
    search_of (length called + k) name = Raise e →
    (∀ i n, (i < k)%nat → names !! i = Some n →
       ∃ documents, search_of (length called + i) n = Ok documents) →
    Cli.outcome (loop names total fs called) = Raise e ∧
    Cli.searched (loop names total fs called) = called ++ take (S k) names ∧
    Cli.files (loop names total fs called)
      = Cli.files (loop (take k names) total fs called).
Proof.
  induction names as [|n0 names IH]; intros total fs called k name e Hk He Hok;
    [done|].
  destruct k as [|k].
  - injection Hk as ->. simpl. rewrite Nat.add_0_r in He. rewrite He. simpl.
    by rewrite take_0.
  - simpl in Hk. simpl.
    destruct (Hok 0%nat n0 ltac:(lia) eq_refl) as [documents Hd].
    rewrite Nat.add_0_r in Hd. rewrite Hd.
    assert (He' : search_of (length (called ++ [n0]) + k) name = Raise e).
    { rewrite length_app. simpl.
      by replace (length called + 1 + k)%nat with (length called + S k)%nat by lia. }
    assert (Hrest : ∀ i n, (i < k)%nat → names !! i = Some n →
              ∃ docs, search_of (length (called ++ [n0]) + i) n = Ok docs).
    { intros i n Hi Hn. rewrite length_app. simpl.
      replace (length called + 1 + i)%nat with (length called + S i)%nat by lia.
      apply Hok; [lia|done]. }
    destruct documents as [|doc documents].
    + destruct (IH total fs (called ++ [n0]) k name e Hk He' Hrest)
        as (Ho & Hs & Hf).
      rewrite Ho, Hs, Hf. by rewrite <- app_assoc.
    + unfold Jsonl.append_documents.
      match goal with |- context [loop names ?t ?f ?c] =>
        destruct (IH t f c k name e Hk He' Hrest) as (Ho & Hs & Hf) end.
      rewrite Ho, Hs, Hf. by rewrite <- app_assoc.
Qed.
End orchestrator.

(** C2 (the code at the failing input).  An error raised inside one
    adapter's search aborts the run.  In a run over the literature index,
    the national registry and the international registry, the national
    registry fails on its second page: the exception is the outcome of
    [scrape], no total is reported, and the international registry,
    which comes after it, is never searched. *)
Theorem C2_error_aborts_run :
  let run := Cli.scrape sample_settings Json.model_dump_json sample_search_of
               "pubmed,uspto,epo" None ∅ in
  Cli.outcome run = Raise HTTPError ∧
  Cli.searched run = ["pubmed"; "uspto"] ∧
  "epo" ∉ Cli.searched run.
Proof.
  assert (H : Cli.searched
                (Cli.scrape sample_settings Json.model_dump_json sample_search_of
                   "pubmed,uspto,epo" None ∅) = ["pubmed"; "uspto"])
    by (vm_compute; reflexivity).
  intros run. split; [vm_compute; reflexivity|]. split; [exact H|].
  unfold run. rewrite H. intros Hin.
  apply elem_of_cons in Hin as [Hin|Hin]; [discriminate|].
  apply elem_of_cons in Hin as [Hin|Hin]; [discriminate|].
  by apply elem_of_nil in Hin.
Qed.

(** ** Line-delimited storage *)

Lemma string_app_cons (x : ascii) (a b : string) :
  String x a +:+ b = String x (a +:+ b).
Proof. reflexivity. Qed.

Lemma string_app_nil_l (a : string) : "" +:+ a = a.
Proof. reflexivity. Qed.

Lemma string_app_assoc (a b c : string) : (a +:+ b) +:+ c = a +:+ (b +:+ c).
Proof.
  induction a as [|x a IH]; [done|]. rewrite !string_app_cons. by rewrite IH.
Qed.

Lemma string_app_nil_r (a : string) : a +:+ "" = a.
Proof. induction a as [|x a IH]; [done|]. rewrite string_app_cons. by rewrite IH. Qed.

Lemma string_of_list_ascii_snoc (l : list ascii) (s : string) :
  String.string_of_list_ascii (l ++ String.list_ascii_of_string s)
  = String.string_of_list_ascii l +:+ s.
Proof.
  induction l as [|c l IH]; simpl.
  - apply String.string_of_list_ascii_of_string.
  - by rewrite IH.
Qed.

(** A text without a line break followed by LF is one line. *)
Lemma file_lines_go_line (s rest : string) :
  ∀ cur, no_newline s = true →
    Jsonl.file_lines_go cur (s +:+ String Jsonl.LF rest)
    = (String.string_of_list_ascii (rev cur) +:+ s +:+ String Jsonl.LF "")
      :: Jsonl.file_lines_go [] rest.
Proof.
  induction s as [|c s IH]; intros cur Hs.
  - rewrite !string_app_nil_l. cbn [Jsonl.file_lines_go].
    replace (Ascii.eqb Jsonl.LF Jsonl.LF) with true by reflexivity.
    f_equal. cbn [rev].
    change [Jsonl.LF] with (String.list_ascii_of_string (String Jsonl.LF "")).
    apply string_of_list_ascii_snoc.
  - unfold no_newline in Hs. simpl in Hs.
    apply andb_prop in Hs as [Hc Hs]. apply andb_prop in Hc as [Hlf Hcr].
    apply negb_true_iff in Hlf, Hcr.
    change ((String c s) +:+ String Jsonl.LF rest)
      with (String c (s +:+ String Jsonl.LF rest)).
    cbn [Jsonl.file_lines_go]. rewrite Hlf, Hcr.
    rewrite IH by exact Hs. f_equal. simpl rev.
    change (rev cur ++ [c]) with (rev cur ++ String.list_ascii_of_string (String c "")).
    rewrite string_of_list_ascii_snoc. by rewrite string_app_assoc.
Qed.

Section storage.
Variable model_dump_json : ScientificDocument → string.
Variable model_validate_json : string → option ScientificDocument.

Lemma append_documents_content (fs : gmap string string) (path : string)
    (documents : list ScientificDocument) :
  Jsonl.append_documents model_dump_json fs path documents
  = (len documents,
     <[path := default "" (fs !! path) +:+ dumped_lines model_dump_json documents]> fs).
Proof.
  unfold Jsonl.append_documents. f_equal. f_equal.
  generalize (default "" (fs !! path)).
  induction documents as [|d ds IH]; intros init; simpl.
  - by rewrite string_app_nil_r.
  - rewrite IH. by rewrite !string_app_assoc.
Qed.

Lemma file_lines_dumped (documents : list ScientificDocument) :
  Forall (λ d, no_newline (model_dump_json d) = true) documents →
  Jsonl.file_lines (dumped_lines model_dump_json documents)
  = (λ d, model_dump_json d +:+ String Jsonl.LF "") <$> documents.
Proof.
  unfold Jsonl.file_lines.
  induction 1 as [|d ds Hd _ IH]; simpl; [done|].
  rewrite file_lines_go_line by done. simpl. by rewrite IH.
Qed.

Lemma rstrip_line (s : string) :
  ends_nonspace s = true →
  Py.rstrip_by Py.is_space (s +:+ String Jsonl.LF "") = s.
Proof.
  induction s as [|c s IH]; [done|]. intros H.
  destruct s as [|c' s].
  - simpl in *. apply negb_true_iff in H. by rewrite H.
  - change (ends_nonspace (String c (String c' s)))
      with (ends_nonspace (String c' s)) in H.
    specialize (IH H).
    change ((String c (String c' s)) +:+ String Jsonl.LF "")
      with (String c ((String c' s) +:+ String Jsonl.LF "")).
    cbn [Py.rstrip_by]. by rewrite IH.
Qed.

Lemma strip_line (s : string) :
  starts_nonspace s = true → ends_nonspace s = true →
  Py.strip (s +:+ String Jsonl.LF "") = s.
Proof.
  intros Hs He. unfold Py.strip, Py.strip_by.
  destruct s as [|c s]; [done|]. simpl in Hs. apply negb_true_iff in Hs.
  change ((String c s) +:+ String Jsonl.LF "")
    with (String c (s +:+ String Jsonl.LF "")).
  cbn [Py.lstrip_by]. rewrite Hs.
  by apply (rstrip_line (String c s)).
Qed.

Lemma read_lines_dumped (documents : list ScientificDocument) :
  Forall (well_dumped model_dump_json model_validate_json) documents →
  Jsonl.read_lines model_validate_json
    ((λ d, model_dump_json d +:+ String Jsonl.LF "") <$> documents)
  = {| Jsonl.yielded := documents; Jsonl.raised := None |}.
Proof.
  induction 1 as [|d ds (Hv & _ & Hs & He) _ IH]; [done|].
  rewrite fmap_cons. cbn [Jsonl.read_lines].
  rewrite strip_line by done.
  destruct (model_dump_json d) as [|c s] eqn:Hd; [done|].
  simpl. rewrite Hv, IH. done.
Qed.

(** The documents read are never more than the lines counted, and they
    are as many when the reading ends without an exception. *)
Lemma read_lines_count (ls : list string) :
  len (Jsonl.yielded (Jsonl.read_lines model_validate_json ls))
    ≤ len (filter (λ line, Is_true (nonblank line)) ls) ∧
  (Jsonl.raised (Jsonl.read_lines model_validate_json ls) = None →
   len (Jsonl.yielded (Jsonl.read_lines model_validate_json ls))
   = len (filter (λ line, Is_true (nonblank line)) ls)).
Proof.
  unfold len. induction ls as [|line ls [IH1 IH2]]; [done|].
  cbn [Jsonl.read_lines].
  destruct (Py.truthy_str (Py.strip line)) eqn:Hb.
  - rewrite filter_cons_True by (unfold nonblank; by rewrite Hb).
    destruct (model_validate_json (Py.strip line)); simpl.
    + split; [lia|]. intros H. specialize (IH2 H). lia.
    + split; [lia|done].
  - rewrite filter_cons_False by (unfold nonblank; rewrite Hb; exact id). done.
Qed.
End storage.

(** C10 (as amended).  On a path that holds no file [count_documents]
    returns 0 and [read_documents] raises [FileNotFoundError] before it
    yields anything.  On an existing file [count_documents] returns the
    number of non-blank lines; [read_documents] yields at most that many
    documents, and exactly that many when it ends without an exception,
    that is when every non-blank line is a valid document. *)
Theorem C10_count_and_read (model_validate_json : string → option ScientificDocument)
    (fs : gmap string string) (path : string) :
  (fs !! path = None →
   Jsonl.count_documents fs path = 0 ∧
   Jsonl.read_documents model_validate_json fs path
   = {| Jsonl.yielded := []; Jsonl.raised := Some FileNotFoundError |}) ∧
  (∀ content, fs !! path = Some content →
     Jsonl.count_documents fs path
     = len (filter (λ line, Is_true (nonblank line)) (Jsonl.file_lines content)) ∧
     len (Jsonl.yielded (Jsonl.read_documents model_validate_json fs path))
       ≤ Jsonl.count_documents fs path ∧
     (Jsonl.raised (Jsonl.read_documents model_validate_json fs path) = None →
      len (Jsonl.yielded (Jsonl.read_documents model_validate_json fs path))
      = Jsonl.count_documents fs path)).
Proof.
  split.
  - intros H. unfold Jsonl.count_documents, Jsonl.read_documents. by rewrite H.
  - intros content H. unfold Jsonl.count_documents, Jsonl.read_documents.
    rewrite H. split; [done|].
    apply (read_lines_count model_validate_json).
Qed.

Lemma C10_count_and_read_witness :
  let fs : gmap string string :=
    (Jsonl.append_documents Json.model_dump_json ∅ "f.jsonl"
       [sample_doc; sample_doc]).2 in
  (∅ : gmap string string) !! "f.jsonl" = None ∧
  Jsonl.count_documents ∅ "f.jsonl" = 0 ∧
  Jsonl.raised (Jsonl.read_documents (Json.model_validate_json sample_now) fs "f.jsonl")
    = None ∧
  len (Jsonl.yielded
         (Jsonl.read_documents (Json.model_validate_json sample_now) fs "f.jsonl"))
  = Jsonl.count_documents fs "f.jsonl".
Proof.
  intros fs. split; [reflexivity|].
  split.
  - apply (C10_count_and_read (Json.model_validate_json sample_now) ∅ "f.jsonl").
    reflexivity.
  - assert (Hr : Jsonl.raised
                   (Jsonl.read_documents (Json.model_validate_json sample_now) fs
                      "f.jsonl") = None) by (vm_compute; reflexivity).
    split; [exact Hr|].
    destruct (C10_count_and_read (Json.model_validate_json sample_now) fs "f.jsonl")
      as [_ H].
    destruct (fs !! "f.jsonl") as [content|] eqn:Hc; [|vm_compute in Hc; discriminate].
    by apply (H content eq_refl).
Defined.

(** A file with a non-blank line that is not a document: the line is
    counted, and reading yields no document and raises. *)
Lemma C10_counterexample :
  let fs : gmap string string :=
    {[ "f.jsonl" := "not a document" +:+ String Jsonl.LF "" ]} in
  Jsonl.count_documents fs "f.jsonl" = 1 ∧
  Jsonl.read_documents (Json.model_validate_json sample_now) fs "f.jsonl"
  = {| Jsonl.yielded := []; Jsonl.raised := Some ValidationError |} ∧
  Jsonl.count_documents fs "f.jsonl"
  ≠ len (Jsonl.yielded
           (Jsonl.read_documents (Json.model_validate_json sample_now) fs "f.jsonl")).
Proof.
  intros fs. split; [vm_compute; reflexivity|].
  split; [vm_compute; reflexivity|]. vm_compute. discriminate.
Qed.

(** * Further properties *)

(** ** Retry policy *)

Section retry_attempts.
Context {Req A : Type}.
Variable call : nat → Req → result A.
Variable req : Req.

Lemma attempts_S (n k : nat) :
  attempts call req n (S k) = (req, call n req) :: attempts call req (S n) k.
Proof.
  unfold attempts. rewrite <- cons_seq, fmap_cons, <- fmap_S_seq, <- list_fmap_compose.
  rewrite Nat.add_0_r. f_equal. apply list_fmap_ext. intros _ i _. simpl.
  by rewrite Nat.add_succ_r.
Qed.

Lemma retry_go_attempts (retries : nat) :
  ∀ log : list (Req * result A),
    ∃ k, (1 ≤ k ≤ S retries)%nat ∧
      retry_go retries (attempt_once call req) log
        = (call (length log + (k - 1)) req,
           log ++ attempts call req (length log) k) ∧
      (∀ i, (i < k - 1)%nat →
         retryable_failure (call (length log + i) req) = true) ∧
      ((k < S retries)%nat →
         retryable_failure (call (length log + (k - 1)) req) = false).
Proof.
  induction retries as [|r IH]; intros log; rewrite retry_go_unfold.
  - exists 1%nat. split; [lia|]. rewrite attempts_S. simpl. rewrite Nat.add_0_r.
    split; [by destruct (call (length log) req)|]. split; intros; lia.
  - destruct (call (length log) req) as [a|e] eqn:Hc;
      [|destruct (is_retryable e) eqn:He].
    + exists 1%nat. split; [lia|]. rewrite attempts_S. simpl.
      rewrite Nat.add_0_r, Hc. split; [done|]. split; [intros; lia|done].
    + destruct (IH (log ++ [(req, Raise e)])) as (k & Hk & Heq & Hbefore & Hlast).
      rewrite length_app in Heq, Hbefore, Hlast. simpl in Heq, Hbefore, Hlast.
      exists (S k). split; [lia|]. rewrite Heq, attempts_S, Hc.
      replace (length log + 1 + (k - 1))%nat with (length log + (S k - 1))%nat by lia.
      replace (length log + 1)%nat with (S (length log)) by lia.
      rewrite <- app_assoc. split; [done|]. split.
      * intros [|i] Hi.
        -- rewrite Nat.add_0_r, Hc. exact He.
        -- replace (length log + S i)%nat with (length log + 1 + i)%nat by lia.
           apply Hbefore. lia.
      * intros Hlt.
        replace (length log + (S k - 1))%nat with (length log + 1 + (k - 1))%nat by lia.
        apply Hlast. lia.
    + exists 1%nat. split; [lia|]. rewrite attempts_S. simpl.
      rewrite Nat.add_0_r, Hc. split; [done|]. split; [intros; lia|].
      intros _. exact He.
Qed.
End retry_attempts.

(** X1.  What the retry wrapper does with any upstream, for any number
    of attempts allowed: it makes [k] attempts, at least one and at most
    [max_attempts] (one when [max_attempts] is 0), each sending the same
    request; every attempt but the last failed with a connection error, a
    timeout or an HTTP error; the outcome of the wrapper is the outcome of
    the last attempt; and when the wrapper stopped before its attempts
    were used up, the last attempt returned or raised another kind of
    exception. *)
Theorem with_retry_attempts {Req A : Type} (call : nat → Req → result A)
    (req : Req) (max_attempts : nat) (log : list (Req * result A)) :
  ∃ k, (1 ≤ k ≤ Nat.max 1 max_attempts)%nat ∧
    with_retry max_attempts (attempt_once call req) log
      = (call (length log + (k - 1))%nat req,
         log ++ attempts call req (length log) k) ∧
    (∀ i, (i < k - 1)%nat →
       retryable_failure (call (length log + i)%nat req) = true) ∧
    ((k < Nat.max 1 max_attempts)%nat →
       retryable_failure (call (length log + (k - 1))%nat req) = false).
Proof.
  unfold with_retry.
  destruct (retry_go_attempts call req (max_attempts - 1) log)
    as (k & Hk & Heq & Hbefore & Hlast).
  exists k. replace (Nat.max 1 max_attempts) with (S (max_attempts - 1)) by lia.
  done.
Qed.

(** X2.  When every attempt the wrapper may make fails with a connection
    error, a timeout or an HTTP error, the wrapper makes exactly
    [max_attempts] attempts and raises the exception of the last one
    (not a wrapper exception of the retry library). *)
Theorem with_retry_reraises_last {Req A : Type} (call : nat → Req → result A)
    (req : Req) (max_attempts : nat) (log : list (Req * result A)) :
  (1 ≤ max_attempts)%nat →
  (∀ i, (i < max_attempts)%nat →
     retryable_failure (call (length log + i)%nat req) = true) →
  with_retry max_attempts (attempt_once call req) log
  = (call (length log + (max_attempts - 1))%nat req,
     log ++ attempts call req (length log) max_attempts).
Proof.
  intros Hpos Hfail.
  destruct (retry_go_attempts call req (max_attempts - 1) log)
    as (k & Hk & Heq & _ & Hlast).
  unfold with_retry. rewrite Heq.
  destruct (decide (k = max_attempts)) as [->|Hne]; [done|].
  rewrite Hfail in Hlast by lia. discriminate Hlast. lia.
Qed.

Lemma with_retry_reraises_last_witness :
  with_retry 3 (attempt_once (λ (n : nat) (_ : string),
                                 if (n <? 2)%nat then Raise Timeout
                                 else @Raise Z HTTPError) "page") []
  = (Raise HTTPError,
     [("page", Raise Timeout); ("page", Raise Timeout); ("page", Raise HTTPError)]).
Proof.
  apply (with_retry_reraises_last
           (λ (n : nat) (_ : string),
              if (n <? 2)%nat then Raise Timeout else @Raise Z HTTPError)
           "page" 3 []).
  - lia.
  - intros [|[|[|i]]] Hi; [reflexivity..|simpl in Hi; lia].
Defined.

(** ** Requests of the national-registry adapter *)

Section uspto_requests.
Variable utcnow : datetime.
Variable fromisoformat : string → option date.
Variable post : nat → USPTOScraper.body → result (option USPTOScraper.data).
Variable query : string.
Variable max_results : Z.
Variables date_from date_to : option string.

Local Arguments USPTOScraper._fetch_page : simpl never.

Lemma uspto_fetch_page_log (b : USPTOScraper.body)
    (log : list USPTOScraper.exchange) :
  ∃ k, (1 ≤ k ≤ 5)%nat ∧
    (USPTOScraper._fetch_page post b log).2
    = log ++ attempts post b (length log) k.
Proof.
  destruct (retry_go_attempts post b 4 log) as (k & Hk & Heq & _).
  exists k. split; [done|].
  change (USPTOScraper._fetch_page post b log)
    with (retry_go 4 (attempt_once post b) log).
  by rewrite Heq.
Qed.

Lemma uspto_build_query_ok (size : Z) (cursor : option string) :
  1 ≤ size ≤ Z.min USPTOScraper.PAGE_SIZE max_results →
  uspto_request_ok query max_results date_from date_to
    (USPTOScraper._build_query query size date_from date_to cursor).
Proof.
  intros Hsize. split; [done|]. unfold USPTOScraper._build_query. simpl.
  destruct cursor as [c|]; [|done]. simpl.
  destruct (Py.truthy_str c) eqn:Hc; simpl; by rewrite ?Hc.
Qed.

Lemma uspto_loop_requests (fuel : nat) :
  ∀ documents cursor log o log',
    USPTOScraper.search_loop utcnow fromisoformat post fuel query max_results
      date_from date_to documents cursor log = Some (o, log') →
    Forall (λ x, uspto_request_ok query max_results date_from date_to x.1) log →
    match head log with
    | Some x => USPTOScraper.o_after x.1 = None
    | None => Py.truthy_opt cursor = false
    end →
    Forall (λ x, uspto_request_ok query max_results date_from date_to x.1) log' ∧
    (∀ x, head log' = Some x → USPTOScraper.o_after x.1 = None).
Proof.
  induction fuel as [|fuel IH]; intros documents cursor log o log'; simpl;
    destruct (Z.ltb_spec (len documents) max_results) as [Hlt|Hge]; simpl;
    try done.
  - intros [= <- <-] Hall Hhead. split; [done|]. intros x Hx. by rewrite Hx in Hhead.
  - intros Hrun Hall Hhead.
    set (b := USPTOScraper._build_query query
                (Z.min USPTOScraper.PAGE_SIZE (max_results - len documents))
                date_from date_to cursor) in *.
    destruct (uspto_fetch_page_log b log) as (k & Hk & Hlog).
    assert (Hb : uspto_request_ok query max_results date_from date_to b).
    { apply uspto_build_query_ok. unfold USPTOScraper.PAGE_SIZE, len in *. lia. }
    destruct (USPTOScraper._fetch_page post b log) as [o1 log1]. simpl in Hlog.
    assert (Hall1 : Forall (λ x, uspto_request_ok query max_results date_from
                                   date_to x.1) log1).
    { rewrite Hlog. apply Forall_app. split; [done|].
      unfold attempts. apply Forall_fmap, Forall_forall. by intros. }
    assert (Hhead1 : ∃ x, head log1 = Some x ∧ USPTOScraper.o_after x.1 = None).
    { rewrite Hlog. destruct log as [|x0 log0].
      - destruct k as [|k]; [lia|]. rewrite attempts_S. simpl. eexists.
        split; [done|]. simpl. destruct cursor as [c|]; [|done].
        simpl in Hhead |- *. by rewrite Hhead.
      - simpl. by eexists. }
    destruct Hhead1 as (x1 & Hx1 & Hafter).
    assert (Hdone : Forall (λ x, uspto_request_ok query max_results date_from
                                   date_to x.1) log1 ∧
                    (∀ x, head log1 = Some x → USPTOScraper.o_after x.1 = None)).
    { split; [done|]. intros x Hx. rewrite Hx1 in Hx. by injection Hx as <-. }
    destruct o1 as [[d|]|e]; [| by injection Hrun as <- <- ..].
    destruct (USPTOScraper.data_patents d) as [[|p ps]|];
        [by injection Hrun as <- <-| |by injection Hrun as <- <-].
      destruct (Py.truthy_opt (jget (USPTOScraper.data_cursor d))); simpl in Hrun;
        [|by injection Hrun as <- <-].
    apply IH in Hrun; [done|done|]. by rewrite Hx1.
  - intros [= <- <-] Hall Hhead. split; [done|]. intros x Hx. by rewrite Hx in Hhead.
Qed.
End uspto_requests.

(** X3.  Whatever the upstream answers and however the search ends
    (with documents or with an exception), every request the
    national-registry adapter has sent carries the filter of the query
    and of the date bounds, asks for at least one patent, for no more
    than 100 and for no more than [max_results]; and the first request
    carries no cursor. *)
Theorem uspto_requests_bounded (utcnow : datetime)
    (fromisoformat : string → option date)
    (post : nat → USPTOScraper.body → result (option USPTOScraper.data))
    (fuel : nat) (query : string) (max_results : Z)
    (date_from date_to : option string) :
  match USPTOScraper.search utcnow fromisoformat post fuel query max_results
          date_from date_to with
  | Some (_, log) =>
      Forall (λ x, uspto_request_ok query max_results date_from date_to x.1) log ∧
      (∀ x, head log = Some x → USPTOScraper.o_after x.1 = None)
  | None => True
  end.
Proof.
  destruct (USPTOScraper.search _ _ _ _ _ _ _ _) as [[o log]|] eqn:H; [|done].
  by apply uspto_loop_requests in H.
Qed.

(** ** Record mapping *)



(** X5.  In a document of the national registry the link to the full
    text and the patent number go together: either the record has no
    number (missing, null or empty), and the document has no identifier
    and no link, or the document has the one identifier [patent_number]
    and its link is the Google Patents address of that number.  The
    office is always USPTO. *)
Theorem uspto_link_follows_number (utcnow : datetime)
    (fromisoformat : string → option date) (p : USPTOScraper.patent) :
  match USPTOScraper._patent_to_document utcnow fromisoformat p with
  | Some d =>
      source d = USPTO ∧ journal_or_office d = Some "USPTO" ∧
      ((Py.truthy_opt (jget (USPTOScraper.patent_id p)) = false ∧
        identifiers d = [] ∧ full_text_url d = None)
       ∨ ∃ number, USPTOScraper.patent_id p = Str number ∧ number ≠ "" ∧
           identifiers d = [{| id_type := "patent_number"; id_value := number |}] ∧
           full_text_url d
           = Some ("https://patents.google.com/patent/US" +:+ number))
  | None => True
  end.
Proof.
  unfold USPTOScraper._patent_to_document.
  destruct (negb _); [done|]. simpl. split; [done|]. split; [done|].
  destruct (USPTOScraper.patent_id p) as [| |[|c s]]; simpl; auto.
  right. by eexists.
Qed.

(** X6.  An inventor whose first name is [null] in the response and
    whose last name is a non-empty string becomes an author whose name
    starts with the text None: the name is the formatted pair, stripped. *)
Theorem uspto_null_first_name (utcnow : datetime)
    (fromisoformat : string → option date) (p : USPTOScraper.patent)
    (d : ScientificDocument) (inv : USPTOScraper.inventor) (last : string) :
  USPTOScraper._patent_to_document utcnow fromisoformat p = Some d →
  inv ∈ USPTOScraper.inventors p →
  USPTOScraper.inventor_name_first inv = Null →
  USPTOScraper.inventor_name_last inv = Str last →
  last ≠ "" →
  {| name := Py.strip ("None " +:+ last); affiliation := None |} ∈ authors d.
Proof.
  unfold USPTOScraper._patent_to_document.
  destruct (negb _); [done|]. intros [= <-] Hin Hfirst Hlast Hne. simpl.
  apply list_elem_of_omap. exists inv. split; [done|].
  rewrite Hfirst, Hlast. simpl. by destruct last.
Qed.

Lemma uspto_null_first_name_witness :
  let p := {| USPTOScraper.patent_id := Str "11234567";
              USPTOScraper.patent_title := Str "Novel compound";
              USPTOScraper.patent_abstract := Absent;
              USPTOScraper.patent_date := Absent;
              USPTOScraper.inventors :=
                [{| USPTOScraper.inventor_name_first := Null;
                    USPTOScraper.inventor_name_last := Str "Smith" |}];
              USPTOScraper.assignees := [];
              USPTOScraper.cpc_current := [] |} in
  ∃ d, USPTOScraper._patent_to_document sample_now Json.parse_iso_date p = Some d ∧
       {| name := "None Smith"; affiliation := None |} ∈ authors d.
Proof.
  intros p. eexists. split; [reflexivity|].
  apply (uspto_null_first_name sample_now Json.parse_iso_date p _
           {| USPTOScraper.inventor_name_first := Null;
              USPTOScraper.inventor_name_last := Str "Smith" |} "Smith").
  - reflexivity.
  - apply list_elem_of_here.
  - reflexivity.
  - reflexivity.
  - discriminate.
Defined.

(** ** The literature-index adapter *)

Section pubmed_requests.
Variable utcnow : datetime.
Variable efetch : nat → PubMed.fetch_args → result (list PubMed.record).

Lemma fetch_requests_app (l1 l2 : list PubMed.exchange) :
  fetch_requests (l1 ++ l2) = fetch_requests l1 ++ fetch_requests l2.
Proof. unfold fetch_requests. apply omap_app. Qed.

Lemma pubmed_batches_requests (web_env query_key : string) (fetch_count : Z)
    (starts : list Z) :
  ∀ documents log r log',
    PubMed.fetch_batches utcnow efetch web_env query_key fetch_count starts
      documents log = (Ok r, log') →
    fetch_requests log'
    = fetch_requests log
      ++ ((λ start, {| PubMed.retstart := start;
                       PubMed.retmax := Z.min PubMed.BATCH_SIZE (fetch_count - start);
                       PubMed.webenv := web_env;
                       PubMed.query_key := query_key |}) <$> starts).
Proof.
  induction starts as [|start starts IH]; intros documents log r log'; simpl.
  - intros [= _ <-]. by rewrite app_nil_r.
  - destruct (efetch (length log) _) as [records|e]; [|done].
    destruct (PubMed.extend_with utcnow documents records) as [extended|e];
      [|done].
    intros H. apply IH in H. rewrite H, fetch_requests_app. simpl.
    by rewrite <- app_assoc.
Qed.

(** The batches of a range ask for as many records as the range holds. *)
Lemma batches_sum (fetch_count : Z) (n : nat) :
  ∀ a, 0 ≤ a →
    PubMed.BATCH_SIZE * (a + Z.of_nat n) < fetch_count + PubMed.BATCH_SIZE →
    fetch_count ≤ PubMed.BATCH_SIZE * (a + Z.of_nat n) →
    sum_Z ((λ start, Z.min PubMed.BATCH_SIZE (fetch_count - start))
           <$> ((λ i, i * PubMed.BATCH_SIZE) <$> seqZ a (Z.of_nat n)))
    = Z.max 0 (fetch_count - a * PubMed.BATCH_SIZE) ∧
    Forall (λ start, 1 ≤ Z.min PubMed.BATCH_SIZE (fetch_count - start)
                       ≤ PubMed.BATCH_SIZE)
           ((λ i, i * PubMed.BATCH_SIZE) <$> seqZ a (Z.of_nat n)).
Proof.
  unfold PubMed.BATCH_SIZE.
  induction n as [|n IH]; intros a Ha Hlo Hhi.
  - rewrite seqZ_nil by lia. simpl. split; [lia|done].
  - rewrite seqZ_cons by lia. rewrite !fmap_cons.
    replace (Z.pred (Z.of_nat (S n))) with (Z.of_nat n) by lia.
    destruct (IH (Z.succ a)) as [IHs IHf]; [lia..|].
    split.
    + unfold sum_Z in *. simpl. rewrite IHs. lia.
    + constructor; [lia|done].
Qed.
End pubmed_requests.

(** X7.  A search of the literature index that returns has fetched the
    records [0, min(total_count, max_results))] in consecutive batches:
    the fetch calls are those of the range in steps of 500, each carrying
    the history keys of the search call, each asking for at least one and
    at most 500 records, and together for exactly
    [min(total_count, max_results)] records (for none when that is not
    positive). *)
Theorem pubmed_batches_tile_the_range (utcnow : datetime)
    (esearch : nat → gmap string string → result PubMed.search_results)
    (efetch : nat → PubMed.fetch_args → result (list PubMed.record))
    (query : string) (max_results : Z) (date_from date_to : option string) :
  match PubMed.search utcnow esearch efetch query max_results date_from date_to with
  | (Ok _, log) =>
      ∃ found total_count,
        esearch 0%nat (PubMed.search_kwargs query date_from date_to) = Ok found ∧
        Py.int (PubMed.Count found) = Some total_count ∧
        fetch_requests log
        = batches_of (PubMed.WebEnv found) (PubMed.QueryKey found)
                     (Z.min total_count max_results) ∧
        Forall (λ args, 1 ≤ PubMed.retmax args ≤ PubMed.BATCH_SIZE)
               (fetch_requests log) ∧
        sum_Z (PubMed.retmax <$> fetch_requests log)
        = Z.max 0 (Z.min total_count max_results)
  | (Raise _, _) => True
  end.
Proof.
  destruct (PubMed.search _ _ _ _ _ _ _) as [[r|e] log] eqn:H; [|done].
  unfold PubMed.search in H.
  destruct (esearch 0%nat _) as [found|e] eqn:Hs; [|done].
  destruct (Py.int (PubMed.Count found)) as [total|] eqn:Hc; [|done].
  exists found, total. split; [done|]. split; [done|].
  apply pubmed_batches_requests in H. simpl in H.
  assert (Heq : fetch_requests log
                = batches_of (PubMed.WebEnv found) (PubMed.QueryKey found)
                    (Z.min total max_results)) by exact H.
  split; [exact Heq|]. rewrite Heq. unfold batches_of, PubMed.range_step.
  set (fc := Z.min total max_results). clearbody fc.
  set (cnt := (fc + PubMed.BATCH_SIZE - 1) `div` PubMed.BATCH_SIZE).
  assert (Hlo : 500 * cnt < fc + 500).
  { pose proof (Z.mul_div_le (fc + 500 - 1) 500 ltac:(lia)) as Hd.
    unfold cnt, PubMed.BATCH_SIZE. clear - Hd. lia. }
  assert (Hhi : fc ≤ 500 * cnt).
  { pose proof (Z.mul_succ_div_gt (fc + 500 - 1) 500 ltac:(lia)) as Hd.
    unfold cnt, PubMed.BATCH_SIZE. clear - Hd. lia. }
  clearbody cnt.
  destruct (Z.le_gt_cases cnt 0) as [Hcnt|Hcnt].
  - rewrite seqZ_nil by lia. simpl. split; [done|]. unfold sum_Z. simpl. lia.
  - destruct (batches_sum fc (Z.to_nat cnt) 0) as [Hsum Hall].
    + lia.
    + rewrite Z2Nat.id by lia. unfold PubMed.BATCH_SIZE. lia.
    + rewrite Z2Nat.id by lia. unfold PubMed.BATCH_SIZE. lia.
    + rewrite Z2Nat.id in Hsum, Hall by lia. split.
      * apply Forall_fmap. eapply Forall_impl; [exact Hall|]. by intros.
      * rewrite <- list_fmap_compose. etrans; [exact Hsum|]. lia.
Qed.

Lemma contains_char_cons (sep c : ascii) (s : string) :
  Py.contains (String sep "") (String c s)
  = Ascii.eqb sep c || Py.contains (String sep "") s.
Proof. simpl. by rewrite andb_true_r. Qed.

(** The first piece of a split holds no separator. *)
Lemma split_char_head (sep : ascii) (s : string) :
  ∃ piece rest, Py.split_char sep s = piece :: rest ∧
                Py.contains (String sep "") piece = false.
Proof.
  induction s as [|c s (piece & rest & Hs & Hp)].
  - by exists "", [].
  - cbn [Py.split_char]. destruct (Ascii.eqb c sep) eqn:Hc.
    + by exists "", (Py.split_char sep s).
    + rewrite Hs. exists (String c piece), rest. split; [done|].
      rewrite contains_char_cons, Hp, orb_false_r.
      rewrite Ascii.eqb_sym. exact Hc.
Qed.

(** X8.  The chemical entities of a document of the literature index
    are bare headings: none of them holds a slash (the qualifiers of the
    MeSH heading are cut off), and there are no more of them than the
    record has MeSH headings. *)
Theorem pubmed_chemical_entities_bare (utcnow : datetime) (r : PubMed.record) :
  match PubMed._record_to_document utcnow r with
  | Ok (Some d) =>
      Forall (λ entity, Py.contains "/" entity = false) (chemical_entities d) ∧
      (length (chemical_entities d)
       ≤ length (default [] (PubMed.lines r !! "MH")))%nat
  | _ => True
  end.
Proof.
  unfold PubMed._record_to_document. destruct (negb _); [done|].
  destruct (PubMed._parse_date _) as [pub_date|e]; [|done]. simpl. split.
  - apply Forall_fmap, Forall_forall. intros mh _. simpl.
    destruct (split_char_head "/" (Py.strip_by PubMed.is_star mh))
      as (piece & rest & -> & Hp).
    exact Hp.
  - rewrite length_fmap. apply length_filter.
Qed.

(** X9.  The date parser of the literature index returns calendar dates
    only: a year from 1 to 9999, a month from 1 to 12 and a day of that
    month.  (Everything else, such as the 30th of February, is no date.) *)
Theorem parse_date_is_a_calendar_date (date_str : string) :
  match PubMed._parse_date date_str with
  | Ok (Some d) =>
      1 ≤ year d ≤ 9999 ∧ 1 ≤ month d ≤ 12 ∧
      1 ≤ day d ≤ days_in_month (year d) (month d)
  | _ => True
  end.
Proof.
  unfold PubMed._parse_date. destruct (negb _); [done|].
  destruct (Py.split_ws date_str !! 0%nat) as [p0|]; [|done]. simpl.
  destruct (Py.int p0) as [y|]; [|done].
  match goal with |- context [date_of y ?m] => generalize m end. intros m.
  destruct (match Py.split_ws date_str !! 2%nat with
            | Some p2 => Py.int p2
            | None => Some 1
            end) as [dd|]; [|done].
  unfold date_of. destruct (_ && _ && _); [|done]. unfold mk_date.
  destruct (_ && _) eqn:H; [|done].
  repeat (apply andb_prop in H as [H ?]). simpl. lia.
Qed.

(** X10.  A second word that is not one of the twelve month
    abbreviations (a season, a month in lower case, a range of months) is
    read as January.  For an ASCII date string whose first word is an
    integer, the outcome is that of the date constructor for the first
    month of the year, on the day the third word gives, or on the first
    day when there is none; a third word that is no integer gives no
    date.  (The constructor returns the date when it is a calendar date,
    no date when it is not, and raises OverflowError when the year or the
    day does not fit a C int.) *)
Theorem parse_date_unknown_month (date_str y w : string) (rest : list string)
    (yr : Z) :
  Py.is_ascii date_str = true →
  Py.split_ws date_str = y :: w :: rest →
  PubMed.month_map !! w = None →
  Py.int y = Some yr →
  PubMed._parse_date date_str
  = match rest with
    | [] => date_of yr 1 1
    | d :: _ => match Py.int d with
                | Some dd => date_of yr 1 dd
                | None => Ok None
                end
    end.
Proof.
  intros _ Hs Hw Hy. unfold PubMed._parse_date.
  rewrite (split_ws_nonempty_truthy date_str) by (by rewrite Hs). simpl.
  rewrite Hs. simpl. rewrite Hy, Hw. simpl. by destruct rest.
Qed.

Lemma parse_date_unknown_month_witness :
  PubMed._parse_date "2024 Spring" = Ok (Some (Date 2024 1 1)) ∧
  PubMed._parse_date "2024 mar 15" = Ok (Some (Date 2024 1 15)) ∧
  PubMed._parse_date "2024 Spring 31st" = Ok None ∧
  PubMed._parse_date "99999999999 Spring" = Raise OverflowError.
Proof.
  repeat apply conj.
  - rewrite (parse_date_unknown_month "2024 Spring" "2024" "Spring" [] 2024);
      vm_compute; reflexivity.
  - rewrite (parse_date_unknown_month "2024 mar 15" "2024" "mar" ["15"] 2024);
      vm_compute; reflexivity.
  - rewrite (parse_date_unknown_month "2024 Spring 31st" "2024" "Spring"
               ["31st"] 2024);
      vm_compute; reflexivity.
  - rewrite (parse_date_unknown_month "99999999999 Spring" "99999999999"
               "Spring" [] 99999999999);
      vm_compute; reflexivity.
Defined.

(** ** Requests of the international-registry adapter *)

Section epo_requests.
Variable utcnow : datetime.
Variable fromstring : string → option EPOScraper.xml.
Variable client : EPOScraper.Client.
Variable cql : string.
Variable max_results : Z.

Lemma epo_loop_requests (fuel : nat) :
  ∀ documents range_begin log r log',
    EPOScraper.search_loop utcnow fromstring fuel client cql max_results
      documents range_begin log = Some (r, log') →
    (len documents < max_results →
       range_begin = 1 + EPOScraper.PAGE_SIZE * Z.of_nat (length log) ∧
       range_begin ≤ len documents + 1) →
    (∀ i x, log !! i = Some x → epo_request_ok cql max_results i x) →
    ∀ i x, log' !! i = Some x → epo_request_ok cql max_results i x.
Proof.
  induction fuel as [|fuel IH]; intros documents range_begin log r log'; simpl;
    destruct (Z.ltb_spec (len documents) max_results) as [Hlt|Hge]; simpl;
    try done.
  - by intros [= <- <-].
  - intros Hrun Hinv Hlog. destruct (Hinv Hlt) as [Hbegin Hdocs].
    set (x0 := {| EPOScraper.x_cql := cql;
                  EPOScraper.x_range_begin := range_begin;
                  EPOScraper.x_range_end :=
                    Z.min (range_begin + EPOScraper.PAGE_SIZE - 1) max_results;
                  EPOScraper.x_outcome :=
                    EPOScraper.published_data_search client (length log) cql
                      range_begin
                      (Z.min (range_begin + EPOScraper.PAGE_SIZE - 1) max_results) |})
      in *.
    assert (Hlog1 : ∀ i x, (log ++ [x0]) !! i = Some x →
                           epo_request_ok cql max_results i x).
    { intros i x Hi. apply lookup_app_Some in Hi as [Hi|[Hge Hi]]; [by apply Hlog|].
      apply list_lookup_singleton_Some in Hi as [Hi <-].
      replace i with (length log) by lia.
      unfold epo_request_ok, x0, EPOScraper.PAGE_SIZE in *. simpl.
      repeat split; lia. }
    destruct (EPOScraper.published_data_search client _ _ _ _)
      as [[st content]|e]; [|by injection Hrun as <- <-].
    destruct (negb (st =? 200)); [by injection Hrun as <- <-|].
    destruct (EPOScraper._parse_search_response utcnow fromstring content)
      as [|b bs]; [by injection Hrun as <- <-|].
    destruct (Z.ltb_spec (len (b :: bs)) EPOScraper.PAGE_SIZE) as [Hshort|Hfull];
      [by injection Hrun as <- <-|].
    eapply IH; [exact Hrun| |exact Hlog1].
    rewrite len_app, length_app. simpl length.
    unfold EPOScraper.PAGE_SIZE in *. intros Hlt'. lia.
  - by intros [= <- <-].
Qed.
End epo_requests.

(** X11.  The requests of a search of the international registry are
    fully determined by the query, the date bounds and [max_results]: the
    [i]-th request (counting from 0) carries the query of the search and
    asks for the results [100 i + 1] to [min(100 (i + 1), max_results)],
    a range that is never empty.  So the ranges are consecutive, start
    at 1, hold at most 100 results and never pass [max_results]. *)
Theorem epo_requests_consecutive (utcnow : datetime)
    (fromstring : string → option EPOScraper.xml) (self : EPOScraper.scraper)
    (fuel : nat) (query : string) (max_results : Z)
    (date_from date_to : option string) :
  match EPOScraper.search utcnow fromstring self fuel query max_results
          date_from date_to with
  | Some (_, log) =>
      ∀ i x, log !! i = Some x →
        epo_request_ok (EPOScraper.build_cql query date_from date_to)
                       max_results i x
  | None => True
  end.
Proof.
  unfold EPOScraper.search. destruct (EPOScraper._client self) as [client|];
    [|by intros i x Hi].
  destruct (EPOScraper.search_loop _ _ _ _ _ _ _ _ _) as [[docs log]|] eqn:H;
    [|done].
  eapply epo_loop_requests; [exact H| |by intros i x Hi].
  intros _. simpl. unfold EPOScraper.PAGE_SIZE, len. simpl. lia.
Qed.

(** ** Titles of the international registry *)

(** X12.  An English invention title without text hides every other
    title: when the first English title element of an exchange document
    has no text, the document is dropped, even when a title in another
    language is there. *)
Theorem epo_empty_english_title (utcnow : datetime) (elem e : EPOScraper.xml) :
  EPOScraper.find_desc (EPOScraper.t "ex:bibliographic-data")
    [EPOScraper.t_en "ex:invention-title"] elem = Some e →
  Py.truthy_opt (EPOScraper.text_of e) = false →
  EPOScraper._element_to_document utcnow elem = None.
Proof.
  intros He Ht. unfold EPOScraper._element_to_document. rewrite He, Ht. done.
Qed.

Lemma epo_empty_english_title_witness :
  let english := EPOScraper.Element "ex:invention-title" [("lang", "en")] None [] in
  let german :=
    EPOScraper.Element "ex:invention-title" [("lang", "de")]
      (Some "Verfahren zur Herstellung") [] in
  let elem :=
    EPOScraper.Element "ex:exchange-document" [] None
      [EPOScraper.Element "ex:bibliographic-data" [] None [german; english]] in
  EPOScraper.find_desc (EPOScraper.t "ex:bibliographic-data")
    [EPOScraper.t "ex:invention-title"] elem = Some german ∧
  EPOScraper._element_to_document sample_now elem = None.
Proof.
  intros english german elem. split; [vm_compute; reflexivity|].
  apply (epo_empty_english_title sample_now elem english);
    vm_compute; reflexivity.
Defined.

(** ** The two strategies of the web aggregator *)

Section google_strategies.
Variable utcnow : datetime.
Variable fromisoformat : string → option date.
Variable get_dict :
  nat → gmap string GooglePatentsScraper.pval →
  result (list GooglePatentsScraper.serp_result).
Variable http_get :
  nat → gmap string GooglePatentsScraper.pval → result (Z * string).
Variable parse_html : string → GooglePatentsScraper.node.
Variables api_key query : string.
Variable max_results : Z.
Variables date_from date_to : option string.

Local Arguments GooglePatentsScraper._fetch_search_page : simpl never.

(** The structured-API loop asks for the pages 0, 1, 2, ... in order,
    one request a page. *)
Lemma serpapi_loop_pages (fuel : nat) :
  ∀ documents page log o log',
    GooglePatentsScraper.serpapi_loop utcnow fromisoformat get_dict fuel api_key
      query max_results date_from date_to documents page log = Some (o, log') →
    page = Z.of_nat (length log) →
    (∀ i x, log !! i = Some x →
       x = GooglePatentsScraper.Serp
             (GooglePatentsScraper.serpapi_params api_key query (Z.of_nat i)
                date_from date_to)
             (get_dict i (GooglePatentsScraper.serpapi_params api_key query
                            (Z.of_nat i) date_from date_to))) →
    ∀ i x, log' !! i = Some x →
      x = GooglePatentsScraper.Serp
            (GooglePatentsScraper.serpapi_params api_key query (Z.of_nat i)
               date_from date_to)
            (get_dict i (GooglePatentsScraper.serpapi_params api_key query
                           (Z.of_nat i) date_from date_to)).
Proof.
  induction fuel as [|fuel IH]; intros documents page log o log'; simpl;
    destruct (len documents <? max_results); simpl; try done.
  - by intros [= <- <-].
  - intros Hrun -> Hlog.
    match type of Hrun with context [log ++ [?x]] => set (x0 := x) in * end.
    assert (Hlog1 : ∀ i x, (log ++ [x0]) !! i = Some x →
              x = GooglePatentsScraper.Serp
                    (GooglePatentsScraper.serpapi_params api_key query (Z.of_nat i)
                       date_from date_to)
                    (get_dict i (GooglePatentsScraper.serpapi_params api_key query
                                   (Z.of_nat i) date_from date_to))).
    { intros i x Hi. apply lookup_app_Some in Hi as [Hi|[Hge Hi]]; [by apply Hlog|].
      apply list_lookup_singleton_Some in Hi as [Hi <-].
      by replace i with (length log) by lia. }
    destruct (get_dict (length log) _) as [[|r organic]|e];
      [by injection Hrun as <- <-| |by injection Hrun as <- <-].
    eapply IH; [exact Hrun| |exact Hlog1].
    rewrite length_app. simpl. lia.
  - by intros [= <- <-].
Qed.

(** The structured-API loop only adds to the log, and a loop that is
    entered with fewer documents than asked for makes a request. *)
Lemma serpapi_loop_extends (fuel : nat) :
  ∀ documents page log o log',
    GooglePatentsScraper.serpapi_loop utcnow fromisoformat get_dict fuel api_key
      query max_results date_from date_to documents page log = Some (o, log') →
    (length log ≤ length log')%nat ∧
    (len documents < max_results → (length log < length log')%nat).
Proof.
  induction fuel as [|fuel IH]; intros documents page log o log'; simpl;
    destruct (Z.ltb_spec (len documents) max_results) as [Hlt|Hge]; simpl;
    try done.
  - intros [= <- <-]. split; lia.
  - intros Hrun.
    assert (Hone : (length (log ++ [GooglePatentsScraper.Serp
                      (GooglePatentsScraper.serpapi_params api_key query page
                         date_from date_to)
                      (get_dict (length log)
                         (GooglePatentsScraper.serpapi_params api_key query page
                            date_from date_to))]) = S (length log))%nat).
    { rewrite length_app. simpl. lia. }
    destruct (get_dict (length log) _) as [[|r organic]|e].
    + injection Hrun as <- <-. rewrite Hone. split; lia.
    + apply IH in Hrun as [Hle _]. rewrite Hone in Hle. split; lia.
    + injection Hrun as <- <-. rewrite Hone. split; lia.
  - intros [= <- <-]. split; lia.
Qed.

Lemma http_loop_kind (fuel : nat) :
  ∀ documents page log o log',
    GooglePatentsScraper.http_loop utcnow http_get parse_html fuel query
      max_results date_from date_to documents page log = Some (o, log') →
    Forall (λ x, is_serp x = false) log →
    Forall (λ x, is_serp x = false) log'.
Proof.
  induction fuel as [|fuel IH]; intros documents page log o log'; simpl;
    destruct (len documents <? max_results); simpl; try done.
  - by intros [= <- <-].
  - destruct (GooglePatentsScraper._fetch_search_page http_get query page
                date_from date_to log) as [o1 log1] eqn:Hfetch.
    apply http_retry_spec in Hfetch
      as (failed & params & resp & -> & -> & _ & Hfailed).
    intros Hrun Hall.
    assert (Hall1 : Forall (λ x, is_serp x = false)
                      (log ++ failed ++ [GooglePatentsScraper.Http params resp])).
    { apply Forall_app. split; [done|]. apply Forall_app. split.
      - eapply Forall_impl; [exact Hfailed|]. by intros x (p & e & ->).
      - by constructor. }
    destruct resp as [[st text]|e]; simpl in Hrun; [|by injection Hrun as <- <-].
    destruct (negb (st =? 200)); simpl in Hrun; [by injection Hrun as <- <-|].
    destruct (negb (Py.truthy_str text)); [by injection Hrun as <- <-|].
    destruct (GooglePatentsScraper.result_blocks _) as [|b bs];
      [by injection Hrun as <- <-|].
    by apply IH in Hrun.
  - by intros [= <- <-].
Qed.

(** A status other than 200 is not an error for the HTML strategy: the
    page is not asked for again and the loop ends with the documents it
    holds. *)
Lemma http_loop_status (fuel : nat) (documents : list ScientificDocument)
    (page : Z) (log : list GooglePatentsScraper.exchange)
    (status_code : Z) (text : string) :
  len documents < max_results →
  http_get (length log)
    (GooglePatentsScraper.http_params query page date_from date_to)
  = Ok (status_code, text) →
  status_code ≠ 200 →
  GooglePatentsScraper.http_loop utcnow http_get parse_html (S fuel) query
    max_results date_from date_to documents page log
  = Some (Ok documents,
          log ++ [GooglePatentsScraper.Http
                    (GooglePatentsScraper.http_params query page date_from date_to)
                    (Ok (status_code, text))]).
Proof.
  intros Hlt Hget Hst. simpl.
  destruct (Z.ltb_spec (len documents) max_results); [|lia]. simpl.
  unfold GooglePatentsScraper._fetch_search_page, with_retry. simpl.
  rewrite Hget. destruct (Z.eqb_spec status_code 200); done.
Qed.
End google_strategies.

(** C8.  In the structured-API strategy every outgoing request carries
    the date bounds if and only if [date_from] is supplied (truthy, as the
    code tests it).  A search for at least one document that comes to an
    end sends a request, and the parameters of every request it sends, the
    [i]-th asking for page [i], are the engine, the query, the key and
    the page, together with, when [date_from] is supplied, "after" set to
    [date_from] and "before" set to [date_to], or to the empty string
    when [date_to] is absent; when [date_from] is not supplied the request
    holds neither key, so that [date_to] is not sent at all. *)
Theorem C8_serpapi_date_params (utcnow : datetime)
    (fromisoformat : string → option date)
    (get_dict : nat → gmap string GooglePatentsScraper.pval →
                result (list GooglePatentsScraper.serp_result))
    (fuel : nat) (api_key query : string) (max_results : Z)
    (date_from date_to : option string)
    (o : result (list ScientificDocument))
    (log : list GooglePatentsScraper.exchange) :
  0 < max_results →
  GooglePatentsScraper._search_serpapi utcnow fromisoformat true get_dict fuel
    api_key query max_results date_from date_to = Some (o, log) →
  let base (page : Z) : gmap string GooglePatentsScraper.pval :=
    list_to_map [("engine", GooglePatentsScraper.PStr "google_patents");
                 ("q", GooglePatentsScraper.PStr query);
                 ("api_key", GooglePatentsScraper.PStr api_key);
                 ("page", GooglePatentsScraper.PInt page)] in
  (∃ params outcome, log !! 0%nat = Some (GooglePatentsScraper.Serp params outcome)) ∧
  ∀ (i : nat) x, log !! i = Some x →
    ∃ params,
      x = GooglePatentsScraper.Serp params (get_dict i params) ∧
      match date_from with
      | Some (String c from) =>
          params
          = <["after" := GooglePatentsScraper.PStr (String c from)]>
              (<["before" := GooglePatentsScraper.PStr
                               (match date_to with Some t => t | None => "" end)]>
                 (base (Z.of_nat i))) ∧
          params !! "after" = Some (GooglePatentsScraper.PStr (String c from)) ∧
          params !! "before"
          = Some (GooglePatentsScraper.PStr
                    (match date_to with Some t => t | None => "" end))
      | _ =>
          params = base (Z.of_nat i) ∧
          params !! "after" = None ∧ params !! "before" = None
      end.
Proof.
  intros Hmax Hrun base.
  unfold GooglePatentsScraper._search_serpapi in Hrun. simpl in Hrun.
  destruct (GooglePatentsScraper.serpapi_loop _ _ _ _ _ _ _ _ _ _ _ _)
    as [[o' log']|] eqn:H; [|done].
  assert (log' = log) as -> by (by destruct o'; injection Hrun as _ <-).
  clear Hrun.
  pose proof (serpapi_loop_pages _ _ _ _ _ _ _ _ _ _ _ _ _ _ H eq_refl
                ltac:(by intros ? ? ?)) as Hlog.
  apply serpapi_loop_extends in H as [_ Hsent].
  specialize (Hsent Hmax). simpl in Hsent.
  split.
  - destruct log as [|x log]; [simpl in Hsent; lia|].
    rewrite (Hlog 0%nat x eq_refl). by eexists _, _.
  - intros i x Hi. apply Hlog in Hi as ->.
    eexists. split; [done|].
    pose proof (serpapi_params_dates api_key query (Z.of_nat i) date_from
                  date_to) as [Hyes Hno].
    subst base. unfold GooglePatentsScraper.serpapi_params in *.
    unfold GooglePatentsScraper.SERPAPI_ENGINE in *.
    destruct date_from as [[|c from]|]; simpl in *.
    + destruct (Hno eq_refl) as (? & ? & _). done.
    + destruct (Hyes eq_refl) as (? & ?). split; [|done].
      by destruct date_to as [[|]|].
    + destruct (Hno eq_refl) as (? & ? & _). done.
Qed.

Lemma C8_serpapi_date_params_witness :
  let get_dict := λ (_ : nat) (_ : gmap string GooglePatentsScraper.pval),
                    Ok ([] : list GooglePatentsScraper.serp_result) in
  let sent (date_from date_to : option string) :=
    GooglePatentsScraper.Serp
      (GooglePatentsScraper.serpapi_params "key" "aspirin" 0 date_from date_to)
      (Ok []) in
  (∃ params,
     sent (Some "2020-01-01") None
     = GooglePatentsScraper.Serp params (Ok []) ∧
     params !! "after" = Some (GooglePatentsScraper.PStr "2020-01-01") ∧
     params !! "before" = Some (GooglePatentsScraper.PStr "")) ∧
  (∃ params,
     sent None (Some "2021-12-31")
     = GooglePatentsScraper.Serp params (Ok []) ∧
     params !! "after" = None ∧ params !! "before" = None).
Proof.
  intros get_dict sent. split.
  - assert (Hrun : GooglePatentsScraper._search_serpapi sample_now
                     Json.parse_iso_date true get_dict 1 "key" "aspirin" 10
                     (Some "2020-01-01") None
                   = Some (Ok [], [sent (Some "2020-01-01") None]))
      by (vm_compute; reflexivity).
    destruct (C8_serpapi_date_params sample_now Json.parse_iso_date get_dict 1
                "key" "aspirin" 10 (Some "2020-01-01") None (Ok [])
                [sent (Some "2020-01-01") None] ltac:(lia) Hrun)
      as [_ Hall].
    destruct (Hall 0%nat _ eq_refl) as (params & Hx & _ & Hafter & Hbefore).
    exists params. by rewrite Hx.
  - assert (Hrun : GooglePatentsScraper._search_serpapi sample_now
                     Json.parse_iso_date true get_dict 1 "key" "aspirin" 10
                     None (Some "2021-12-31")
                   = Some (Ok [], [sent None (Some "2021-12-31")]))
      by (vm_compute; reflexivity).
    destruct (C8_serpapi_date_params sample_now Json.parse_iso_date get_dict 1
                "key" "aspirin" 10 None (Some "2021-12-31") (Ok [])
                [sent None (Some "2021-12-31")] ltac:(lia) Hrun)
      as [_ Hall].
    destruct (Hall 0%nat _ eq_refl) as (params & Hx & _ & Hafter & Hbefore).
    exists params. by rewrite Hx.
Defined.

(** X13.  The web aggregator uses one strategy per search, chosen by
    the API key alone.  With a key, every request goes to the structured
    API, and when the client package of that API is missing the search
    returns no document without any request: it does not fall back to the
    HTML strategy.  Without a key (absent or empty), the search is the
    HTML search and every request is a page request. *)
Theorem google_single_strategy (utcnow : datetime)
    (fromisoformat : string → option date)
    (get_dict : nat → gmap string GooglePatentsScraper.pval →
                result (list GooglePatentsScraper.serp_result))
    (http_get : nat → gmap string GooglePatentsScraper.pval → result (Z * string))
    (parse_html : string → GooglePatentsScraper.node)
    (settings : Settings) (fuel : nat) (query : string) (max_results : Z)
    (date_from date_to : option string) :
  let search installed :=
    GooglePatentsScraper.search utcnow fromisoformat installed get_dict http_get
      parse_html settings fuel query max_results date_from date_to in
  if Py.truthy_opt (serpapi_key settings)
  then search false = Some (Ok [], []) ∧
       ∀ installed, match search installed with
                    | Some (_, log) => Forall (λ x, is_serp x = true) log
                    | None => True
                    end
  else ∀ installed,
         search installed
         = GooglePatentsScraper._search_http utcnow http_get parse_html fuel
             query max_results date_from date_to ∧
         match search installed with
         | Some (_, log) => Forall (λ x, is_serp x = false) log
         | None => True
         end.
Proof.
  intros search. unfold search, GooglePatentsScraper.search.
  destruct (Py.truthy_opt (serpapi_key settings)).
  - split; [done|]. intros [|]; unfold GooglePatentsScraper._search_serpapi; simpl;
      [|by constructor].
    destruct (GooglePatentsScraper.serpapi_loop _ _ _ _ _ _ _ _ _ _ _ _)
      as [[o log]|] eqn:H; [|done].
    assert (Hlog : Forall (λ x, is_serp x = true) log).
    { apply Forall_lookup. intros i x Hi.
      by rewrite (serpapi_loop_pages _ _ _ _ _ _ _ _ _ _ _ _ _ _ H eq_refl
                    ltac:(by intros ? ? ?) i x Hi). }
    by destruct o.
  - intros installed. split; [done|].
    unfold GooglePatentsScraper._search_http.
    destruct (GooglePatentsScraper.http_loop _ _ _ _ _ _ _ _ _ _ _)
      as [[o log]|] eqn:H; [|done].
    apply http_loop_kind in H; [|by constructor]. by destruct o.
Qed.

(** X14.  The structured-API strategy asks for the pages 0, 1, 2, ... in
    this order, one request a page, each request with the engine, the
    query, the key and the date bounds of the search. *)
Theorem serpapi_pages_in_order (utcnow : datetime)
    (fromisoformat : string → option date) (installed : bool)
    (get_dict : nat → gmap string GooglePatentsScraper.pval →
                result (list GooglePatentsScraper.serp_result))
    (fuel : nat) (api_key query : string) (max_results : Z)
    (date_from date_to : option string) :
  match GooglePatentsScraper._search_serpapi utcnow fromisoformat installed
          get_dict fuel api_key query max_results date_from date_to with
  | Some (_, log) =>
      ∀ (i : nat) x, log !! i = Some x →
        x = GooglePatentsScraper.Serp
              (GooglePatentsScraper.serpapi_params api_key query (Z.of_nat i)
                 date_from date_to)
              (get_dict i (GooglePatentsScraper.serpapi_params api_key query
                             (Z.of_nat i) date_from date_to))
  | None => True
  end.
Proof.
  unfold GooglePatentsScraper._search_serpapi.
  destruct installed; simpl; [|by intros ? ? ?].
  destruct (GooglePatentsScraper.serpapi_loop _ _ _ _ _ _ _ _ _ _ _ _)
    as [[o log]|] eqn:H; [|done].
  pose proof (serpapi_loop_pages _ _ _ _ _ _ _ _ _ _ _ _ _ _ H eq_refl
                ltac:(by intros ? ? ?)) as Hlog.
  by destruct o.
Qed.

(** X15.  A response with a status other than 200 ends the HTML search
    without an exception and without a second attempt: the search returns
    the documents it holds (none when the first page is refused), and the
    refused request is the last one. *)
Theorem http_status_ends_search (utcnow : datetime)
    (http_get : nat → gmap string GooglePatentsScraper.pval → result (Z * string))
    (parse_html : string → GooglePatentsScraper.node)
    (fuel : nat) (query : string) (max_results : Z)
    (date_from date_to : option string) (status_code : Z) (text : string) :
  0 < max_results →
  http_get 0%nat (GooglePatentsScraper.http_params query 0 date_from date_to)
  = Ok (status_code, text) →
  status_code ≠ 200 →
  GooglePatentsScraper._search_http utcnow http_get parse_html (S fuel) query
    max_results date_from date_to
  = Some (Ok [],
          [GooglePatentsScraper.Http
             (GooglePatentsScraper.http_params query 0 date_from date_to)
             (Ok (status_code, text))]).
Proof.
  intros Hmax Hget Hst. unfold GooglePatentsScraper._search_http.
  rewrite (http_loop_status utcnow http_get parse_html query max_results
             date_from date_to fuel [] 0 [] status_code text Hmax Hget Hst).
  simpl. unfold slice_to. destruct (0 <=? max_results); by rewrite take_nil.
Qed.

Lemma http_status_ends_search_witness :
  GooglePatentsScraper._search_http sample_now
    (λ _ _, Ok (429, "Too Many Requests")) sample_parse_html 1 "aspirin" 10
    None None
  = Some (Ok [],
          [GooglePatentsScraper.Http
             (GooglePatentsScraper.http_params "aspirin" 0 None None)
             (Ok (429, "Too Many Requests"))]).
Proof.
  apply (http_status_ends_search sample_now (λ _ _, Ok (429, "Too Many Requests"))
           sample_parse_html 0 "aspirin" 10 None None 429 "Too Many Requests").
  - lia.
  - reflexivity.
  - discriminate.
Defined.

(** X16.  The HTML strategy encodes the two date bounds independently of
    each other: "after" is present exactly when [date_from] is supplied
    and not empty, "before" exactly when [date_to] is, each holding the
    date behind the prefix [priority:]; "q" and "page" are always
    present. *)
Theorem http_date_params (query : string) (page : Z)
    (date_from date_to : option string) :
  let params := GooglePatentsScraper.http_params query page date_from date_to in
  params !! "q" = Some (GooglePatentsScraper.PStr query) ∧
  params !! "page" = Some (GooglePatentsScraper.PInt page) ∧
  params !! "after"
  = (if Py.truthy_opt date_from
     then Some (GooglePatentsScraper.PStr ("priority:" +:+ default "" date_from))
     else None) ∧
  params !! "before"
  = (if Py.truthy_opt date_to
     then Some (GooglePatentsScraper.PStr ("priority:" +:+ default "" date_to))
     else None).
Proof.
  unfold GooglePatentsScraper.http_params.
  destruct (Py.truthy_opt date_from), (Py.truthy_opt date_to);
    repeat split; by simplify_map_eq.
Qed.

(** ** Appending to a file *)

Lemma ends_lf_cons (c : ascii) (s : string) :
  s ≠ "" → ends_lf (String c s) = ends_lf s.
Proof. by destruct s. Qed.

Lemma file_lines_go_app (n : nat) :
  ∀ (a : string) (cur : list ascii) (b : string),
    (String.length a ≤ n)%nat → ends_lf a = true →
    Jsonl.file_lines_go cur (a +:+ b)
    = Jsonl.file_lines_go cur a ++ Jsonl.file_lines_go [] b.
Proof.
  induction n as [|n IH]; intros a cur b Hlen Hend.
  - destruct a; [done|simpl in Hlen; lia].
  - destruct a as [|c a]; [done|]. simpl in Hlen.
    rewrite string_app_cons. cbn [Jsonl.file_lines_go].
    destruct (Ascii.eqb c Jsonl.LF) eqn:Hlf.
    + destruct a as [|c' a]; [done|].
      rewrite <- app_comm_cons. f_equal.
      apply IH; [lia|]. by rewrite ends_lf_cons in Hend.
    + destruct (Ascii.eqb c Jsonl.CR) eqn:Hcr.
      * destruct a as [|c' a]; [simpl in Hend; congruence|].
        rewrite ends_lf_cons in Hend by done.
        rewrite string_app_cons. rewrite <- app_comm_cons. f_equal.
        destruct (Ascii.eqb c' Jsonl.LF) eqn:Hlf'.
        -- destruct a as [|c'' a]; [done|].
           apply IH; [simpl in *; lia|]. by rewrite ends_lf_cons in Hend.
        -- rewrite <- string_app_cons. apply IH; [simpl in *; lia|done].
      * destruct a as [|c' a]; [simpl in Hend; congruence|].
        apply IH; [simpl in *; lia|]. by rewrite ends_lf_cons in Hend.
Qed.

(** Whole lines added to a file whose last line is ended are read as
    lines after those of the file. *)
Lemma file_lines_app (a b : string) :
  a = "" ∨ ends_lf a = true →
  Jsonl.file_lines (a +:+ b) = Jsonl.file_lines a ++ Jsonl.file_lines b.
Proof.
  intros [->|Hend]; [done|]. unfold Jsonl.file_lines.
  by apply (file_lines_go_app (String.length a)).
Qed.

Section appending.
Variable model_dump_json : ScientificDocument → string.
Variable model_validate_json : string → option ScientificDocument.

Lemma read_lines_app (l1 l2 : list string) :
  Jsonl.raised (Jsonl.read_lines model_validate_json l1) = None →
  Jsonl.read_lines model_validate_json (l1 ++ l2)
  = {| Jsonl.yielded :=
         Jsonl.yielded (Jsonl.read_lines model_validate_json l1)
         ++ Jsonl.yielded (Jsonl.read_lines model_validate_json l2);
       Jsonl.raised := Jsonl.raised (Jsonl.read_lines model_validate_json l2) |}.
Proof.
  induction l1 as [|line l1 IH]; simpl.
  - intros _. by destruct (Jsonl.read_lines model_validate_json l2).
  - destruct (Py.truthy_str (Py.strip line)); [|exact IH].
    destruct (model_validate_json (Py.strip line)); simpl; [|done].
    intros H. by rewrite (IH H).
Qed.

Lemma dumped_lines_count (documents : list ScientificDocument) :
  Forall (one_line model_dump_json) documents →
  len (filter (λ line, Is_true (Py.truthy_str (Py.strip line)))
              (Jsonl.file_lines (dumped_lines model_dump_json documents)))
  = len documents.
Proof.
  intros Hall. rewrite file_lines_dumped
    by (eapply Forall_impl; [exact Hall|]; by intros d (Hn & _)).
  unfold len. f_equal. induction Hall as [|d ds (Hn & Hs & He) _ IH]; [done|].
  rewrite fmap_cons. rewrite filter_cons_True.
  - simpl. by rewrite IH.
  - rewrite strip_line by done. by destruct (model_dump_json d).
Qed.
End appending.

Lemma dumped_lines_app (model_dump_json : ScientificDocument → string)
    (first second : list ScientificDocument) :
  dumped_lines model_dump_json first +:+ dumped_lines model_dump_json second
  = dumped_lines model_dump_json (first ++ second).
Proof.
  induction first as [|d ds IH]; [done|].
  change (dumped_lines model_dump_json (d :: ds))
    with (model_dump_json d +:+ String Jsonl.LF (dumped_lines model_dump_json ds)).
  rewrite string_app_assoc, string_app_cons, IH. done.
Qed.

(** X17.  Appending is cumulative and local: two calls on the same path
    leave the files as one call with the two lists in a row does, and the
    counts they return add up; no other path is touched; and the content
    the file had is kept as a prefix of the new content (nothing is ever
    overwritten). *)
Theorem append_documents_cumulative
    (model_dump_json : ScientificDocument → string)
    (fs : gmap string string) (path : string)
    (first second : list ScientificDocument) :
  let once := Jsonl.append_documents model_dump_json fs path first in
  let twice := Jsonl.append_documents model_dump_json once.2 path second in
  let both := Jsonl.append_documents model_dump_json fs path (first ++ second) in
  twice.2 = both.2 ∧ once.1 + twice.1 = both.1 ∧
  (∀ other, other ≠ path → both.2 !! other = fs !! other) ∧
  both.2 !! path
  = Some (default "" (fs !! path)
          +:+ dumped_lines model_dump_json (first ++ second)).
Proof.
  intros once twice both. subst both twice once.
  rewrite !append_documents_content. cbn [fst snd].
  rewrite !lookup_insert_eq. cbn [default from_option id].
  repeat split.
  - rewrite insert_insert_eq, string_app_assoc.
    by rewrite dumped_lines_app.
  - unfold len. rewrite length_app. lia.
  - intros other Hne. by rewrite lookup_insert_ne.
Qed.

(** X18.  Reading after appending: when the file is missing or empty, or
    its last line is ended, and it reads without an exception, then after
    documents are appended (documents whose text is read back by the
    codec as the document, on one line) the file reads as the documents
    it held followed by the documents appended, in their order, without
    an exception. *)
Theorem append_then_read
    (model_dump_json : ScientificDocument → string)
    (model_validate_json : string → option ScientificDocument)
    (fs : gmap string string) (path : string)
    (documents : list ScientificDocument) :
  let before :=
    Jsonl.read_lines model_validate_json
      (Jsonl.file_lines (default "" (fs !! path))) in
  appendable fs path →
  Jsonl.raised before = None →
  Forall (well_dumped model_dump_json model_validate_json) documents →
  Jsonl.read_documents model_validate_json
    (Jsonl.append_documents model_dump_json fs path documents).2 path
  = {| Jsonl.yielded := Jsonl.yielded before ++ documents;
       Jsonl.raised := None |}.
Proof.
  intros before Happ Hbefore Hdocs. rewrite append_documents_content. cbn [snd].
  unfold Jsonl.read_documents. rewrite lookup_insert_eq.
  rewrite file_lines_app by exact Happ.
  rewrite read_lines_app by exact Hbefore.
  rewrite file_lines_dumped
    by (eapply Forall_impl; [exact Hdocs|]; by intros d (_ & Hn & _)).
  by rewrite read_lines_dumped.
Qed.

Lemma append_then_read_witness :
  let fs : gmap string string :=
    (Jsonl.append_documents Json.model_dump_json ∅ "data/epo.jsonl"
       [sample_doc]).2 in
  appendable fs "data/epo.jsonl" ∧
  Jsonl.read_documents (Json.model_validate_json sample_now)
    (Jsonl.append_documents Json.model_dump_json fs "data/epo.jsonl"
       [sample_doc; sample_doc]).2 "data/epo.jsonl"
  = {| Jsonl.yielded := [sample_doc; sample_doc; sample_doc];
       Jsonl.raised := None |}.
Proof.
  intros fs.
  assert (Happ : appendable fs "data/epo.jsonl") by (right; vm_compute; reflexivity).
  split; [exact Happ|].
  assert (Hd : well_dumped Json.model_dump_json
                 (Json.model_validate_json sample_now) sample_doc).
  { repeat split; vm_compute; reflexivity. }
  rewrite (append_then_read Json.model_dump_json
             (Json.model_validate_json sample_now) fs "data/epo.jsonl"
             [sample_doc; sample_doc] Happ).
  - vm_compute. reflexivity.
  - vm_compute. reflexivity.
  - repeat constructor; exact Hd.
Defined.

(** X19.  The number [append_documents] returns is the number by which
    [count_documents] grows, when the file is missing or empty or its
    last line is ended and the text of every document is one line that
    is not blank. *)
Theorem append_count_matches
    (model_dump_json : ScientificDocument → string)
    (fs : gmap string string) (path : string)
    (documents : list ScientificDocument) :
  appendable fs path →
  Forall (one_line model_dump_json) documents →
  Jsonl.count_documents
    (Jsonl.append_documents model_dump_json fs path documents).2 path
  = Jsonl.count_documents fs path
    + (Jsonl.append_documents model_dump_json fs path documents).1.
Proof.
  intros Happ Hdocs. rewrite append_documents_content. cbn [fst snd].
  unfold Jsonl.count_documents at 1. rewrite lookup_insert_eq.
  rewrite file_lines_app by exact Happ.
  rewrite filter_app, len_app, (dumped_lines_count _ _ Hdocs).
  f_equal. unfold Jsonl.count_documents. by destruct (fs !! path).
Qed.

Lemma append_count_matches_witness :
  appendable ∅ "data/epo.jsonl" ∧
  Jsonl.count_documents
    (Jsonl.append_documents Json.model_dump_json ∅ "data/epo.jsonl"
       [sample_doc; sample_doc]).2 "data/epo.jsonl" = 2.
Proof.
  assert (Happ : appendable ∅ "data/epo.jsonl") by (left; reflexivity).
  split; [exact Happ|].
  rewrite (append_count_matches Json.model_dump_json ∅ "data/epo.jsonl"
             [sample_doc; sample_doc] Happ).
  - reflexivity.
  - repeat constructor; vm_compute; reflexivity.
Defined.

(** ** Rate limiter *)

(** X20.  The limiter delays a request no longer than it must: when
    [time.sleep] sleeps exactly as long as asked, the request is released
    at the later of the time [wait()] was entered and the end of the
    minimum interval since the last request (plus the time the second
    reading of the clock takes). *)
Theorem wait_releases_at_earliest (d : RateLimiter.delays) (s : RateLimiter.state) :
  (RateLimiter.oversleep d == 0)%Q →
  let now := (RateLimiter.clock s + RateLimiter.before_now d)%Q in
  let due := (RateLimiter._last_request_time (RateLimiter.self s)
              + RateLimiter._min_interval (RateLimiter.self s))%Q in
  let released := RateLimiter.clock (RateLimiter.wait d s) in
  (now + RateLimiter.before_stamp d <= released)%Q ∧
  (due + RateLimiter.before_stamp d <= released)%Q ∧
  ((released == now + RateLimiter.before_stamp d)%Q ∨
   (released == due + RateLimiter.before_stamp d)%Q).
Proof.
  intros Hos now due released. unfold released, RateLimiter.wait. simpl.
  fold now.
  destruct (Qle_bool (RateLimiter._min_interval (RateLimiter.self s))
              (now - RateLimiter._last_request_time (RateLimiter.self s)))
    eqn:Hle; simpl.
  - apply Qle_bool_iff in Hle. unfold due. repeat split; [lra|lra|left; lra].
  - assert (¬ (RateLimiter._min_interval (RateLimiter.self s)
               <= now - RateLimiter._last_request_time (RateLimiter.self s))%Q)
      as Hlt by (rewrite <- Qle_bool_iff; congruence).
    apply Qnot_le_lt in Hlt. unfold due. repeat split; [lra|lra|right; lra].
Qed.

Lemma wait_releases_at_earliest_witness :
  let s := {| RateLimiter.self := RateLimiter.__init__ 1;
              RateLimiter.clock := 5 |} in
  let d := {| RateLimiter.before_now := 0; RateLimiter.oversleep := 0;
              RateLimiter.before_stamp := 0 |} in
  (RateLimiter.clock (RateLimiter.wait d s) == 5)%Q.
Proof.
  intros s d.
  destruct (wait_releases_at_earliest d s) as (_ & _ & [H|H]).
  - reflexivity.
  - rewrite H. reflexivity.
  - reflexivity.
Defined.

(** X21.  A burst of calls is spread out: after [k] further calls of
    [wait()] on a limiter, the last request is stamped at least [k]
    minimum intervals after the request that was the last one before
    them, whatever the environment does (as long as the clock does not
    run backwards and [time.sleep] sleeps at least as long as asked). *)
Theorem waits_spread_out (ds : list RateLimiter.delays) (s : RateLimiter.state) :
  Forall RateLimiter.delays_ok ds →
  (RateLimiter._last_request_time (RateLimiter.self s)
   + inject_Z (Z.of_nat (length ds))
     * RateLimiter._min_interval (RateLimiter.self s)
   <= RateLimiter._last_request_time (RateLimiter.self (waits ds s)))%Q.
Proof.
  intros Hds. revert s. induction Hds as [|d ds Hd _ IH]; intros s.
  - change (waits [] s) with s. change (inject_Z (Z.of_nat (length (@nil RateLimiter.delays)))) with 0%Q.
    rewrite Qmult_0_l, Qplus_0_r. apply Qle_refl.
  - change (waits (d :: ds) s) with (waits ds (RateLimiter.wait d s)).
    specialize (IH (RateLimiter.wait d s)).
    rewrite wait_keeps_interval in IH.
    destruct (wait_spacing d s Hd) as (Hstep & _ & _).
    change (length (d :: ds)) with (S (length ds)).
    rewrite Nat2Z.inj_succ. unfold Z.succ. rewrite inject_Z_plus.
    set (m := RateLimiter._min_interval (RateLimiter.self s)) in *.
    set (n := inject_Z (Z.of_nat (length ds))) in *.
    change (inject_Z 1) with 1%Q.
    assert (((n + 1) * m == n * m + m)%Q) as -> by ring.
    lra.
Qed.

Lemma waits_spread_out_witness :
  let s := {| RateLimiter.self := RateLimiter.__init__ (3 # 4);
              RateLimiter.clock := 1000 # 1 |} in
  let d := {| RateLimiter.before_now := 1 # 10; RateLimiter.oversleep := 0;
              RateLimiter.before_stamp := 0 |} in
  (0 + inject_Z 3 * (1 / (3 # 4))
   <= RateLimiter._last_request_time (RateLimiter.self (waits [d; d; d] s)))%Q.
Proof.
  intros s d. apply (waits_spread_out [d; d; d] s).
  repeat constructor; simpl; discriminate.
Defined.

(** ** Orchestrator *)

Lemma first_unknown_None (names : list string) :
  Cli.first_unknown names = None
  ↔ Forall (λ name, name ∈ Cli.SCRAPER_REGISTRY) names.
Proof.
  unfold Cli.first_unknown. induction names as [|name names IH].
  - by split.
  - destruct (decide (name ∈ Cli.SCRAPER_REGISTRY)) as [Hin|Hout].
    + rewrite filter_cons_False by (intros H; by apply H).
      rewrite IH. split; [by constructor|by inversion 1].
    + rewrite filter_cons_True by done. simpl. split; [done|].
      by inversion 1.
Qed.

(** X22.  The source names are all checked before any source is
    searched: when a name of the list is not registered, wherever it
    stands in the list, the run ends with the parameter error of
    [--source], no source has been searched and no file is written;
    otherwise the run is the loop over the names. *)
Theorem scrape_validates_first (settings : Settings)
    (model_dump_json : ScientificDocument → string)
    (search_of : nat → string → result (list ScientificDocument))
    (source : string) (output : option string) (fs : gmap string string) :
  let run := Cli.scrape settings model_dump_json search_of source output fs in
  if decide (Forall (λ name, name ∈ Cli.SCRAPER_REGISTRY) (Cli.resolve source))
  then run = Cli.scrape_loop settings model_dump_json search_of output
               (Cli.resolve source) 0 fs []
  else Cli.outcome run = Raise (BadParameter "--source") ∧
       Cli.searched run = [] ∧ Cli.files run = fs.
Proof.
  intros run. subst run. unfold Cli.scrape.
  destruct (decide _) as [Hall|Hnot].
  - apply first_unknown_None in Hall. by rewrite Hall.
  - destruct (Cli.first_unknown (Cli.resolve source)) as [name|] eqn:Hf; [done|].
    by apply first_unknown_None in Hf.
Qed.

Section single_file.
Variable settings : Settings.
Variable model_dump_json : ScientificDocument → string.
Variable search_of : nat → string → result (list ScientificDocument).
Variable path : string.
Hypothesis path_given : Py.truthy_str path = true.

Lemma scrape_loop_single_file (names : list string) :
  ∀ total fs called,
    (∀ i name, names !! i = Some name →
       ∃ documents, search_of (length called + i) name = Ok documents) →
    let found := found_documents search_of (length called) names in
    let run := Cli.scrape_loop settings model_dump_json search_of (Some path)
                 names total fs called in
    Cli.outcome run = Ok (total + len found) ∧
    Cli.files run
    = match found with
      | [] => fs
      | _ => <[path := default "" (fs !! path)
                       +:+ dumped_lines model_dump_json found]> fs
      end.
Proof.
  induction names as [|name names IH]; intros total fs called Hok;
    cbn [Cli.scrape_loop found_documents].
  - split; [simpl; f_equal; unfold len; simpl; lia | done].
  - destruct (Hok 0%nat name eq_refl) as [documents Hd].
    rewrite Nat.add_0_r in Hd. rewrite Hd.
    assert (Hrest : ∀ i n, names !! i = Some n →
              ∃ docs, search_of (length (called ++ [name]) + i) n = Ok docs).
    { intros i n Hi. rewrite length_app. simpl.
      replace (length called + 1 + i)%nat with (length called + S i)%nat by lia.
      by apply Hok. }
    assert (Hlen : length (called ++ [name]) = S (length called))
      by (rewrite length_app; simpl; lia).
    destruct documents as [|doc documents].
    + destruct (IH total fs (called ++ [name]) Hrest) as [Ho Hf].
      rewrite Hlen in Ho, Hf. by rewrite Ho, Hf.
    + cbn [Py.truthy_opt]. rewrite path_given. cbn [default from_option id].
      rewrite append_documents_content.
      match goal with |- context [Cli.scrape_loop _ _ _ _ names ?t ?f ?c] =>
        destruct (IH t f c Hrest) as [Ho Hf] end.
      rewrite Hlen in Ho, Hf. rewrite Ho, Hf. split.
      * f_equal. rewrite len_app. lia.
      * rewrite lookup_insert_eq. cbn [default from_option id].
        destruct (found_documents search_of (S (length called)) names)
          as [|d ds] eqn:Hfound.
        -- by rewrite app_nil_r.
        -- rewrite insert_insert_eq, string_app_assoc, dumped_lines_app. done.
Qed.
End single_file.

(** X23.  A run with [--output] collects everything in that file: when
    every source is registered and every search returns, the total is the
    number of documents found, and the file holds what it held before
    followed by one line for each document found, in the order of the
    sources and, within a source, in the order returned; no other file is
    touched, and when nothing is found no file is written at all. *)
Theorem scrape_output_collects (settings : Settings)
    (model_dump_json : ScientificDocument → string)
    (search_of : nat → string → result (list ScientificDocument))
    (source path : string) (fs : gmap string string) :
  path ≠ "" →
  Cli.first_unknown (Cli.resolve source) = None →
  (∀ i name, Cli.resolve source !! i = Some name →
     ∃ documents, search_of i name = Ok documents) →
  let found := found_documents search_of 0 (Cli.resolve source) in
  let run := Cli.scrape settings model_dump_json search_of source (Some path) fs in
  Cli.outcome run = Ok (len found) ∧
  Cli.files run
  = match found with
    | [] => fs
    | _ => <[path := default "" (fs !! path)
                     +:+ dumped_lines model_dump_json found]> fs
    end.
Proof.
  intros Hpath Hknown Hok found run. subst found run.
  unfold Cli.scrape. rewrite Hknown.
  destruct (scrape_loop_single_file settings model_dump_json search_of path
              ltac:(by destruct path) (Cli.resolve source) 0 fs [] Hok)
    as [Ho Hf].
  split; [rewrite Ho; f_equal; simpl; lia | exact Hf].
Qed.

Lemma scrape_output_collects_witness :
  let found := found_documents sample_search_of 0 (Cli.resolve "pubmed, epo") in
  let run := Cli.scrape sample_settings Json.model_dump_json sample_search_of
               "pubmed, epo" (Some "out.jsonl") ∅ in
  len found = 1 ∧ Cli.outcome run = Ok 1 ∧
  Cli.files run
  = {[ "out.jsonl" := dumped_lines Json.model_dump_json found ]}.
Proof.
  intros found run.
  assert (Hlen : len found = 1) by (vm_compute; reflexivity).
  destruct (scrape_output_collects sample_settings Json.model_dump_json
              sample_search_of "pubmed, epo" "out.jsonl" ∅) as [Ho Hf].
  - discriminate.
  - vm_compute. reflexivity.
  - intros [|[|i]] name Hi; vm_compute in Hi; try discriminate;
      injection Hi as <-; eexists; vm_compute; reflexivity.
  - split; [exact Hlen|]. fold found in Ho, Hf. fold run in Ho, Hf.
    split; [by rewrite Ho, Hlen|]. rewrite Hf.
    destruct found as [|d ds]; [discriminate Hlen|]. reflexivity.
Defined.

(** X24.  What a run with [--output] has scraped can be read back: when
    the file was missing or empty or ended in a line feed and read
    without an exception, every search returned, and the codec reads the
    text of every document found back as the document, on one line, then
    reading the file after the run yields the documents it held before
    followed by the documents found, in order.  The one exception is a
    run that found no document when the file was missing: no file is
    written, and reading raises FileNotFoundError. *)
Theorem scrape_then_read (settings : Settings)
    (model_dump_json : ScientificDocument → string)
    (model_validate_json : string → option ScientificDocument)
    (search_of : nat → string → result (list ScientificDocument))
    (source path : string) (fs : gmap string string) :
  path ≠ "" →
  Cli.first_unknown (Cli.resolve source) = None →
  (∀ i name, Cli.resolve source !! i = Some name →
     ∃ documents, search_of i name = Ok documents) →
  let found := found_documents search_of 0 (Cli.resolve source) in
  let run := Cli.scrape settings model_dump_json search_of source (Some path) fs in
  let before :=
    Jsonl.read_lines model_validate_json
      (Jsonl.file_lines (default "" (fs !! path))) in
  appendable fs path →
  Jsonl.raised before = None →
  Forall (well_dumped model_dump_json model_validate_json) found →
  Jsonl.read_documents model_validate_json (Cli.files run) path
  = match found, fs !! path with
    | [], None =>
        {| Jsonl.yielded := []; Jsonl.raised := Some FileNotFoundError |}
    | _, _ =>
        {| Jsonl.yielded := Jsonl.yielded before ++ found;
           Jsonl.raised := None |}
    end.
Proof.
  intros Hpath Hknown Hok found run before. subst found run before.
  intros Happ Hbefore Hdocs.
  unfold Cli.scrape. rewrite Hknown.
  destruct (scrape_loop_single_file settings model_dump_json search_of path
              ltac:(by destruct path) (Cli.resolve source) 0 fs [] Hok)
    as [_ Hf].
  rewrite Hf. simpl length in *.
  destruct (found_documents search_of 0 (Cli.resolve source)) as [|d ds].
  - unfold Jsonl.read_documents.
    destruct (fs !! path) as [content|]; [|done].
    cbn [default from_option id] in *. rewrite app_nil_r.
    destruct (Jsonl.read_lines model_validate_json (Jsonl.file_lines content))
      as [ys r]. simpl in Hbefore. by rewrite Hbefore.
  - assert (Hread :
      Jsonl.read_documents model_validate_json
        (<[path := default "" (fs !! path)
                   +:+ dumped_lines model_dump_json (d :: ds)]> fs) path
      = {| Jsonl.yielded :=
             Jsonl.yielded (Jsonl.read_lines model_validate_json
                              (Jsonl.file_lines (default "" (fs !! path))))
             ++ d :: ds;
           Jsonl.raised := None |}).
    { unfold Jsonl.read_documents. rewrite lookup_insert_eq.
      rewrite file_lines_app by exact Happ.
      rewrite (read_lines_app _ _ _ Hbefore).
      rewrite file_lines_dumped
        by (eapply Forall_impl; [exact Hdocs|]; by intros x (_ & Hn & _)).
      by rewrite read_lines_dumped. }
    rewrite Hread. by destruct (fs !! path).
Qed.

Lemma scrape_then_read_witness :
  let found := found_documents sample_search_of 0 (Cli.resolve "pubmed, epo") in
  let run := Cli.scrape sample_settings Json.model_dump_json sample_search_of
               "pubmed, epo" (Some "out.jsonl") ∅ in
  let empty_run := Cli.scrape sample_settings Json.model_dump_json
                     (λ _ _, Ok []) "epo" (Some "out.jsonl") ∅ in
  (len found = 1 ∧
   Jsonl.read_documents (Json.model_validate_json sample_now)
     (Cli.files run) "out.jsonl"
   = {| Jsonl.yielded := found; Jsonl.raised := None |}) ∧
  Jsonl.read_documents (Json.model_validate_json sample_now)
    (Cli.files empty_run) "out.jsonl"
  = {| Jsonl.yielded := []; Jsonl.raised := Some FileNotFoundError |}.
Proof.
  intros found run empty_run. split; [split; [vm_compute; reflexivity|]|].
  - subst found run.
    rewrite (scrape_then_read sample_settings Json.model_dump_json
               (Json.model_validate_json sample_now) sample_search_of
               "pubmed, epo" "out.jsonl" ∅).
    + vm_compute. reflexivity.
    + discriminate.
    + vm_compute. reflexivity.
    + intros [|[|i]] name Hi; vm_compute in Hi; try discriminate;
        injection Hi as <-; eexists; vm_compute; reflexivity.
    + left. reflexivity.
    + vm_compute. reflexivity.
    + assert (found_documents sample_search_of 0 (Cli.resolve "pubmed, epo")
              = [sample_article]) as -> by (vm_compute; reflexivity).
      repeat constructor; vm_compute; reflexivity.
  - subst empty_run.
    rewrite (scrape_then_read sample_settings Json.model_dump_json
               (Json.model_validate_json sample_now) (λ _ _, Ok [])
               "epo" "out.jsonl" ∅).
    + vm_compute. reflexivity.
    + discriminate.
    + vm_compute. reflexivity.
    + intros i name _. by eexists.
    + left. reflexivity.
    + vm_compute. reflexivity.
    + assert (found_documents (λ _ _, Ok []) 0 (Cli.resolve "epo")
              = ([] : list ScientificDocument)) as ->
        by (vm_compute; reflexivity).
      constructor.
Defined.

(** ** Default output files *)

Lemma string_app_length (a b : string) :
  String.length (a +:+ b) = (String.length a + String.length b)%nat.
Proof.
  induction a as [|c a IH]; [done|]. rewrite string_app_cons. simpl. by rewrite IH.
Qed.

Lemma string_app_inv_head (a x y : string) : a +:+ x = a +:+ y → x = y.
Proof.
  induction a as [|c a IH]; [done|]. rewrite !string_app_cons.
  intros [= H]. by apply IH.
Qed.

Lemma string_app_inv_tail (b : string) : ∀ x y, x +:+ b = y +:+ b → x = y.
Proof.
  induction x as [|c x IH]; intros [|c' y] H.
  - done.
  - apply (f_equal String.length) in H.
    rewrite string_app_nil_l, string_app_cons in H. cbn [String.length] in H.
    rewrite string_app_length in H. lia.
  - apply (f_equal String.length) in H.
    rewrite string_app_nil_l, string_app_cons in H. cbn [String.length] in H.
    rewrite string_app_length in H. lia.
  - rewrite !string_app_cons in H. injection H as -> H. f_equal. by apply IH.
Qed.

(** Two sources have the same default file only when they are the same
    source. *)
Lemma default_output_path_inj (settings : Settings) (name1 name2 : string) :
  Cli.default_output_path settings name1 = Cli.default_output_path settings name2 →
  name1 = name2.
Proof.
  unfold Cli.default_output_path. intros H.
  apply string_app_inv_head in H. apply (string_app_inv_head "/") in H.
  by apply string_app_inv_tail in H.
Qed.

Section default_files.
Variable settings : Settings.
Variable model_dump_json : ScientificDocument → string.
Variable search_of : nat → string → result (list ScientificDocument).
Variable output : option string.
Hypothesis no_output : Py.truthy_opt output = false.

Local Abbreviation loop := (Cli.scrape_loop settings model_dump_json search_of output).
Local Abbreviation file_of := (Cli.default_output_path settings).

Lemma scrape_loop_default_files (names : list string) :
  ∀ total fs called,
    NoDup names →
    (∀ i name, names !! i = Some name →
       ∃ documents, search_of (length called + i) name = Ok documents) →
    (∀ other, (∀ name, name ∈ names → other ≠ file_of name) →
       Cli.files (loop names total fs called) !! other = fs !! other) ∧
    (∀ k name, names !! k = Some name →
       Cli.files (loop names total fs called) !! file_of name
       = match search_of (length called + k) name with
         | Ok (d :: ds) =>
             Some (default "" (fs !! file_of name)
                   +:+ dumped_lines model_dump_json (d :: ds))
         | _ => fs !! file_of name
         end).
Proof.
  induction names as [|n0 names IH]; intros total fs called Hnodup Hok;
    cbn [Cli.scrape_loop].
  - split; [done|]. by intros k name Hk.
  - apply NoDup_cons in Hnodup as [Hnotin Hnodup].
    destruct (Hok 0%nat n0 eq_refl) as [documents Hd].
    rewrite Nat.add_0_r in Hd.
    assert (Hrest : ∀ i n, names !! i = Some n →
              ∃ docs, search_of (length (called ++ [n0]) + i) n = Ok docs).
    { intros i n Hi. rewrite length_app. simpl.
      replace (length called + 1 + i)%nat with (length called + S i)%nat by lia.
      by apply Hok. }
    assert (Hshift : ∀ k, (length (called ++ [n0]) + k)%nat
                          = (length called + S k)%nat)
      by (intros k; rewrite length_app; simpl; lia).
    assert (Hother : ∀ name, name ∈ names → file_of n0 ≠ file_of name).
    { intros name Hin Heq. apply default_output_path_inj in Heq. by subst. }
    rewrite Hd. destruct documents as [|doc documents].
    + destruct (IH total fs (called ++ [n0]) Hnodup Hrest) as [IH1 IH2].
      split.
      * intros other Hfree. apply IH1. intros name Hin. apply Hfree. by right.
      * intros [|k] name Hk.
        -- injection Hk as <-. rewrite Nat.add_0_r, Hd. by apply IH1.
        -- simpl in Hk. rewrite (IH2 k name Hk). by rewrite Hshift.
    + rewrite no_output. rewrite append_documents_content.
      match goal with |- context [Cli.scrape_loop _ _ _ _ names ?t ?f ?c] =>
        destruct (IH t f c Hnodup Hrest) as [IH1 IH2] end.
      split.
      * intros other Hfree. rewrite IH1.
        -- rewrite lookup_insert_ne; [done|]. intros Heq. by apply (Hfree n0); [left|].
        -- intros name Hin. apply Hfree. by right.
      * intros [|k] name Hk.
        -- injection Hk as <-. rewrite Nat.add_0_r, Hd.
           rewrite IH1 by exact Hother. by rewrite lookup_insert_eq.
        -- simpl in Hk. rewrite (IH2 k name Hk), Hshift.
           assert (file_of n0 ≠ file_of name) as Hne
             by (apply Hother; by eapply list_elem_of_lookup_2).
           by rewrite lookup_insert_ne.
Qed.
End default_files.

(** X25.  Without [--output], every source writes to its own file and
    to no other: in a run over registered names without repetition in
    which every search returns, the file [<output_dir>/<name>.jsonl] of a
    source holds what it held before followed by one line for each
    document of that source, and is left as it was (not even created)
    when the source found nothing; a file that is not the default file of
    a listed source is left untouched.  (A file is told from another by
    the text of its path, as everywhere in the model of the files.) *)
Theorem scrape_default_files (settings : Settings)
    (model_dump_json : ScientificDocument → string)
    (search_of : nat → string → result (list ScientificDocument))
    (source : string) (output : option string) (fs : gmap string string) :
  Py.truthy_opt output = false →
  Cli.first_unknown (Cli.resolve source) = None →
  NoDup (Cli.resolve source) →
  (∀ i name, Cli.resolve source !! i = Some name →
     ∃ documents, search_of i name = Ok documents) →
  let run := Cli.scrape settings model_dump_json search_of source output fs in
  (∀ k name, Cli.resolve source !! k = Some name →
     Cli.files run !! Cli.default_output_path settings name
     = match search_of k name with
       | Ok (d :: ds) =>
           Some (default "" (fs !! Cli.default_output_path settings name)
                 +:+ dumped_lines model_dump_json (d :: ds))
       | _ => fs !! Cli.default_output_path settings name
       end) ∧
  (∀ other,
     (∀ name, name ∈ Cli.resolve source →
        other ≠ Cli.default_output_path settings name) →
     Cli.files run !! other = fs !! other).
Proof.
  intros Hout Hknown Hnodup Hok run. subst run. unfold Cli.scrape.
  rewrite Hknown.
  destruct (scrape_loop_default_files settings model_dump_json search_of output
              Hout (Cli.resolve source) 0 fs [] Hnodup Hok) as [H1 H2].
  split; [exact H2 | exact H1].
Qed.

Lemma scrape_default_files_witness :
  let run := Cli.scrape sample_settings Json.model_dump_json sample_search_of
               "pubmed, epo" None ∅ in
  Cli.files run !! "./data/pubmed.jsonl"
  = Some (dumped_lines Json.model_dump_json [sample_article]) ∧
  Cli.files run !! "./data/epo.jsonl" = None.
Proof.
  intros run. subst run.
  destruct (scrape_default_files sample_settings Json.model_dump_json
              sample_search_of "pubmed, epo" None ∅) as [Hfiles _].
  - reflexivity.
  - vm_compute. reflexivity.
  - assert (Cli.resolve "pubmed, epo" = ["pubmed"; "epo"]) as ->
      by (vm_compute; reflexivity).
    apply NoDup_cons. split.
    + intros Hin. apply list_elem_of_singleton in Hin. discriminate Hin.
    + apply NoDup_singleton.
  - intros [|[|i]] name Hi; vm_compute in Hi; try discriminate;
      injection Hi as <-; eexists; vm_compute; reflexivity.
  - split.
    + etrans; [apply (Hfiles 0%nat "pubmed"); vm_compute; reflexivity|].
      vm_compute. reflexivity.
    + etrans; [apply (Hfiles 1%nat "epo"); vm_compute; reflexivity|].
      vm_compute. reflexivity.
Defined.

(** ** Documents returned by the searches *)

Lemma paged_elem {X} (page_docs : X → list ScientificDocument)
    (exhausted : X → bool) (max_results : Z) (r : list ScientificDocument)
    (log : list X) (P : ScientificDocument → Prop) :
  paged page_docs exhausted max_results r log →
  (∀ x d, d ∈ page_docs x → P d) →
  Forall P r.
Proof.
  intros [-> _] HP. apply Forall_forall. intros d Hd.
  apply (subseteq_take (Z.to_nat max_results)) in Hd.
  apply list_elem_of_bind in Hd as (x & Hd & _). by eapply HP.
Qed.

Section tags.
Variable utcnow : datetime.
Variable fromisoformat : string → option date.
Variable parse_html : string → GooglePatentsScraper.node.
Variable fromstring : string → option EPOScraper.xml.

Lemma pubmed_tagged (r : PubMed.record) (d : ScientificDocument) :
  PubMed._record_to_document utcnow r = Ok (Some d) → tagged PUBMED d.
Proof.
  intros H. pose proof (pubmed_title utcnow r) as Ht. rewrite H in Ht.
  split; [|by destruct Ht].
  unfold PubMed._record_to_document in H. destruct (negb _); [done|].
  destruct (PubMed._parse_date _) as [pub_date|e]; [|done].
  by injection H as <-.
Qed.

Lemma uspto_tagged (p : USPTOScraper.patent) (d : ScientificDocument) :
  USPTOScraper._patent_to_document utcnow fromisoformat p = Some d →
  tagged USPTO d.
Proof.
  intros H. pose proof (uspto_title utcnow fromisoformat p) as Ht.
  rewrite H in Ht. split; [|by destruct Ht].
  unfold USPTOScraper._patent_to_document in H. destruct (negb _); [done|].
  by injection H as <-.
Qed.

Lemma serpapi_tagged (r : GooglePatentsScraper.serp_result)
    (d : ScientificDocument) :
  GooglePatentsScraper._serpapi_result_to_document utcnow fromisoformat r = Some d →
  tagged GOOGLE_PATENTS d.
Proof.
  intros H. pose proof (serpapi_title utcnow fromisoformat r) as Ht.
  rewrite H in Ht. split; [|by destruct Ht].
  unfold GooglePatentsScraper._serpapi_result_to_document in H.
  destruct (negb _); [done|]. by injection H as <-.
Qed.

Lemma html_tagged (e : GooglePatentsScraper.node) (d : ScientificDocument) :
  GooglePatentsScraper._html_result_to_document utcnow e = Some d →
  tagged GOOGLE_PATENTS d.
Proof.
  intros H. pose proof (html_title utcnow e) as Ht. rewrite H in Ht.
  split; [|done].
  unfold GooglePatentsScraper._html_result_to_document in H.
  destruct (negb _); [done|].
  destruct (GooglePatentsScraper.select_one
              [GooglePatentsScraper.tag_attr_contains "a" "href" "/patent/"] e)
    as [[|? ? ?]|]; simpl in H; by injection H as <-.
Qed.

Lemma epo_tagged (elem : EPOScraper.xml) (d : ScientificDocument) :
  EPOScraper._element_to_document utcnow elem = Some d → tagged EPO d.
Proof.
  intros H. pose proof (epo_title utcnow elem) as Ht. rewrite H in Ht.
  split; [|done].
  unfold EPOScraper._element_to_document in H. destruct (negb _); [done|].
  by injection H as <-.
Qed.

Lemma uspto_page_tagged (x : USPTOScraper.exchange) (d : ScientificDocument) :
  d ∈ uspto_page_docs utcnow fromisoformat x → tagged USPTO d.
Proof.
  unfold uspto_page_docs. destruct x.2 as [[data|]|e]; try by intros ?%elem_of_nil.
  intros (p & _ & Hp)%list_elem_of_omap. by eapply uspto_tagged.
Qed.

Lemma google_page_tagged (x : GooglePatentsScraper.exchange)
    (d : ScientificDocument) :
  d ∈ google_page_docs utcnow fromisoformat parse_html x →
  tagged GOOGLE_PATENTS d.
Proof.
  unfold google_page_docs.
  destruct x as [params [organic|e]|params [[st text]|e]];
    try by intros ?%elem_of_nil.
  - intros (r & _ & Hr)%list_elem_of_omap. by eapply serpapi_tagged.
  - destruct (_ && _); [|by intros ?%elem_of_nil].
    intros (b & _ & Hb)%list_elem_of_omap. by eapply html_tagged.
Qed.

Lemma epo_page_tagged (x : EPOScraper.exchange) (d : ScientificDocument) :
  d ∈ epo_page_docs utcnow fromstring x → tagged EPO d.
Proof.
  unfold epo_page_docs.
  destruct (EPOScraper.x_outcome x) as [[st content]|e];
    [|by intros ?%elem_of_nil].
  destruct (st =? 200); [|by intros ?%elem_of_nil].
  unfold EPOScraper._parse_search_response.
  destruct (fromstring content) as [root|]; [|by intros ?%elem_of_nil].
  intros (b & _ & Hb)%list_elem_of_omap. by eapply epo_tagged.
Qed.

Lemma pubmed_batch_tagged (x : PubMed.exchange) (d : ScientificDocument) :
  d ∈ pubmed_batch_docs utcnow x → tagged PUBMED d.
Proof.
  unfold pubmed_batch_docs.
  destruct x as [kw o|args [records|e]]; try by intros ?%elem_of_nil.
  intros (r & _ & Hr)%list_elem_of_omap. unfold pubmed_record_doc in Hr.
  destruct (PubMed._record_to_document utcnow r) as [doc|e] eqn:E; [|done].
  subst doc. by eapply pubmed_tagged.
Qed.
End tags.

(** X26.  Whatever the upstreams answer, every document a search
    returns has a title and carries the source of its adapter: the
    national registry returns USPTO documents only, the web aggregator
    (in either strategy) Google Patents documents, the international
    registry EPO documents and the literature index PubMed documents. *)
Theorem search_results_are_tagged (utcnow : datetime)
    (fromisoformat : string → option date)
    (parse_html : string → GooglePatentsScraper.node)
    (fromstring : string → option EPOScraper.xml)
    (query : string) (max_results : Z) (date_from date_to : option string) :
  (∀ post fuel r log,
     USPTOScraper.search utcnow fromisoformat post fuel query max_results
       date_from date_to = Some (Ok r, log) →
     Forall (tagged USPTO) r) ∧
  (∀ installed get_dict http_get settings fuel r log,
     GooglePatentsScraper.search utcnow fromisoformat installed get_dict http_get
       parse_html settings fuel query max_results date_from date_to
     = Some (Ok r, log) →
     Forall (tagged GOOGLE_PATENTS) r) ∧
  (∀ self fuel r log,
     EPOScraper.search utcnow fromstring self fuel query max_results
       date_from date_to = Some (Ok r, log) →
     Forall (tagged EPO) r) ∧
  (∀ esearch efetch r log,
     PubMed.search utcnow esearch efetch query max_results date_from date_to
     = (Ok r, log) →
     Forall (tagged PUBMED) r).
Proof.
  repeat apply conj.
  - intros post fuel r log H. apply uspto_search_paged in H.
    eapply paged_elem; [exact H|]. apply uspto_page_tagged.
  - intros installed get_dict http_get settings fuel r log.
    unfold GooglePatentsScraper.search.
    destruct (Py.truthy_opt (serpapi_key settings)); intros H.
    + apply (serpapi_search_paged _ _ parse_html) in H as [H|(_ & -> & _)];
        [|done].
      eapply paged_elem; [exact H|]. apply google_page_tagged.
    + apply (http_search_paged _ fromisoformat) in H.
      eapply paged_elem; [exact H|]. apply google_page_tagged.
  - intros [[client|]] fuel r log H.
    + apply epo_search_paged in H as (docs & [= <-] & H).
      eapply paged_elem; [exact H|]. apply epo_page_tagged.
    + unfold EPOScraper.search in H. simpl in H. by injection H as <- <-.
  - intros esearch efetch r log H.
    apply pubmed_search_ok in H as (-> & _).
    apply Forall_forall. intros d (x & Hd & _)%list_elem_of_bind.
    by eapply pubmed_batch_tagged.
Qed.

Lemma search_results_are_tagged_witness :
  ∃ r log,
    USPTOScraper.search sample_now Json.parse_iso_date sample_post_last
      10 "aspirin" 5 None None = Some (Ok r, log) ∧
    length r = 1%nat ∧ Forall (tagged USPTO) r.
Proof.
  destruct (search_results_are_tagged sample_now Json.parse_iso_date
              sample_parse_html (λ _, None) "aspirin" 5 None None) as (Hu & _).
  eexists _, _. split; [vm_compute; reflexivity|]. split; [reflexivity|].
  eapply (Hu sample_post_last 10%nat). vm_compute. reflexivity.
Defined.

(** ** The HTML strategy *)

(** X27.  A document of the HTML strategy has at most one identifier, a
    patent number taken from the first link to a patent; the number is
    not empty and holds no slash.  Such a document has no authors and no
    date, and its office is Google Patents. *)
Theorem html_patent_number (utcnow : datetime) (e : GooglePatentsScraper.node) :
  match GooglePatentsScraper._html_result_to_document utcnow e with
  | Some d =>
      authors d = [] ∧ publication_date d = None ∧
      journal_or_office d = Some "Google Patents" ∧
      (identifiers d = [] ∨
       ∃ number, identifiers d
                 = [{| id_type := "patent_number"; id_value := number |}] ∧
                 number ≠ "" ∧ Py.contains "/" number = false)
  | None => True
  end.
Proof.
  unfold GooglePatentsScraper._html_result_to_document.
  destruct (negb _); [done|].
  destruct (GooglePatentsScraper.select_one
              [GooglePatentsScraper.tag_attr_contains "a" "href" "/patent/"] e)
    as [[s|tag attrs children]|]; simpl;
    (split; [done|]; split; [done|]; split; [done|]); [by left| |by left].
  destruct (Py.split_str "/patent/" (default "" (GooglePatentsScraper.attr "href" attrs)))
    as [|p0 [|p1 rest]]; simpl; [by left|by left|].
  destruct (split_char_head "/" p1) as (piece & more & Hs & Hp).
  change (Ascii.Ascii true true true true false true false false) with "/"%char.
  rewrite Hs. simpl. destruct piece as [|c piece]; simpl; [by left|].
  right. by eexists.
Qed.

Section http_attempts.
Variable http_get :
  nat → gmap string GooglePatentsScraper.pval → result (Z * string).
Variable query : string.
Variables date_from date_to : option string.

Lemma page_requests_S (params : gmap string GooglePatentsScraper.pval)
    (n k : nat) :
  page_requests http_get params n (S k)
  = GooglePatentsScraper.Http params (http_get n params)
    :: page_requests http_get params (S n) k.
Proof.
  unfold page_requests.
  rewrite <- cons_seq, fmap_cons, <- fmap_S_seq, <- list_fmap_compose.
  rewrite Nat.add_0_r. f_equal. apply list_fmap_ext. intros _ i _. simpl.
  by rewrite Nat.add_succ_r.
Qed.

Lemma http_retry_attempts (retries : nat) (page : Z) :
  ∀ log,
    let params := GooglePatentsScraper.http_params query page date_from date_to in
    ∃ k, (1 ≤ k ≤ S retries)%nat ∧
      retry_go retries
        (λ log,
           let params :=
             GooglePatentsScraper.http_params query page date_from date_to in
           let resp := http_get (length log) params in
           (match resp with
            | Raise e => Raise e
            | Ok (status_code, text) =>
                if negb (status_code =? 200) then Ok None else Ok (Some text)
            end, log ++ [GooglePatentsScraper.Http params resp])) log
      = (page_of (http_get (length log + (k - 1)) params),
         log ++ page_requests http_get params (length log) k) ∧
      (∀ i, (i < k - 1)%nat →
         retryable_failure (http_get (length log + i) params) = true).
Proof.
  induction retries as [|r IH]; intros log params; subst params; simpl.
  - exists 1%nat. split; [lia|]. rewrite page_requests_S. unfold page_requests. simpl.
    rewrite Nat.add_0_r. unfold page_of.
    split; [|intros; lia].
    destruct (http_get (length log) _) as [[st text]|e]; [|done].
    by destruct (negb (st =? 200)).
  - destruct (http_get (length log) _) as [[st text]|e] eqn:Hg.
    + exists 1%nat. split; [lia|]. rewrite page_requests_S. unfold page_requests. simpl.
      rewrite Nat.add_0_r, Hg. split; [|intros; lia].
      unfold page_of. by destruct (negb (st =? 200)).
    + destruct (is_retryable e) eqn:He.
      * destruct (IH (log ++ [GooglePatentsScraper.Http
                                (GooglePatentsScraper.http_params query page
                                   date_from date_to) (Raise e)]))
          as (k & Hk & Heq & Hbefore).
        rewrite length_app in Heq, Hbefore. simpl in Heq, Hbefore.
        exists (S k). split; [lia|]. rewrite Heq, page_requests_S, Hg.
        replace (length log + 1 + (k - 1))%nat with (length log + (S k - 1))%nat
          by lia.
        replace (length log + 1)%nat with (S (length log)) by lia.
        rewrite <- app_assoc. split; [done|].
        intros [|i] Hi.
        -- rewrite Nat.add_0_r, Hg. exact He.
        -- replace (length log + S i)%nat with (length log + 1 + i)%nat by lia.
           apply Hbefore. lia.
      * exists 1%nat. split; [lia|]. rewrite page_requests_S. unfold page_requests. simpl.
        rewrite Nat.add_0_r, Hg. split; [done|intros; lia].
Qed.
End http_attempts.

(** X28.  The HTML strategy asks for a page at most three times, each
    time with the same parameters; every request but the last failed
    with a connection error, a timeout or an HTTP error; and what the
    fetch gives is the page of the last response: its text when the
    status is 200, nothing when it is not, the exception when the last
    request raised. *)
Theorem fetch_search_page_attempts
    (http_get : nat → gmap string GooglePatentsScraper.pval → result (Z * string))
    (query : string) (page : Z) (date_from date_to : option string)
    (log : list GooglePatentsScraper.exchange) :
  let params := GooglePatentsScraper.http_params query page date_from date_to in
  ∃ k, (1 ≤ k ≤ 3)%nat ∧
    GooglePatentsScraper._fetch_search_page http_get query page date_from
      date_to log
    = (page_of (http_get (length log + (k - 1))%nat params),
       log ++ page_requests http_get params (length log) k) ∧
    (∀ i, (i < k - 1)%nat →
       retryable_failure (http_get (length log + i)%nat params) = true).
Proof.
  intros params.
  destruct (http_retry_attempts http_get query date_from date_to 2 page log)
    as (k & Hk & Heq & Hbefore).
  exists k. split; [lia|]. split; [exact Heq | exact Hbefore].
Qed.
